(** * Insyd notification back end: event fan-out, de-duplication, sweeps

    A shallow embedding of the Node.js back end (models/User.js,
    models/Event.js, models/Notification.js, services/notificationProcessor.js
    services/seedService.js and the route handlers that reach them),
    followed by the properties the design document states about it and
    further properties of the code.

    Conventions of the embedding.
    - A MongoDB collection is a list in natural (insertion) order; [findOne]
      returns the first match.  A document handle is the record together with
      its position in the collection, which stands for Mongo's [_id].
    - [async] code runs in a state-and-exception monad over [World]: the three
      collections, the wall clock, the uuid source, the script of outcomes of
      the awaited storage calls still to come, and the console.  The clock
      advances while a storage call is awaited; a schema default that
      reads it does so some milliseconds after the document literal.
    - Dates are integers (milliseconds since the epoch).
    - A JS string is a [string]; one [ascii] stands for one UTF-16 code unit,
      so [String.length] is JS [.length].
    - [console.error] and [console.warn] lines are recorded; [console.log]
      progress lines are not.
    - The in-memory [EventQueue] of the processor is run to completion:
      no event is enqueued while the queue drains.  The routes and the
      sweep call [processEvent] directly.
    - The queries that [populate] references ([getUserNotifications],
      [getRecentEvents]) and the text search [searchUsers] are left out,
      and so are the [GET] routes built on them.  A user's [profile] and
      the [createdAt]/[updatedAt] stamps play no part in what follows and
      are left out of the records. *)

From Stdlib Require Import ZArith Lia Bool String Ascii List Permutation Sorted.
From stdpp Require Import base tactics list sorting strings pretty.
Import ListNotations.

Local Open Scope string_scope.
Local Open Scope Z_scope.
Local Open Scope list_scope.

(** ** JavaScript values *)

Module Js.

(** Truthiness of a string value: the empty string is falsy. *)
Definition truthy (s : string) : bool := negb (String.eqb s EmptyString).

(** Truthiness of a possibly absent string ([undefined], [null] are falsy). *)
Definition truthy_opt (o : option string) : bool :=
  match o with
  | Some s => truthy s
  | None => false
  end.

(** [a === b] on possibly absent strings, as a MongoDB equality filter on a
    string field sees it: an absent filter value matches an absent field. *)
Definition opt_eqb (a b : option string) : bool :=
  match a, b with
  | Some x, Some y => String.eqb x y
  | None, None => true
  | _, _ => false
  end.

(** [Array.prototype.includes] on an array of strings. *)
Fixpoint includes (l : list string) (x : string) : bool :=
  match l with
  | [] => false
  | y :: l' => String.eqb y x || includes l' x
  end.

(** The double-quote character. *)
Definition dquote : string := String (ascii_of_nat 34) EmptyString.

End Js.

(** ** models/User.js *)

Module User.

Record Preferences := {
  emailNotifications : bool;
  pushNotifications : bool;
  notificationTypes : list string;
}.

Record t := {
  userId : string;
  username : string;
  email : string;
  preferences : Preferences;
  followers : list string;
  following : list string;
}.

(** [enum] of [preferences.notificationTypes] in [userSchema]. *)
Definition notificationTypes_enum : list string :=
  ["LIKE"; "FOLLOW"; "COMMENT"; "POST_CREATE"; "MENTION"].

(** Schema defaults of [preferences]. *)
Definition default_preferences : Preferences := {|
  emailNotifications := true;
  pushNotifications := true;
  notificationTypes := ["LIKE"; "FOLLOW"; "COMMENT"; "POST_CREATE"; "MENTION"];
|}.

(** Validation run by [save] and [insertMany]: required strings are
    non-empty, [username] has 3 to 30 code units, and every element of
    [notificationTypes] belongs to the enum. *)
Definition valid (u : t) : bool :=
  Js.truthy (userId u)
  && Js.truthy (username u)
  && (3 <=? String.length (username u))%nat
  && (String.length (username u) <=? 30)%nat
  && Js.truthy (email u)
  && forallb (Js.includes notificationTypes_enum)
             (notificationTypes (preferences u)).

Definition set_preferences (p : Preferences) (u : t) : t :=
  {| userId := userId u; username := username u; email := email u;
     preferences := p; followers := followers u; following := following u |}.

Definition set_followers (l : list string) (u : t) : t :=
  {| userId := userId u; username := username u; email := email u;
     preferences := preferences u; followers := l; following := following u |}.

Definition set_following (l : list string) (u : t) : t :=
  {| userId := userId u; username := username u; email := email u;
     preferences := preferences u; followers := followers u; following := l |}.

End User.

(** ** models/Event.js *)

Module Event.

(** [event.data].  [mentionedUsers] is read by the processor although
    [eventSchema] does not declare it. *)
Record Data := {
  postId : option string;
  commentId : option string;
  content : option string;
  mentionedUsers : option (list string);
  metadata : option (list (string * string));
}.

Record t := {
  eventId : string;
  type : string;
  sourceUserId : string;
  targetUserId : option string;
  data : Data;
  timestamp : Z;
  processed : bool;
  notificationsGenerated : list (string * string);
}.

Definition type_enum : list string :=
  ["LIKE"; "FOLLOW"; "COMMENT"; "POST_CREATE"; "MENTION"; "SHARE"].

(** The update document of [processEvent]:
    [{ processed: true, notificationsGenerated: gen }]. *)
Definition mark_processed (gen : list (string * string)) (e : t) : t :=
  {| eventId := eventId e; type := type e; sourceUserId := sourceUserId e;
     targetUserId := targetUserId e; data := data e;
     timestamp := timestamp e; processed := true;
     notificationsGenerated := gen |}.

End Event.

(** ** models/Notification.js *)

Module Notification.

Inductive Status := unread | read | dismissed.

Definition status_eqb (a b : Status) : bool :=
  match a, b with
  | unread, unread | read, read | dismissed, dismissed => true
  | _, _ => false
  end.

Record Data := {
  postId : option string;
  commentId : option string;
  url : option string;
  imageUrl : option string;
  metadata : list (string * string);
}.

Record t := {
  notificationId : string;
  userId : string;
  type : string;
  content : string;
  status : Status;
  relatedEventId : option string;
  sourceUserId : option string;
  data : Data;
  timestamp : Z;
  readAt : option Z;
  dismissedAt : option Z;
  expiresAt : option Z;
}.

Definition type_enum : list string :=
  ["LIKE"; "FOLLOW"; "COMMENT"; "POST_CREATE"; "MENTION"; "SHARE"].

(** Thirty days in milliseconds: [30 * 24 * 60 * 60 * 1000]. *)
Definition thirty_days : Z := 30 * 24 * 60 * 60 * 1000.

(** Document validation run by [save]: the [required] strings are
    non-empty and [type] belongs to the enum ([status] is in its enum by
    its type). *)
Definition valid (n : t) : bool :=
  Js.truthy (notificationId n)
  && Js.truthy (userId n)
  && Js.truthy (type n) && Js.includes type_enum (type n)
  && Js.truthy (content n).

Definition set_status_readAt (s : Status) (d : Z) (n : t) : t :=
  {| notificationId := notificationId n; userId := userId n; type := type n;
     content := content n; status := s;
     relatedEventId := relatedEventId n; sourceUserId := sourceUserId n;
     data := data n; timestamp := timestamp n; readAt := Some d;
     dismissedAt := dismissedAt n; expiresAt := expiresAt n |}.

Definition set_status_dismissedAt (s : Status) (d : Z) (n : t) : t :=
  {| notificationId := notificationId n; userId := userId n; type := type n;
     content := content n; status := s;
     relatedEventId := relatedEventId n; sourceUserId := sourceUserId n;
     data := data n; timestamp := timestamp n; readAt := readAt n;
     dismissedAt := Some d; expiresAt := expiresAt n |}.

End Notification.

(** ** The world the asynchronous code runs in *)

Record DB := {
  users : list User.t;
  notifications : list Notification.t;
  events : list Event.t;
}.

(** Outcome of one awaited storage call: whether it rejects, and how many
    milliseconds pass while it is awaited. *)
Record IO := { rejects : bool; elapsed : nat }.

Inductive Level := LError | LWarn.

Record World := {
  db : DB;
  clock : Z;                      (* Date.now() *)
  rng : nat -> string;            (* the values uuidv4() will return *)
  drawn : nat;                    (* how many have been drawn *)
  pending : list IO;              (* outcomes of the storage calls to come *)
  console : list (Level * string);
  env_FRONTEND_URL : option string;   (* process.env.FRONTEND_URL *)
  lag : nat -> nat;               (* ms from a document literal to its
                                     schema defaults, per uuid drawn *)
}.

Inductive Error := StorageError | ValidationError | DuplicateKeyError.

Inductive Result (A : Type) :=
| Ok (a : A)
| Throw (e : Error).
Arguments Ok {A} a.
Arguments Throw {A} e.

(** Promise-returning code: a world transformer that resolves or rejects. *)
Definition M (A : Type) : Type := World -> Result A * World.

Definition ret {A} (a : A) : M A := fun w => (Ok a, w).

Definition throw {A} (e : Error) : M A := fun w => (Throw e, w).

Definition bind {A B} (m : M A) (k : A -> M B) : M B :=
  fun w =>
    match m w with
    | (Ok a, w') => k a w'
    | (Throw e, w') => (Throw e, w')
    end.

(** [try { m } catch (error) { h error }] *)
Definition try_catch {A} (m : M A) (h : Error -> M A) : M A :=
  fun w =>
    match m w with
    | (Ok a, w') => (Ok a, w')
    | (Throw e, w') => h e w'
    end.

Notation "x <- m ;; k" := (bind m (fun x => k))
  (at level 100, m at next level, right associativity).
Notation "m ;;; k" := (bind m (fun _ => k))
  (at level 100, right associativity).

Definition set_db (d : DB) (w : World) : World :=
  {| db := d; clock := clock w; rng := rng w; drawn := drawn w;
     pending := pending w; console := console w;
     env_FRONTEND_URL := env_FRONTEND_URL w; lag := lag w |}.

Definition set_users (l : list User.t) (d : DB) : DB :=
  {| users := l; notifications := notifications d; events := events d |}.

Definition set_notifications (l : list Notification.t) (d : DB) : DB :=
  {| users := users d; notifications := l; events := events d |}.

Definition set_events (l : list Event.t) (d : DB) : DB :=
  {| users := users d; notifications := notifications d; events := l |}.

(** [Date.now()] *)
Definition Date_now : M Z := fun w => (Ok (clock w), w).

(** [Date.now()] inside a schema default.  The default is evaluated when
    the model constructor builds the document, after the document literal
    it is given: it reads the clock [lag] milliseconds later. *)
Definition default_Date_now : M Z :=
  fun w => (Ok (clock w + Z.of_nat (lag w (drawn w))), w).

(** [uuidv4()] *)
Definition uuidv4 : M string :=
  fun w =>
    (Ok (rng w (drawn w)),
     {| db := db w; clock := clock w; rng := rng w; drawn := S (drawn w);
        pending := pending w; console := console w;
        env_FRONTEND_URL := env_FRONTEND_URL w; lag := lag w |}).

Definition console_error (msg : string) : M unit :=
  fun w =>
    (Ok tt,
     {| db := db w; clock := clock w; rng := rng w; drawn := drawn w;
        pending := pending w; console := console w ++ [(LError, msg)];
        env_FRONTEND_URL := env_FRONTEND_URL w; lag := lag w |}).

Definition console_warn (msg : string) : M unit :=
  fun w =>
    (Ok tt,
     {| db := db w; clock := clock w; rng := rng w; drawn := drawn w;
        pending := pending w; console := console w ++ [(LWarn, msg)];
        env_FRONTEND_URL := env_FRONTEND_URL w; lag := lag w |}).

(** Awaiting one storage call: the next scripted outcome is consumed, the
    clock advances by its [elapsed] time, and the call rejects when the
    outcome says so.  With the script exhausted the call resolves at once. *)
Definition await_storage : M unit :=
  fun w =>
    match pending w with
    | [] => (Ok tt, w)
    | o :: rest =>
        let w' := {| db := db w; clock := clock w + Z.of_nat (elapsed o);
                     rng := rng w; drawn := drawn w; pending := rest;
                     console := console w;
                     env_FRONTEND_URL := env_FRONTEND_URL w; lag := lag w |} in
        if rejects o then (Throw StorageError, w') else (Ok tt, w')
    end.

Definition get_db : M DB := fun w => (Ok (db w), w).

Definition get_FRONTEND_URL : M (option string) :=
  fun w => (Ok (env_FRONTEND_URL w), w).

Definition put_db (d : DB) : M unit := fun w => (Ok tt, set_db d w).

(** ** Collection helpers *)

(** First element satisfying [p], with its position. *)
Fixpoint find_first {A} (p : A -> bool) (l : list A) : option (nat * A) :=
  match l with
  | [] => None
  | x :: l' =>
      if p x then Some (O, x)
      else match find_first p l' with
           | Some (i, y) => Some (S i, y)
           | None => None
           end
  end.

(** Apply [f] to the element at a position (nothing happens out of
    range). *)
Fixpoint alter_at {A} (i : nat) (f : A -> A) (l : list A) : list A :=
  match l, i with
  | [], _ => []
  | y :: l', O => f y :: l'
  | y :: l', S i' => y :: alter_at i' f l'
  end.

(** Apply [f] to the first element satisfying [p]. *)
Fixpoint update_first {A} (p : A -> bool) (f : A -> A) (l : list A) : list A :=
  match l with
  | [] => []
  | x :: l' => if p x then f x :: l' else x :: update_first p f l'
  end.

(** Apply [f] to every element satisfying [p]. *)
Definition update_all {A} (p : A -> bool) (f : A -> A) (l : list A) : list A :=
  map (fun x => if p x then f x else x) l.

(** [insertMany] in its default ordered mode: the documents are inserted
    one after the other up to the first that violates a unique index.  The
    flag tells whether all went in. *)
Fixpoint insert_ordered {A} (clash : A -> list A -> bool) (docs coll : list A)
  : list A * bool :=
  match docs with
  | [] => (coll, true)
  | x :: rest =>
      if clash x coll then (coll, false)
      else insert_ordered clash rest (coll ++ [x])
  end.

(** ** Storage operations on users (statics and [save] of models/User.js) *)

Module Users.

(** [User.findByUserId(id)], that is [this.findOne({ userId })]. *)
Definition findByUserId (id : string) : M (option User.t) :=
  await_storage ;;;
  d <- get_db ;;
  ret (List.find (fun u => String.eqb (User.userId u) id) (users d)).

(** [User.findOne({ userId })] returning the document handle. *)
Definition findHandle (id : string) : M (option (nat * User.t)) :=
  await_storage ;;;
  d <- get_db ;;
  ret (find_first (fun u => String.eqb (User.userId u) id) (users d)).

(** [User.find({ following: id })]: users whose [following] array
    contains [id]. *)
Definition findFollowing (id : string) : M (list User.t) :=
  await_storage ;;;
  d <- get_db ;;
  ret (List.filter (fun u => Js.includes (User.following u) id) (users d)).

(** [User.findOne({ $or: [{ userId }, { email }, { username }] })] *)
Definition findExisting (id mail name : string) : M (option User.t) :=
  await_storage ;;;
  d <- get_db ;;
  ret (List.find (fun u => String.eqb (User.userId u) id
                           || String.eqb (User.email u) mail
                           || String.eqb (User.username u) name) (users d)).

(** The unique indexes of the collection: [userId] and [email]. *)
Definition clashes (u : User.t) (l : list User.t) : bool :=
  existsb (fun v => String.eqb (User.userId v) (User.userId u)
                    || String.eqb (User.email v) (User.email u)) l.

(** [save()] of a new document: validate, then insert. *)
Definition insert (u : User.t) : M unit :=
  if negb (User.valid u) then throw ValidationError
  else
    await_storage ;;;
    d <- get_db ;;
    if clashes u (users d) then throw DuplicateKeyError
    else put_db (set_users (users d ++ [u]) d).

(** [save()] of a fetched document [u] whose modified paths are set by
    [patch]: the document is validated, then the modified paths are
    written to the stored document. *)
Definition save (i : nat) (u : User.t) (patch : User.t -> User.t) : M unit :=
  if negb (User.valid u) then throw ValidationError
  else
    await_storage ;;;
    d <- get_db ;;
    put_db (set_users (alter_at i patch (users d)) d).

(** [User.insertMany(docs)]: every document is validated first; nothing
    is inserted when one is invalid. *)
Definition insertMany (l : list User.t) : M unit :=
  if negb (forallb User.valid l) then throw ValidationError
  else
    await_storage ;;;
    d <- get_db ;;
    let (coll, all) := insert_ordered clashes l (users d) in
    put_db (set_users coll d) ;;;
    if all then ret tt else throw DuplicateKeyError.

(** [User.deleteMany({})] *)
Definition deleteAll : M unit :=
  await_storage ;;;
  d <- get_db ;;
  put_db (set_users [] d).

(** [User.countDocuments()] *)
Definition countDocuments : M nat :=
  await_storage ;;;
  d <- get_db ;;
  ret (List.length (users d)).

End Users.

(** ** Storage operations on events (models/Event.js) *)

Module Events.

(** Ascending order of [timestamp], the order of [.sort({ timestamp: 1 })]. *)
Definition older (a b : Event.t) : Prop :=
  Event.timestamp a <= Event.timestamp b.

#[global] Instance older_dec : RelDecision older.
Proof. intros a b. unfold older. apply Z_le_dec. Defined.

Definition unprocessed (e : Event.t) : bool := negb (Event.processed e).

(** [Event.getUnprocessedEvents()]:
    [this.find({ processed: false }).sort({ timestamp: 1 })]. *)
Definition getUnprocessedEvents : M (list Event.t) :=
  await_storage ;;;
  d <- get_db ;;
  ret (merge_sort older (List.filter unprocessed (events d))).

(** [Event.findOneAndUpdate({ eventId },
      { processed: true, notificationsGenerated })]: the first event with
    that [eventId], if there is one, is updated in one write. *)
Definition findOneAndUpdate (id : string) (gen : list (string * string))
  : M unit :=
  await_storage ;;;
  d <- get_db ;;
  put_db (set_events
            (update_first (fun e => String.eqb (Event.eventId e) id)
                          (Event.mark_processed gen) (events d)) d).

Definition valid (e : Event.t) : bool :=
  Js.truthy (Event.eventId e)
  && Js.truthy (Event.type e) && Js.includes Event.type_enum (Event.type e)
  && Js.truthy (Event.sourceUserId e).

(** The unique index of the collection: [eventId]. *)
Definition clashes (e : Event.t) (l : list Event.t) : bool :=
  existsb (fun x => String.eqb (Event.eventId x) (Event.eventId e)) l.

(** [save()] of a new event. *)
Definition insert (e : Event.t) : M unit :=
  if negb (valid e) then throw ValidationError
  else
    await_storage ;;;
    d <- get_db ;;
    if clashes e (events d) then throw DuplicateKeyError
    else put_db (set_events (events d ++ [e]) d).

(** [Event.insertMany(docs)] *)
Definition insertMany (l : list Event.t) : M unit :=
  if negb (forallb valid l) then throw ValidationError
  else
    await_storage ;;;
    d <- get_db ;;
    let (coll, all) := insert_ordered clashes l (events d) in
    put_db (set_events coll d) ;;;
    if all then ret tt else throw DuplicateKeyError.

(** [Event.deleteMany({})] *)
Definition deleteAll : M unit :=
  await_storage ;;;
  d <- get_db ;;
  put_db (set_events [] d).

(** Descending order of [timestamp], the order of
    [.sort({ timestamp: -1 })]. *)
Definition newer (a b : Event.t) : Prop :=
  Event.timestamp b <= Event.timestamp a.

#[global] Instance newer_dec : RelDecision newer.
Proof. intros a b. unfold newer. apply Z_le_dec. Defined.

(** [.limit(n)] of a query: 0 stands for no limit. *)
Definition limited {A} (n : nat) (l : list A) : list A :=
  match n with
  | O => l
  | _ => firstn n l
  end.

(** [Event.getEventsByType(type, limit = 100)]:
    [this.find({ type }).sort({ timestamp: -1 }).limit(limit)]. *)
Definition getEventsByType (type : string) (limit : option nat)
  : M (list Event.t) :=
  let limit := default 100%nat limit in
  await_storage ;;;
  d <- get_db ;;
  ret (limited limit
         (merge_sort newer
            (List.filter (fun e => String.eqb (Event.type e) type)
                         (events d)))).

End Events.

(** ** Storage operations on notifications (models/Notification.js) *)

Module Notifications.

(** [Notification.findOne(filter)] *)
Definition findOne (p : Notification.t -> bool)
  : M (option (nat * Notification.t)) :=
  await_storage ;;;
  d <- get_db ;;
  ret (find_first p (notifications d)).

(** The unique index of the collection: [notificationId]. *)
Definition clashes (n : Notification.t) (l : list Notification.t) : bool :=
  existsb (fun x => String.eqb (Notification.notificationId x)
                               (Notification.notificationId n)) l.

(** [save()] of a new document: validate, then insert. *)
Definition insert (n : Notification.t) : M unit :=
  if negb (Notification.valid n) then throw ValidationError
  else
    await_storage ;;;
    d <- get_db ;;
    if clashes n (notifications d) then throw DuplicateKeyError
    else put_db (set_notifications (notifications d ++ [n]) d).

(** [Notification.insertMany(docs)] *)
Definition insertMany (l : list Notification.t) : M unit :=
  if negb (forallb Notification.valid l) then throw ValidationError
  else
    await_storage ;;;
    d <- get_db ;;
    let (coll, all) := insert_ordered clashes l (notifications d) in
    put_db (set_notifications coll d) ;;;
    if all then ret tt else throw DuplicateKeyError.

(** [save()] of a fetched document [n] whose modified paths are set by
    [patch]: the document is validated, then the modified paths are
    written to the stored document. *)
Definition save (i : nat) (n : Notification.t)
           (patch : Notification.t -> Notification.t) : M unit :=
  if negb (Notification.valid n) then throw ValidationError
  else
    await_storage ;;;
    d <- get_db ;;
    put_db (set_notifications (alter_at i patch (notifications d)) d).

(** [Notification.deleteMany(filter)], resolving to [deletedCount]. *)
Definition deleteMany (p : Notification.t -> bool) : M nat :=
  await_storage ;;;
  d <- get_db ;;
  put_db (set_notifications
            (List.filter (fun n => negb (p n)) (notifications d)) d) ;;;
  ret (List.length (List.filter p (notifications d))).

(** [Notification.updateMany(filter, update)], resolving to
    [modifiedCount]. *)
Definition updateMany (p : Notification.t -> bool)
           (f : Notification.t -> Notification.t) : M nat :=
  await_storage ;;;
  d <- get_db ;;
  put_db (set_notifications (update_all p f (notifications d)) d) ;;;
  ret (List.length (List.filter p (notifications d))).

(** [Notification.markAllAsRead(userId)] *)
Definition markAllAsRead (uid : string) : M nat :=
  now <- Date_now ;;
  updateMany
    (fun n => String.eqb (Notification.userId n) uid
              && Notification.status_eqb (Notification.status n)
                                         Notification.unread)
    (Notification.set_status_readAt Notification.read now).

(** The filter [{ expiresAt: { $lt: now } }]; an absent [expiresAt]
    does not match. *)
Definition expired (now : Z) (n : Notification.t) : bool :=
  match Notification.expiresAt n with
  | Some d => d <? now
  | None => false
  end.

(** [Notification.cleanupExpired()] *)
Definition cleanupExpired : M nat :=
  now <- Date_now ;;
  deleteMany (expired now).

(** [notification.markAsRead()] on a fetched document. *)
Definition markAsRead (i : nat) (n : Notification.t) : M Notification.t :=
  match Notification.status n with
  | Notification.unread =>
      now <- Date_now ;;
      let patch := Notification.set_status_readAt Notification.read now in
      save i (patch n) patch ;;;
      ret (patch n)
  | _ => ret n
  end.

(** [notification.dismiss()] on a fetched document. *)
Definition dismiss (i : nat) (n : Notification.t) : M Notification.t :=
  now <- Date_now ;;
  let patch :=
    Notification.set_status_dismissedAt Notification.dismissed now in
  save i (patch n) patch ;;;
  ret (patch n).

(** [Notification.getUnreadCount(userId)], that is
    [this.countDocuments({ userId, status: 'unread' })]. *)
Definition getUnreadCount (uid : string) : M nat :=
  await_storage ;;;
  d <- get_db ;;
  ret (List.length
         (List.filter
            (fun n => String.eqb (Notification.userId n) uid
                      && Notification.status_eqb (Notification.status n)
                                                 Notification.unread)
            (notifications d))).

(** The virtual [ageInMinutes]:
    [Math.floor((new Date() - this.timestamp) / (1000 * 60))]. *)
Definition ageInMinutes (n : Notification.t) : M Z :=
  now <- Date_now ;;
  ret ((now - Notification.timestamp n) / (1000 * 60)).

(** The virtual [timeAgo]; [toLocaleDateString] stands for the method of
    [Date] of that name. *)
Definition timeAgo (toLocaleDateString : Z -> string) (n : Notification.t)
  : M string :=
  now <- Date_now ;;
  let seconds := (now - Notification.timestamp n) / 1000 in
  if seconds <? 60 then ret "just now"
  else if seconds <? 3600 then ret (pretty (seconds / 60) +:+ "m ago")
  else if seconds <? 86400 then ret (pretty (seconds / 3600) +:+ "h ago")
  else if seconds <? 2592000 then ret (pretty (seconds / 86400) +:+ "d ago")
  else ret (toLocaleDateString (Notification.timestamp n)).

(** The instance method [isExpired()]:
    [this.expiresAt && this.expiresAt < new Date()]. *)
Definition isExpired (n : Notification.t) : M bool :=
  now <- Date_now ;;
  ret (match Notification.expiresAt n with
       | Some d => d <? now
       | None => false
       end).

End Notifications.

(** ** services/notificationProcessor.js *)

Module Processor.

(** [shouldReceiveNotification(user, eventType)] *)
Definition shouldReceiveNotification (user : User.t) (eventType : string)
  : bool :=
  Js.includes (User.notificationTypes (User.preferences user)) eventType.

(** [5 * 60 * 1000] *)
Definition five_minutes : Z := 5 * 60 * 1000.

(** The excerpt of a comment:
    [content.substring(0, 50)] followed by ['...'] when
    [content.length > 50]. *)
Definition excerpt (c : string) : string :=
  String.substring 0 50 c
  +:+ (if (50 <? String.length c)%nat then "..." else EmptyString).

(** [generateNotificationContent(event, sourceUser)] *)
Definition generateNotificationContent (event : Event.t)
           (sourceUser : User.t) : string :=
  let username := User.username sourceUser in
  let ty := Event.type event in
  if String.eqb ty "LIKE" then username +:+ " liked your post"
  else if String.eqb ty "COMMENT" then
    match Event.content (Event.data event) with
    | Some c =>
        if Js.truthy c
        then username +:+ " commented: " +:+ Js.dquote +:+ excerpt c
             +:+ Js.dquote
        else username +:+ " commented on your post"
    | None => username +:+ " commented on your post"
    end
  else if String.eqb ty "FOLLOW" then username +:+ " started following you"
  else if String.eqb ty "POST_CREATE" then username +:+ " shared a new post"
  else if String.eqb ty "MENTION" then
    username +:+ " mentioned you in a post"
  else if String.eqb ty "SHARE" then username +:+ " shared your post"
  else username +:+ " performed an action".

(** [event.data.postId ? `${baseUrl}/posts/${event.data.postId}` : baseUrl] *)
Definition postUrl (baseUrl : string) (event : Event.t) : string :=
  match Event.postId (Event.data event) with
  | Some p => if Js.truthy p then baseUrl +:+ "/posts/" +:+ p else baseUrl
  | None => baseUrl
  end.

(** [generateNotificationUrl(event)], given [process.env.FRONTEND_URL]. *)
Definition generateNotificationUrl (FRONTEND_URL : option string)
           (event : Event.t) : string :=
  let baseUrl :=
    match FRONTEND_URL with
    | Some u => if Js.truthy u then u else "http://localhost:3000"
    | None => "http://localhost:3000"
    end in
  let ty := Event.type event in
  if String.eqb ty "LIKE" || String.eqb ty "COMMENT" || String.eqb ty "SHARE"
  then postUrl baseUrl event
  else if String.eqb ty "FOLLOW"
  then baseUrl +:+ "/profile/" +:+ Event.sourceUserId event
  else if String.eqb ty "POST_CREATE" then postUrl baseUrl event
  else if String.eqb ty "MENTION" then postUrl baseUrl event
  else baseUrl.

(** The filter of the de-duplication query of [createNotification]. *)
Definition recentDuplicateFilter (uid src ty : string)
           (pid : option string) (since : Z) (n : Notification.t) : bool :=
  String.eqb (Notification.userId n) uid
  && Js.opt_eqb (Notification.sourceUserId n) (Some src)
  && String.eqb (Notification.type n) ty
  && Js.opt_eqb (Notification.postId (Notification.data n)) pid
  && (since <=? Notification.timestamp n).

(** [createNotification(event, sourceUser, targetUser)] *)
Definition createNotification (event : Event.t)
           (sourceUser targetUser : User.t) : M (option Notification.t) :=
  try_catch
    (now <- Date_now ;;
     recentDuplicate <-
       Notifications.findOne
         (recentDuplicateFilter (User.userId targetUser)
            (User.userId sourceUser) (Event.type event)
            (Event.postId (Event.data event)) (now - five_minutes)) ;;
     match recentDuplicate with
     | Some _ => ret None
     | None =>
         let content := generateNotificationContent event sourceUser in
         id <- uuidv4 ;;
         FRONTEND_URL <- get_FRONTEND_URL ;;
         created <- Date_now ;;
         defaulted <- default_Date_now ;;
         let notification := {|
           Notification.notificationId := id;
           Notification.userId := User.userId targetUser;
           Notification.type := Event.type event;
           Notification.content := content;
           Notification.status := Notification.unread;
           Notification.relatedEventId := Some (Event.eventId event);
           Notification.sourceUserId := Some (User.userId sourceUser);
           Notification.data := {|
             Notification.postId := Event.postId (Event.data event);
             Notification.commentId := Event.commentId (Event.data event);
             Notification.url :=
               Some (generateNotificationUrl FRONTEND_URL event);
             Notification.imageUrl := None;
             Notification.metadata :=
               match Event.metadata (Event.data event) with
               | Some m => m
               | None => []
               end;
           |};
           Notification.timestamp := created;
           Notification.readAt := None;
           Notification.dismissedAt := None;
           Notification.expiresAt :=
             Some (defaulted + Notification.thirty_days);
         |} in
         Notifications.insert notification ;;;
         ret (Some notification)
     end)
    (fun error =>
       console_error "Error creating notification:" ;;; throw error).

(** The block shared by the LIKE/COMMENT, FOLLOW and SHARE cases of
    [getNotificationRecipients]: the target user, when present, different
    from the source, found and subscribed. *)
Definition targetRecipient (event : Event.t) : M (list User.t) :=
  match Event.targetUserId event with
  | Some target =>
      if Js.truthy target
         && negb (String.eqb target (Event.sourceUserId event))
      then
        targetUser <- Users.findByUserId target ;;
        match targetUser with
        | Some u =>
            if shouldReceiveNotification u (Event.type event)
            then ret [u] else ret []
        | None => ret []
        end
      else ret []
  | None => ret []
  end.

(** The loop of the MENTION case over [event.data.mentionedUsers]. *)
Fixpoint mentionRecipients (event : Event.t) (ids : list string)
         (recipients : list User.t) : M (list User.t) :=
  match ids with
  | [] => ret recipients
  | mentionedUserId :: rest =>
      if negb (String.eqb mentionedUserId (Event.sourceUserId event))
      then
        mentionedUser <- Users.findByUserId mentionedUserId ;;
        match mentionedUser with
        | Some u =>
            if shouldReceiveNotification u (Event.type event)
            then mentionRecipients event rest (recipients ++ [u])
            else mentionRecipients event rest recipients
        | None => mentionRecipients event rest recipients
        end
      else mentionRecipients event rest recipients
  end.

(** [getNotificationRecipients(event, sourceUser)] *)
Definition getNotificationRecipients (event : Event.t)
           (sourceUser : User.t) : M (list User.t) :=
  let ty := Event.type event in
  if String.eqb ty "LIKE" || String.eqb ty "COMMENT"
  then targetRecipient event
  else if String.eqb ty "FOLLOW" then targetRecipient event
  else if String.eqb ty "POST_CREATE" then
    followers <- Users.findFollowing (Event.sourceUserId event) ;;
    ret (List.filter (fun follower => shouldReceiveNotification follower ty)
                     followers)
  else if String.eqb ty "MENTION" then
    match Event.mentionedUsers (Event.data event) with
    | Some ids => mentionRecipients event ids []
    | None => ret []
    end
  else if String.eqb ty "SHARE" then targetRecipient event
  else console_warn ("Unknown event type: " +:+ ty) ;;; ret [].

(** The [for (const recipient of recipients)] loop of [processEvent]; a
    rejection of [createNotification] is caught and logged. *)
Fixpoint notifyRecipients (event : Event.t) (sourceUser : User.t)
         (recipients : list User.t) (notifications : list Notification.t)
  : M (list Notification.t) :=
  match recipients with
  | [] => ret notifications
  | recipient :: rest =>
      notifications' <-
        try_catch
          (notification <- createNotification event sourceUser recipient ;;
           match notification with
           | Some n => ret (notifications ++ [n])
           | None => ret notifications
           end)
          (fun error =>
             console_error ("Error creating notification for user "
                            +:+ User.userId recipient +:+ ":") ;;;
             ret notifications) ;;
      notifyRecipients event sourceUser rest notifications'
  end.

(** [notifications.map(n => ({ notificationId, userId }))] *)
Definition generated (l : list Notification.t) : list (string * string) :=
  map (fun n => (Notification.notificationId n, Notification.userId n)) l.

(** [processEvent(event)].  [None] is the [undefined] of the bare
    [return]. *)
Definition processEvent (event : Event.t)
  : M (option (list Notification.t)) :=
  try_catch
    (sourceUser <- Users.findByUserId (Event.sourceUserId event) ;;
     match sourceUser with
     | None =>
         console_error ("Source user not found: "
                        +:+ Event.sourceUserId event) ;;;
         ret None
     | Some sourceUser =>
         recipients <- getNotificationRecipients event sourceUser ;;
         notifications <- notifyRecipients event sourceUser recipients [] ;;
         Events.findOneAndUpdate (Event.eventId event)
                                 (generated notifications) ;;;
         ret (Some notifications)
     end)
    (fun error => console_error "Error in processEvent:" ;;; throw error).

(** The [for (const event of unprocessedEvents)] loop. *)
Fixpoint processEach (l : list Event.t) : M unit :=
  match l with
  | [] => ret tt
  | event :: rest => processEvent event ;;; processEach rest
  end.

(** [processUnprocessedEvents()] *)
Definition processUnprocessedEvents : M unit :=
  try_catch
    (unprocessedEvents <- Events.getUnprocessedEvents ;;
     processEach unprocessedEvents)
    (fun error => console_error "Error processing unprocessed events:").

(** The filter of [cleanupOldNotifications]:
    [{ timestamp: { $lt: thirtyDaysAgo },
       status: { $in: ['read', 'dismissed'] } }]. *)
Definition oldAndSettled (thirtyDaysAgo : Z) (n : Notification.t) : bool :=
  (Notification.timestamp n <? thirtyDaysAgo)
  && (Notification.status_eqb (Notification.status n) Notification.read
      || Notification.status_eqb (Notification.status n)
                                 Notification.dismissed).

(** [cleanupOldNotifications()] *)
Definition cleanupOldNotifications : M unit :=
  try_catch
    (now <- Date_now ;;
     let thirtyDaysAgo := now - Notification.thirty_days in
     Notifications.deleteMany (oldAndSettled thirtyDaysAgo) ;;;
     ret tt)
    (fun error => console_error "Error cleaning up notifications:").

End Processor.

(** ** The in-memory event queue of services/notificationProcessor.js

    [processQueue] is modelled run to completion: no event is enqueued
    while it drains the queue. *)

Module EventQueue.

Record t := {
  queue : list Event.t;
  processing : bool;
}.

(** [new EventQueue()] *)
Definition constructor : t := {| queue := []; processing := false |}.

(** The [while (this.queue.length > 0)] loop of [processQueue]: each event
    is shifted off the queue and processed; a rejection is caught and
    logged. *)
Fixpoint drain (waiting : list Event.t) : M unit :=
  match waiting with
  | [] => ret tt
  | event :: rest =>
      try_catch
        (Processor.processEvent event ;;; ret tt)
        (fun error => console_error "Error processing event from queue:") ;;;
      drain rest
  end.

(** [processQueue()] *)
Definition processQueue (q : t) : M t :=
  if processing q || (List.length (queue q) =? 0)%nat then ret q
  else
    drain (queue q) ;;;
    ret {| queue := []; processing := false |}.

(** [enqueue(event)] *)
Definition enqueue (event : Event.t) (q : t) : M t :=
  processQueue {| queue := queue q ++ [event]; processing := processing q |}.

End EventQueue.

(** ** Route handlers (routes/notifications.js, routes/users.js,
       routes/events.js)

    A handler resolves to the HTTP status it answers with.  Every handler
    body sits in a [try]/[catch] that answers 500. *)

Module Routes.

(** [PUT /api/notifications/:notificationId/read] *)
Definition putRead (notificationId : string) : M nat :=
  try_catch
    (notification <-
       Notifications.findOne
         (fun n => String.eqb (Notification.notificationId n)
                              notificationId) ;;
     match notification with
     | None => ret 404%nat
     | Some (i, n) => Notifications.markAsRead i n ;;; ret 200%nat
     end)
    (fun error =>
       console_error "Error marking notification as read:" ;;; ret 500%nat).

(** [PUT /api/notifications/:userId/read-all] *)
Definition putReadAll (userId : string) : M nat :=
  try_catch
    (Notifications.markAllAsRead userId ;;; ret 200%nat)
    (fun error =>
       console_error "Error marking all notifications as read:" ;;;
       ret 500%nat).

(** [DELETE /api/notifications/:notificationId] *)
Definition deleteNotification (notificationId : string) : M nat :=
  try_catch
    (notification <-
       Notifications.findOne
         (fun n => String.eqb (Notification.notificationId n)
                              notificationId) ;;
     match notification with
     | None => ret 404%nat
     | Some (i, n) => Notifications.dismiss i n ;;; ret 200%nat
     end)
    (fun error =>
       console_error "Error dismissing notification:" ;;; ret 500%nat).

(** [POST /api/notifications/cleanup], resolving to the status and the
    [deletedCount] of the answer. *)
Definition postCleanup : M (nat * option nat) :=
  try_catch
    (deletedCount <- Notifications.cleanupExpired ;;
     ret (200%nat, Some deletedCount))
    (fun error =>
       console_error "Error cleaning up notifications:" ;;;
       ret (500%nat, None)).

(** The [preferences] object of a request body, read through the schema:
    a key that is absent leaves the stored value in place. *)
Record NewPreferences := {
  newEmailNotifications : option bool;
  newPushNotifications : option bool;
  newNotificationTypes : option (list string);
}.

(** [{ ...this.preferences, ...newPreferences }] *)
Definition mergePreferences (old : User.Preferences) (new : NewPreferences)
  : User.Preferences := {|
  User.emailNotifications :=
    match newEmailNotifications new with
    | Some b => b
    | None => User.emailNotifications old
    end;
  User.pushNotifications :=
    match newPushNotifications new with
    | Some b => b
    | None => User.pushNotifications old
    end;
  User.notificationTypes :=
    match newNotificationTypes new with
    | Some l => l
    | None => User.notificationTypes old
    end;
|}.

(** [PUT /api/users/:userId/preferences], through
    [user.updatePreferences(preferences)]. *)
Definition putPreferences (userId : string)
           (preferences : option NewPreferences) : M nat :=
  try_catch
    (match preferences with
     | None => ret 400%nat
     | Some new =>
         user <- Users.findHandle userId ;;
         match user with
         | None => ret 404%nat
         | Some (i, u) =>
             let patch :=
               User.set_preferences
                 (mergePreferences (User.preferences u) new) in
             Users.save i (patch u) patch ;;;
             ret 200%nat
         end
     end)
    (fun error =>
       console_error "Error updating preferences:" ;;; ret 500%nat).

(** [POST /api/users/:userId/follow] *)
Definition postFollow (userId : string) (targetUserId : option string)
  : M nat :=
  try_catch
    (if negb (Js.truthy_opt targetUserId) then ret 400%nat
     else
       let target := default EmptyString targetUserId in
       if String.eqb userId target then ret 400%nat
       else
         user <- Users.findHandle userId ;;
         targetUser <- Users.findHandle target ;;
         match user, targetUser with
         | Some (i, u), Some (j, t) =>
             (* user.follow(targetUserId) *)
             (let patch :=
                if Js.includes (User.following u) target then id
                else User.set_following (User.following u ++ [target]) in
              Users.save i (patch u) patch) ;;;
             (if negb (Js.includes (User.followers t) userId)
              then
                let patch :=
                  User.set_followers (User.followers t ++ [userId]) in
                Users.save j (patch t) patch
              else ret tt) ;;;
             ret 200%nat
         | _, _ => ret 404%nat
         end)
    (fun error => console_error "Error following user:" ;;; ret 500%nat).

(** [DELETE /api/users/:userId/follow] *)
Definition deleteFollow (userId : string) (targetUserId : option string)
  : M nat :=
  try_catch
    (if negb (Js.truthy_opt targetUserId) then ret 400%nat
     else
       let target := default EmptyString targetUserId in
       user <- Users.findHandle userId ;;
       targetUser <- Users.findHandle target ;;
       match user, targetUser with
       | Some (i, u), Some (j, t) =>
           (* user.unfollow(targetUserId) *)
           (let patch :=
              User.set_following
                (List.filter (fun x => negb (String.eqb x target))
                             (User.following u)) in
            Users.save i (patch u) patch) ;;;
           (let patch :=
              User.set_followers
                (List.filter (fun x => negb (String.eqb x userId))
                             (User.followers t)) in
            Users.save j (patch t) patch) ;;;
           ret 200%nat
       | _, _ => ret 404%nat
       end)
    (fun error => console_error "Error unfollowing user:" ;;; ret 500%nat).

(** [POST /api/users].  The [trim] and [lowercase] setters of the schema
    are not modelled: the strings are stored as given. *)
Definition postUser (userId username email : string) : M nat :=
  try_catch
    (if negb (Js.truthy userId) || negb (Js.truthy username)
        || negb (Js.truthy email)
     then ret 400%nat
     else
       existingUser <- Users.findExisting userId email username ;;
       match existingUser with
       | Some _ => ret 409%nat
       | None =>
           Users.insert {|
             User.userId := userId;
             User.username := username;
             User.email := email;
             User.preferences := User.default_preferences;
             User.followers := [];
             User.following := [];
           |} ;;;
           ret 201%nat
       end)
    (fun error => console_error "Error creating user:" ;;; ret 500%nat).

(** The [data] object of an event request body, read through
    [eventSchema], which keeps [postId], [commentId], [content] and
    [metadata]. *)
Record EventBody := {
  bodyPostId : option string;
  bodyCommentId : option string;
  bodyContent : option string;
  bodyMetadata : option (list (string * string));
}.

(** [POST /api/events]: the event is saved, then processed by the
    [setImmediate] callback, whose failure is logged. *)
Definition postEvent (type sourceUserId : option string)
           (targetUserId : option string) (data : EventBody) : M nat :=
  try_catch
    (if negb (Js.truthy_opt type) || negb (Js.truthy_opt sourceUserId)
     then ret 400%nat
     else
       let type := default EmptyString type in
       let sourceUserId := default EmptyString sourceUserId in
       if negb (Js.includes Event.type_enum type) then ret 400%nat
       else
         id <- uuidv4 ;;
         now <- Date_now ;;
         let event := {|
           Event.eventId := id;
           Event.type := type;
           Event.sourceUserId := sourceUserId;
           Event.targetUserId := targetUserId;
           Event.data := {|
             Event.postId := bodyPostId data;
             Event.commentId := bodyCommentId data;
             Event.content := bodyContent data;
             Event.mentionedUsers := None;
             Event.metadata :=
               Some (default [] (bodyMetadata data));
           |};
           Event.timestamp := now;
           Event.processed := false;
           Event.notificationsGenerated := [];
         |} in
         Events.insert event ;;;
         try_catch
           (Processor.processEvent event ;;; ret tt)
           (fun error => console_error "Error processing event") ;;;
         ret 201%nat)
    (fun error => console_error "Error creating event:" ;;; ret 500%nat).

(** [DELETE /api/events/:eventId], through [Event.findOneAndDelete]. *)
Definition deleteEvent (eventId : string) : M nat :=
  try_catch
    (await_storage ;;;
     d <- get_db ;;
     match find_first (fun e => String.eqb (Event.eventId e) eventId)
                      (events d) with
     | None => ret 404%nat
     | Some (i, _) =>
         put_db (set_events (take i (events d) ++ drop (S i) (events d)) d) ;;;
         ret 200%nat
     end)
    (fun error => console_error "Error deleting event:" ;;; ret 500%nat).

End Routes.

(** ** services/seedService.js *)

Module Seed.

Definition sampleUser (userId username email : string)
           (followers following : list string) : User.t := {|
  User.userId := userId;
  User.username := username;
  User.email := email;
  User.preferences := User.default_preferences;
  User.followers := followers;
  User.following := following;
|}.

Definition sampleUsers : list User.t := [
  sampleUser "user1" "alex_architect" "alex@example.com"
             ["user2"; "user3"] ["user2"; "user4"];
  sampleUser "user2" "priya_designer" "priya@example.com"
             ["user1"; "user3"; "user4"] ["user1"];
  sampleUser "user3" "rohit_urban" "rohit@example.com"
             ["user4"] ["user1"; "user2"];
  sampleUser "user4" "maya_sustainable" "maya@example.com"
             ["user1"] ["user2"; "user3"];
  sampleUser "user5" "demo_user" "demo@example.com"
             [] ["user1"; "user2"]
].

Definition minutes (n : Z) : Z := n * 60 * 1000.

(** A sample event; all of them are stored with [processed: true].  The
    [mentionedUsers] of the last literal is not a path of [eventSchema]. *)
Definition sampleEvent (eventId type sourceUserId : string)
           (targetUserId postId commentId content : option string)
           (timestamp : Z) : Event.t := {|
  Event.eventId := eventId;
  Event.type := type;
  Event.sourceUserId := sourceUserId;
  Event.targetUserId := targetUserId;
  Event.data := {|
    Event.postId := postId;
    Event.commentId := commentId;
    Event.content := content;
    Event.mentionedUsers := None;
    Event.metadata := Some [];
  |};
  Event.timestamp := timestamp;
  Event.processed := true;
  Event.notificationsGenerated := [];
|}.

Definition sampleEvents (e0 e1 e2 e3 e4 : string) (now : Z) : list Event.t := [
  sampleEvent e0 "FOLLOW" "user2" (Some "user1") None None None
              (now - minutes 60);
  sampleEvent e1 "LIKE" "user3" (Some "user1") (Some "post123") None
              (Some "Great sustainable design project!") (now - minutes 30);
  sampleEvent e2 "COMMENT" "user4" (Some "user2") (Some "post456")
              (Some "comment789")
              (Some "Love the use of natural lighting in this design!")
              (now - minutes 15);
  sampleEvent e3 "POST_CREATE" "user1" None (Some "post789") None
              (Some "Just completed a sustainable office complex in Mumbai")
              (now - minutes 10);
  sampleEvent e4 "MENTION" "user2" (Some "user1") (Some "post999") None
              (Some "Thanks to @alex_architect for the inspiration!")
              (now - minutes 5)
].

Definition sampleNotification (notificationId userId type content : string)
           (status : Notification.Status) (readAt : option Z)
           (sourceUserId relatedEventId : string)
           (postId commentId : option string) (url : string)
           (timestamp now : Z) : Notification.t := {|
  Notification.notificationId := notificationId;
  Notification.userId := userId;
  Notification.type := type;
  Notification.content := content;
  Notification.status := status;
  Notification.relatedEventId := Some relatedEventId;
  Notification.sourceUserId := Some sourceUserId;
  Notification.data := {|
    Notification.postId := postId;
    Notification.commentId := commentId;
    Notification.url := Some url;
    Notification.imageUrl := None;
    Notification.metadata := [];
  |};
  Notification.timestamp := timestamp;
  Notification.readAt := readAt;
  Notification.dismissedAt := None;
  Notification.expiresAt := Some (now + Notification.thirty_days);
|}.

Definition sampleNotifications (n0 n1 n2 n3 n4 e0 e1 e2 e3 e4 : string)
           (now : Z) : list Notification.t := [
  sampleNotification n0 "user1" "FOLLOW"
    "priya_designer started following you" Notification.unread None
    "user2" e0 None None "http://localhost:3000/profile/user2"
    (now - minutes 60) now;
  sampleNotification n1 "user1" "LIKE" "rohit_urban liked your post"
    Notification.unread None "user3" e1 (Some "post123") None
    "http://localhost:3000/posts/post123" (now - minutes 30) now;
  sampleNotification n2 "user2" "COMMENT"
    ("maya_sustainable commented: " +:+ Js.dquote
     +:+ "Love the use of natural lighting in this design!" +:+ Js.dquote)
    Notification.read (Some (now - minutes 20)) "user4" e2
    (Some "post456") (Some "comment789")
    "http://localhost:3000/posts/post456" (now - minutes 15) now;
  sampleNotification n3 "user2" "POST_CREATE"
    "alex_architect shared a new post" Notification.unread None "user1" e3
    (Some "post789") None "http://localhost:3000/posts/post789"
    (now - minutes 10) now;
  sampleNotification n4 "user1" "MENTION"
    "priya_designer mentioned you in a post" Notification.unread None
    "user2" e4 (Some "post999") None "http://localhost:3000/posts/post999"
    (now - minutes 5) now
].

(** [seedDatabase()] *)
Definition seedDatabase : M unit :=
  try_catch
    (existingUsers <- Users.countDocuments ;;
     if (0 <? existingUsers)%nat then ret tt
     else
       Users.insertMany sampleUsers ;;;
       e0 <- uuidv4 ;; t0 <- Date_now ;;
       e1 <- uuidv4 ;; e2 <- uuidv4 ;; e3 <- uuidv4 ;; e4 <- uuidv4 ;;
       Events.insertMany (sampleEvents e0 e1 e2 e3 e4 t0) ;;;
       n0 <- uuidv4 ;; t1 <- Date_now ;;
       n1 <- uuidv4 ;; n2 <- uuidv4 ;; n3 <- uuidv4 ;; n4 <- uuidv4 ;;
       Notifications.insertMany
         (sampleNotifications n0 n1 n2 n3 n4 e0 e1 e2 e3 e4 t1))
    (fun error => console_error "Error seeding database:" ;;; throw error).

(** [clearDatabase()] *)
Definition clearDatabase : M unit :=
  try_catch
    (Users.deleteAll ;;;
     Events.deleteAll ;;;
     Notifications.deleteMany (fun _ => true) ;;;
     ret tt)
    (fun error => console_error "Error clearing database:" ;;; throw error).

End Seed.

(** ** The system as a whole

    One step of the system is one call of a route handler or of a
    maintenance routine, in an arbitrary environment (clock, uuid source,
    storage outcomes). *)

Inductive Call :=
| PostUser (userId username email : string)
| PutPreferences (userId : string) (preferences : option Routes.NewPreferences)
| PostFollow (userId : string) (targetUserId : option string)
| DeleteFollow (userId : string) (targetUserId : option string)
| PostEvent (type sourceUserId targetUserId : option string)
            (data : Routes.EventBody)
| DeleteEvent (eventId : string)
| PutRead (notificationId : string)
| PutReadAll (userId : string)
| DeleteNotification (notificationId : string)
| PostCleanup
| ProcessUnprocessedEvents
| CleanupOldNotifications
| SeedDatabase
| ClearDatabase.

(** The world after a computation, whatever it resolved to. *)
Definition exec {A} (m : M A) (w : World) : World := snd (m w).

Definition perform (c : Call) (w : World) : World :=
  match c with
  | PostUser i n e => exec (Routes.postUser i n e) w
  | PutPreferences i p => exec (Routes.putPreferences i p) w
  | PostFollow i t => exec (Routes.postFollow i t) w
  | DeleteFollow i t => exec (Routes.deleteFollow i t) w
  | PostEvent ty s t d => exec (Routes.postEvent ty s t d) w
  | DeleteEvent i => exec (Routes.deleteEvent i) w
  | PutRead i => exec (Routes.putRead i) w
  | PutReadAll i => exec (Routes.putReadAll i) w
  | DeleteNotification i => exec (Routes.deleteNotification i) w
  | PostCleanup => exec Routes.postCleanup w
  | ProcessUnprocessedEvents => exec Processor.processUnprocessedEvents w
  | CleanupOldNotifications => exec Processor.cleanupOldNotifications w
  | SeedDatabase => exec Seed.seedDatabase w
  | ClearDatabase => exec Seed.clearDatabase w
  end.

Definition empty_db : DB := {| users := []; notifications := []; events := [] |}.

(** Database states the system can reach from the empty database. *)
Inductive reachable : DB -> Prop :=
| reachable_empty : reachable empty_db
| reachable_step (w : World) (c : Call) :
    reachable (db w) -> reachable (db (perform c w)).

(** ** Vocabulary of the statements *)

(** Whether the next awaited storage call rejects. *)
Definition next_rejects (w : World) : bool :=
  match pending w with
  | o :: _ => rejects o
  | [] => false
  end.

(** The world once the next storage call has been awaited. *)
Definition tick (w : World) : World :=
  match pending w with
  | [] => w
  | o :: rest =>
      {| db := db w; clock := clock w + Z.of_nat (elapsed o); rng := rng w;
         drawn := drawn w; pending := rest; console := console w;
         env_FRONTEND_URL := env_FRONTEND_URL w; lag := lag w |}
  end.

(** No storage call to come rejects. *)
Definition healthy (w : World) : bool :=
  forallb (fun o => negb (rejects o)) (pending w).

(** The status changes the data model allows: none, unread to read, and
    anything to dismissed. *)
Definition allowed (a b : Notification.Status) : bool :=
  match a, b with
  | Notification.unread, _ => true
  | Notification.read, Notification.unread => false
  | Notification.read, _ => true
  | Notification.dismissed, Notification.dismissed => true
  | Notification.dismissed, _ => false
  end.

(** A stored notification before and after an operation: the same
    notification, its status changed along an allowed edge. *)
Definition evolves (a b : Notification.t) : Prop :=
  Notification.notificationId b = Notification.notificationId a
  /\ allowed (Notification.status a) (Notification.status b) = true.

(** Every stored user's subscription set is within the schema's enum. *)
Definition subscriptions_valid (d : DB) : Prop :=
  Forall (fun u => forallb (Js.includes User.notificationTypes_enum)
                           (User.notificationTypes (User.preferences u))
                   = true)
         (users d).

(** What an attempt to notify one recipient contributes to the list of
    written notifications. *)
Definition contribution (r : Result (option Notification.t))
  : list Notification.t :=
  match r with
  | Ok (Some n) => [n]
  | _ => []
  end.

(** The four fields the de-duplication query compares. *)
Definition same_cause (event : Event.t) (sourceUser targetUser : User.t)
           (n : Notification.t) : Prop :=
  Notification.userId n = User.userId targetUser
  /\ Notification.sourceUserId n = Some (User.userId sourceUser)
  /\ Notification.type n = Event.type event
  /\ Notification.postId (Notification.data n)
     = Event.postId (Event.data event).

(** The recipients the MENTION policy names, over a user collection: the
    mentioned identities other than the source, that exist and subscribe. *)
Definition mentioned (us : list User.t) (event : Event.t) (ids : list string)
  : list User.t :=
  flat_map
    (fun i =>
       if String.eqb i (Event.sourceUserId event) then []
       else match List.find (fun u => String.eqb (User.userId u) i) us with
            | Some u =>
                if Processor.shouldReceiveNotification u (Event.type event)
                then [u] else []
            | None => []
            end)
    ids.

(** The filter of the de-duplication query [createNotification] issues in
    world [w] for this event, source and recipient. *)
Definition dedup_query (event : Event.t) (sourceUser targetUser : User.t)
           (w : World) : Notification.t -> bool :=
  Processor.recentDuplicateFilter
    (User.userId targetUser) (User.userId sourceUser) (Event.type event)
    (Event.postId (Event.data event)) (clock w - Processor.five_minutes).

(** A notification as [createNotification] writes it for this event and
    recipient. *)
Definition written_for (event : Event.t) (targetUser : User.t)
           (n : Notification.t) : Prop :=
  Notification.userId n = User.userId targetUser
  /\ Notification.relatedEventId n = Some (Event.eventId event)
  /\ Notification.type n = Event.type event
  /\ Notification.status n = Notification.unread.

(** The save of the notification [createNotification] builds in world [w]
    goes through: the storage call after the query resolves, the uuid drawn
    is non-empty and not yet the id of a stored notification, the
    recipient has an id, and the event's type is in the enum of the
    notification schema. *)
Definition write_accepted (event : Event.t) (targetUser : User.t) (w : World)
  : bool :=
  negb (next_rejects (tick w))
  && Js.truthy (rng w (drawn w))
  && negb (existsb (fun x => String.eqb (Notification.notificationId x)
                                        (rng w (drawn w)))
                   (notifications (db w)))
  && Js.truthy (User.userId targetUser)
  && Js.includes Notification.type_enum (Event.type event).

(** A computation that leaves the database as it is and, in a world where
    no storage call rejects, resolves and leaves such a world. *)
Definition reads_only {A} (m : M A) : Prop :=
  forall w,
    db (snd (m w)) = db w
    /\ (healthy w = true ->
        healthy (snd (m w)) = true /\ exists a, fst (m w) = Ok a).

(** [m] preserves [I], however it ends. *)
Definition invariant (I : DB -> Prop) {A} (m : M A) : Prop :=
  forall w, I (db w) -> I (db (snd (m w))).

(** A property of the database that only looks at the users. *)
Definition about_users (I : DB -> Prop) : Prop :=
  forall d d', users d' = users d -> I d -> I d'.

(** The base URL of the deep links: [process.env.FRONTEND_URL] or, when it
    is unset or empty, the local default. *)
Definition base_url (w : World) : string :=
  match env_FRONTEND_URL w with
  | Some u => if Js.truthy u then u else "http://localhost:3000"
  | None => "http://localhost:3000"
  end.

(** A notification as the writer builds it for this event and source user:
    unread, never read or dismissed, expiring thirty days after its
    timestamp, carrying the event's type, subject and rendered content. *)
Definition well_formed (event : Event.t) (sourceUser : User.t)
           (n : Notification.t) : Prop :=
  Notification.type n = Event.type event
  /\ Notification.status n = Notification.unread
  /\ Notification.content n
     = Processor.generateNotificationContent event sourceUser
  /\ Notification.sourceUserId n = Some (User.userId sourceUser)
  /\ Notification.relatedEventId n = Some (Event.eventId event)
  /\ Notification.postId (Notification.data n)
     = Event.postId (Event.data event)
  /\ Notification.readAt n = None
  /\ Notification.dismissedAt n = None
  /\ (exists expiry,
         Notification.expiresAt n = Some expiry
         /\ Notification.timestamp n + Notification.thirty_days <= expiry)
  /\ Notification.valid n = true.

(** [if (!list.includes(x)) list.push(x)] *)
Definition with_member (x : string) (l : list string) : list string :=
  if Js.includes l x then l else l ++ [x].

(** [list.filter(id => id !== x)] *)
Definition without (x : string) (l : list string) : list string :=
  List.filter (fun y => negb (String.eqb y x)) l.

(** The handle of the stored user with a given [userId]. *)
Definition handle (id : string) (d : DB) : option (nat * User.t) :=
  find_first (fun u => String.eqb (User.userId u) id) (users d).

(** Whether the source user of an event is stored. *)
Definition source_known (d : DB) (e : Event.t) : bool :=
  match List.find (fun u => String.eqb (User.userId u) (Event.sourceUserId e))
                  (users d) with
  | Some _ => true
  | None => false
  end.
(** The event document [POST /api/events] builds from a request, given
    the uuid and the time it draws. *)
Definition posted_event (id type sourceUserId : string)
           (targetUserId : option string) (data : Routes.EventBody)
           (now : Z) : Event.t := {|
  Event.eventId := id;
  Event.type := type;
  Event.sourceUserId := sourceUserId;
  Event.targetUserId := targetUserId;
  Event.data := {|
    Event.postId := Routes.bodyPostId data;
    Event.commentId := Routes.bodyCommentId data;
    Event.content := Routes.bodyContent data;
    Event.mentionedUsers := None;
    Event.metadata := Some (default [] (Routes.bodyMetadata data));
  |};
  Event.timestamp := now;
  Event.processed := false;
  Event.notificationsGenerated := [];
|}.

(** The world once [uuidv4()] has been called. *)
Definition drew (w : World) : World := snd (uuidv4 w).

(** The unique indexes of the three collections hold: no two users share
    a [userId] or an [email], no two events an [eventId], no two
    notifications a [notificationId]. *)
Definition ids_unique (d : DB) : Prop :=
  List.NoDup (map User.userId (users d))
  /\ List.NoDup (map User.email (users d))
  /\ List.NoDup (map Event.eventId (events d))
  /\ List.NoDup (map Notification.notificationId (notifications d)).

(** The latest time the clock can show while the scripted storage calls
    are awaited. *)
Definition latest (w : World) : Z :=
  clock w + Z.of_nat (list_sum (map elapsed (pending w))).

(** A computation that only awaits storage calls and logs: the script is
    consumed, the clock follows it. *)
Definition steady {A} (m : M A) : Prop :=
  forall w, latest (snd (m w)) = latest w.

(** ** Sample data

    Concrete users, events, notifications and worlds on which the
    statements below are exercised. *)

Module Samples.

Definition user (userId username : string) : User.t := {|
  User.userId := userId;
  User.username := username;
  User.email := userId +:+ "@example.com";
  User.preferences := User.default_preferences;
  User.followers := [];
  User.following := [];
|}.

Definition u1 : User.t := user "u1" "alice".
Definition u2 : User.t := user "u2" "bobby".
Definition u3 : User.t := user "u3" "carol".

Definition event (eventId type sourceUserId : string)
           (targetUserId postId content : option string)
           (mentionedUsers : option (list string)) (processed : bool)
           (timestamp : Z) : Event.t := {|
  Event.eventId := eventId;
  Event.type := type;
  Event.sourceUserId := sourceUserId;
  Event.targetUserId := targetUserId;
  Event.data := {|
    Event.postId := postId;
    Event.commentId := None;
    Event.content := content;
    Event.mentionedUsers := mentionedUsers;
    Event.metadata := None;
  |};
  Event.timestamp := timestamp;
  Event.processed := processed;
  Event.notificationsGenerated := [];
|}.

Definition notification (notificationId userId type sourceUserId : string)
           (postId : option string) (status : Notification.Status)
           (timestamp : Z) (expiresAt : option Z) : Notification.t := {|
  Notification.notificationId := notificationId;
  Notification.userId := userId;
  Notification.type := type;
  Notification.content := "bobby liked your post";
  Notification.status := status;
  Notification.relatedEventId := Some "e0";
  Notification.sourceUserId := Some sourceUserId;
  Notification.data := {|
    Notification.postId := postId;
    Notification.commentId := None;
    Notification.url := None;
    Notification.imageUrl := None;
    Notification.metadata := [];
  |};
  Notification.timestamp := timestamp;
  Notification.readAt := None;
  Notification.dismissedAt := None;
  Notification.expiresAt := expiresAt;
|}.

(** The time of the sample worlds: 100 days after the epoch. *)
Definition noon : Z := 100 * 24 * 60 * 60 * 1000.

Definition world (ns : list Notification.t) (es : list Event.t)
           (script : list IO) : World := {|
  db := {| users := [u1; u2; u3]; notifications := ns; events := es |};
  clock := noon;
  rng := fun k => String (ascii_of_nat (97 + k)) "-uuid";
  drawn := 0;
  pending := script;
  console := [];
  env_FRONTEND_URL := None;
  lag := fun _ => 0%nat;
|}.

(** bobby likes alice's post p1. *)
Definition like : Event.t :=
  event "e1" "LIKE" "u2" (Some "u1") (Some "p1") None None false
        (noon - 1000).

(** A like by a user that does not exist. *)
Definition ghost_like : Event.t :=
  event "e2" "LIKE" "ghost" (Some "u1") (Some "p1") None None false
        (noon - 1000).

(** alice likes her own post. *)
Definition self_like : Event.t :=
  event "e3" "LIKE" "u1" (Some "u1") (Some "p1") None None false
        (noon - 1000).

(** bobby mentions alice, himself and carol. *)
Definition mention : Event.t :=
  event "e4" "MENTION" "u2" None (Some "p1") None
        (Some ["u1"; "u2"; "u3"]) false (noon - 1000).

(** bobby shares alice's post, nine seconds before noon. *)
Definition share : Event.t :=
  event "e5" "SHARE" "u2" (Some "u1") (Some "p1") None None false
        (noon - 9000).

(** A comment of 60 characters. *)
Definition long_comment : Event.t :=
  event "e6" "COMMENT" "u2" (Some "u1") (Some "p1")
        (Some "0123456789012345678901234567890123456789012345678901234567890")
        None false (noon - 1000).

(** An event that was processed already. *)
Definition settled : Event.t :=
  event "e7" "LIKE" "u3" (Some "u1") (Some "p2") None None true
        (noon - 5000).

(** The notification of an earlier like, one minute old. *)
Definition recent_like : Notification.t :=
  notification "n1" "u1" "LIKE" "u2" (Some "p1") Notification.unread
               (noon - 60 * 1000) (Some (noon + Notification.thirty_days)).

(** The notification of an earlier like, six minutes old. *)
Definition earlier_like : Notification.t :=
  notification "n2" "u1" "LIKE" "u2" (Some "p1") Notification.unread
               (noon - 6 * 60 * 1000)
               (Some (noon + Notification.thirty_days)).

(** Forty days old, expired ten days ago, never read. *)
Definition stale_unread : Notification.t :=
  notification "n3" "u1" "LIKE" "u2" (Some "p1") Notification.unread
               (noon - 40 * 24 * 60 * 60 * 1000)
               (Some (noon - 10 * 24 * 60 * 60 * 1000)).

(** Forty days old and read. *)
Definition stale_read : Notification.t :=
  notification "n4" "u1" "LIKE" "u3" (Some "p2") Notification.read
               (noon - 40 * 24 * 60 * 60 * 1000)
               (Some (noon - 10 * 24 * 60 * 60 * 1000)).

(** The world of [world], where building a document takes 3 ms. *)
Definition sluggish (ns : list Notification.t) (es : list Event.t)
           (script : list IO) : World := {|
  db := {| users := [u1; u2; u3]; notifications := ns; events := es |};
  clock := noon;
  rng := fun k => String (ascii_of_nat (97 + k)) "-uuid";
  drawn := 0;
  pending := script;
  console := [];
  env_FRONTEND_URL := None;
  lag := fun _ => 3%nat;
|}.

(** A world with an empty database. *)
Definition blank : World := {|
  db := empty_db;
  clock := noon;
  rng := fun k => String (ascii_of_nat (97 + k)) "-uuid";
  drawn := 0;
  pending := [];
  console := [];
  env_FRONTEND_URL := None;
  lag := fun _ => 0%nat;
|}.

(** A request to subscribe to LIKE and SHARE. *)
Definition want_share : Routes.NewPreferences := {|
  Routes.newEmailNotifications := None;
  Routes.newPushNotifications := None;
  Routes.newNotificationTypes := Some ["LIKE"; "SHARE"];
|}.

(** The storage call to come rejects after 20 ms. *)
Definition outage : list IO := [{| rejects := true; elapsed := 20 |}].

(** bobby follows alice. *)
Definition follow : Event.t :=
  event "e8" "FOLLOW" "u2" (Some "u1") None None None false (noon - 1000).

(** An event of a type the processor does not know. *)
Definition poke : Event.t :=
  event "e9" "POKE" "u2" (Some "u1") None None None false (noon - 1000).

(** bobby publishes post p3. *)
Definition post : Event.t :=
  event "e10" "POST_CREATE" "u2" None (Some "p3") None None false
        (noon - 1000).

(** alice and carol follow bobby; carol has unsubscribed from new
    posts. *)
Definition crowd : World := {|
  db := {| users :=
             [User.set_following ["u2"] u1;
              User.set_followers ["u1"; "u3"] u2;
              User.set_preferences
                {| User.emailNotifications := true;
                   User.pushNotifications := true;
                   User.notificationTypes := ["LIKE"; "FOLLOW"] |}
                (User.set_following ["u2"] u3)];
           notifications := [];
           events := [post] |};
  clock := noon;
  rng := fun k => String (ascii_of_nat (97 + k)) "-uuid";
  drawn := 0;
  pending := [];
  console := [];
  env_FRONTEND_URL := Some "https://insyd.example";
  lag := fun _ => 0%nat;
|}.

End Samples.

(** * Properties *)

(** ** Strings *)

Lemma substring_prefix_length (m : nat) (s : string) :
  String.length (String.substring 0 m s) = Nat.min m (String.length s).
Proof.
  revert s. induction m as [|m IH]; intros [|c s]; simpl; auto.
Qed.

Lemma substring_whole (m : nat) (s : string) :
  (String.length s <= m)%nat -> String.substring 0 m s = s.
Proof.
  revert s. induction m as [|m IH]; intros [|c s]; simpl; intros H;
    auto; try lia.
  f_equal. apply IH. lia.
Qed.

Lemma append_cons (c : ascii) (s t : string) :
  String c s +:+ t = String c (s +:+ t).
Proof. reflexivity. Qed.

Lemma substring_is_prefix (m : nat) (s : string) :
  exists rest, s = String.substring 0 m s +:+ rest.
Proof.
  revert s. induction m as [|m IH]; intros [|c s]; simpl.
  - exists EmptyString. reflexivity.
  - exists (String c s). reflexivity.
  - exists EmptyString. reflexivity.
  - destruct (IH s) as [rest Hrest]. exists rest.
    rewrite append_cons. congruence.
Qed.

Lemma append_empty_r (s : string) : s +:+ EmptyString = s.
Proof. induction s; [reflexivity | rewrite append_cons; congruence]. Qed.

Lemma truthy_true (s : string) : Js.truthy s = true <-> s <> EmptyString.
Proof.
  unfold Js.truthy. destruct (String.eqb_spec s EmptyString); simpl; split;
    congruence.
Qed.

Lemma truthy_append_r (s t : string) :
  Js.truthy t = true -> Js.truthy (s +:+ t) = true.
Proof.
  rewrite !truthy_true. intros Ht H. apply Ht.
  destruct s; [assumption | discriminate].
Qed.

Lemma includes_In (l : list string) (x : string) :
  Js.includes l x = true <-> In x l.
Proof.
  induction l as [|y l IH]; simpl.
  - split; [discriminate | tauto].
  - rewrite orb_true_iff, IH.
    destruct (String.eqb_spec y x); intuition congruence.
Qed.

(** ** C8: the excerpt of a comment *)

(** C8.  For a COMMENT event whose [data.content] is a non-empty text, the
    content of the notification is the source user's display name followed
    by [ commented: ] and, between double quotes, the excerpt: a prefix of
    the text of at most 50 characters, followed by the ellipsis marker
    exactly when the text is longer than 50 characters; a text of at most
    50 characters appears whole with no marker.  For the empty text the
    content is the display name followed by [ commented on your post]. *)
Theorem comment_excerpt_bounded (event : Event.t) (sourceUser : User.t)
        (c : string) :
  Event.type event = "COMMENT" ->
  Event.content (Event.data event) = Some c ->
  (c <> EmptyString ->
   exists shown marker rest,
     Processor.generateNotificationContent event sourceUser
     = User.username sourceUser +:+ " commented: " +:+ Js.dquote
       +:+ (shown +:+ marker) +:+ Js.dquote
     /\ c = shown +:+ rest
     /\ (String.length shown <= 50)%nat
     /\ ((50 < String.length c)%nat ->
         marker = "..." /\ String.length shown = 50%nat)
     /\ ((String.length c <= 50)%nat -> marker = EmptyString /\ shown = c))
  /\ (c = EmptyString ->
      Processor.generateNotificationContent event sourceUser
      = User.username sourceUser +:+ " commented on your post").
Proof.
  intros Hty Hc.
  unfold Processor.generateNotificationContent, Processor.excerpt.
  rewrite Hty, Hc. simpl String.eqb. cbv iota.
  split; [|intros ->; reflexivity].
  intros Hne.
  destruct (substring_is_prefix 50 c) as [rest Hrest].
  exists (String.substring 0 50 c),
         (if (50 <? String.length c)%nat then "..." else EmptyString), rest.
  apply truthy_true in Hne. rewrite Hne.
  split; [reflexivity|]. split; [assumption|].
  pose proof (substring_prefix_length 50 c) as Hlen.
  split; [lia|]. split; intros Hl.
  - apply Nat.ltb_lt in Hl as Hb. rewrite Hb. split; [reflexivity | lia].
  - assert ((50 <? String.length c)%nat = false) as Hb
        by (apply Nat.ltb_ge; lia).
    rewrite Hb. split; [reflexivity | apply substring_whole; assumption].
Qed.

(** ** Awaited storage calls *)

Lemma await_storage_eq (w : World) :
  await_storage w
  = (if next_rejects w then Throw StorageError else Ok tt, tick w).
Proof.
  unfold await_storage, next_rejects, tick.
  destruct (pending w) as [|o rest]; [reflexivity|].
  destruct (rejects o); reflexivity.
Qed.

Lemma db_tick (w : World) : db (tick w) = db w.
Proof. unfold tick. destruct (pending w); reflexivity. Qed.

Lemma console_tick (w : World) : console (tick w) = console w.
Proof. unfold tick. destruct (pending w); reflexivity. Qed.

Lemma clock_tick (w : World) : clock w <= clock (tick w).
Proof. unfold tick. destruct (pending w); simpl; lia. Qed.

Lemma healthy_next (w : World) : healthy w = true -> next_rejects w = false.
Proof.
  unfold healthy, next_rejects. destruct (pending w) as [|o rest]; simpl.
  - reflexivity.
  - destruct (rejects o); simpl; congruence.
Qed.

Lemma healthy_tick (w : World) : healthy w = true -> healthy (tick w) = true.
Proof.
  unfold healthy, tick. destruct (pending w) as [|o rest] eqn:E; simpl.
  - rewrite E. intros _. reflexivity.
  - rewrite andb_true_iff. tauto.
Qed.

Lemma deleteMany_eq (p : Notification.t -> bool) (w : World) :
  Notifications.deleteMany p w
  = if next_rejects w then (Throw StorageError, tick w)
    else (Ok (List.length (List.filter p (notifications (db w)))),
          set_db (set_notifications
                    (List.filter (fun n => negb (p n)) (notifications (db w)))
                    (db w))
                 (tick w)).
Proof.
  unfold Notifications.deleteMany, bind. rewrite await_storage_eq.
  destruct (next_rejects w); [reflexivity|].
  unfold get_db, put_db, ret. rewrite db_tick. reflexivity.
Qed.

(** ** C7: the retention sweep *)

Lemma cleanupOldNotifications_db (w : World) :
  db (exec Processor.cleanupOldNotifications w)
  = if next_rejects w then db w
    else set_notifications
           (List.filter
              (fun n => negb (Processor.oldAndSettled
                                (clock w - Notification.thirty_days) n))
              (notifications (db w)))
           (db w).
Proof.
  unfold exec, Processor.cleanupOldNotifications, try_catch, bind, Date_now.
  rewrite deleteMany_eq. destruct (next_rejects w); simpl.
  - apply db_tick.
  - reflexivity.
Qed.

Lemma cleanupOldNotifications_keeps (w : World) (n : Notification.t) :
  In n (notifications (db w)) ->
  Processor.oldAndSettled (clock w - Notification.thirty_days) n = false ->
  In n (notifications (db (exec Processor.cleanupOldNotifications w))).
Proof.
  intros Hin Hk. rewrite cleanupOldNotifications_db.
  destruct (next_rejects w); [assumption|].
  simpl. apply filter_In. split; [assumption|]. rewrite Hk. reflexivity.
Qed.

Lemma oldAndSettled_unread (horizon : Z) (n : Notification.t) :
  Notification.status n = Notification.unread ->
  Processor.oldAndSettled horizon n = false.
Proof.
  intros Hst. unfold Processor.oldAndSettled. rewrite Hst. simpl.
  apply andb_false_r.
Qed.

(** C7.  [cleanupOldNotifications] leaves exactly the notifications that
    are not both settled (read or dismissed) and older than thirty days
    before the time of the call, or all of them when the storage call
    rejects.  So a notification it deletes is read or dismissed and older
    than the horizon, and an unread notification stays whatever its age.
    Users and events are not touched. *)
Theorem retention_sweep_spares_unread (w : World) :
  let w' := exec Processor.cleanupOldNotifications w in
  let horizon := clock w - Notification.thirty_days in
  notifications (db w')
  = (if next_rejects w then notifications (db w)
     else List.filter (fun n => negb (Processor.oldAndSettled horizon n))
                      (notifications (db w)))
  /\ (forall n,
         In n (notifications (db w)) -> ~ In n (notifications (db w')) ->
         (Notification.status n = Notification.read
          \/ Notification.status n = Notification.dismissed)
         /\ Notification.timestamp n < horizon)
  /\ (forall n,
         In n (notifications (db w)) ->
         Notification.status n = Notification.unread ->
         In n (notifications (db w')))
  /\ users (db w') = users (db w)
  /\ events (db w') = events (db w).
Proof.
  intros w' horizon. subst w'.
  pose proof (cleanupOldNotifications_db w) as Hdb. fold horizon in Hdb.
  split; [|split; [|split; [|split]]].
  - rewrite Hdb. destruct (next_rejects w); reflexivity.
  - intros n Hin Hout.
    destruct (Processor.oldAndSettled horizon n) eqn:Hk.
    + unfold Processor.oldAndSettled in Hk.
      apply andb_true_iff in Hk as [Hold Hst]. apply Z.ltb_lt in Hold.
      split; [|assumption].
      destruct (Notification.status n); simpl in Hst;
        [discriminate | left | right]; reflexivity.
    + exfalso. apply Hout. apply cleanupOldNotifications_keeps; assumption.
  - intros n Hin Hst. apply cleanupOldNotifications_keeps; [assumption|].
    apply oldAndSettled_unread; assumption.
  - rewrite Hdb. destruct (next_rejects w); reflexivity.
  - rewrite Hdb. destruct (next_rejects w); reflexivity.
Qed.

(** ** C10: the expiry cleanup *)

(** C10.  When the storage call resolves, [POST /api/notifications/cleanup]
    answers 200 with the number of deleted notifications and leaves
    exactly the notifications whose [expiresAt] is not in the past: every
    stored notification whose [expiresAt] is earlier than the time of the
    call is deleted whatever its status, one that is unread included,
    whereas the retention sweep run in the same world keeps every unread
    notification. *)
Theorem expiry_cleanup_ignores_status (w : World) :
  next_rejects w = false ->
  let w' := exec Routes.postCleanup w in
  fst (Routes.postCleanup w)
  = Ok (200%nat,
        Some (List.length (List.filter (Notifications.expired (clock w))
                                       (notifications (db w)))))
  /\ notifications (db w')
     = List.filter (fun n => negb (Notifications.expired (clock w) n))
                   (notifications (db w))
  /\ (forall n d,
         In n (notifications (db w)) ->
         Notification.expiresAt n = Some d -> d < clock w ->
         ~ In n (notifications (db w')))
  /\ (forall n,
         In n (notifications (db w)) ->
         Notification.status n = Notification.unread ->
         In n (notifications
                 (db (exec Processor.cleanupOldNotifications w)))).
Proof.
  intros Hok w'.
  assert (Routes.postCleanup w
          = (Ok (200%nat,
                 Some (List.length
                         (List.filter (Notifications.expired (clock w))
                                      (notifications (db w))))),
             set_db (set_notifications
                       (List.filter
                          (fun n => negb (Notifications.expired (clock w) n))
                          (notifications (db w)))
                       (db w))
                    (tick w))) as Heq.
  { unfold Routes.postCleanup, Notifications.cleanupExpired, try_catch, bind,
      Date_now.
    rewrite deleteMany_eq, Hok. reflexivity. }
  subst w'. unfold exec. rewrite Heq. simpl.
  split; [reflexivity|]. split; [reflexivity|]. split.
  - intros n d Hin Hexp Hlt Hin'. apply filter_In in Hin' as [_ Hk].
    unfold Notifications.expired in Hk. rewrite Hexp in Hk.
    apply Z.ltb_lt in Hlt. rewrite Hlt in Hk. discriminate.
  - intros n Hin Hst. apply cleanupOldNotifications_keeps; [assumption|].
    apply oldAndSettled_unread; assumption.
Qed.

(** ** C6: a notification's status only moves forward *)

Lemma evolves_refl (a : Notification.t) : evolves a a.
Proof. split; [reflexivity|]. destruct (Notification.status a); reflexivity. Qed.

Lemma Forall2_evolves_refl (l : list Notification.t) : Forall2 evolves l l.
Proof. induction l; constructor; auto using evolves_refl. Qed.

Lemma find_first_Some {A} (p : A -> bool) (l : list A) (i : nat) (x : A) :
  find_first p l = Some (i, x) -> nth_error l i = Some x /\ p x = true.
Proof.
  revert i. induction l as [|y l IH]; simpl; intros i H; [discriminate|].
  destruct (p y) eqn:Hp.
  - inversion H; subst. simpl. auto.
  - destruct (find_first p l) as [[j z]|]; [|discriminate].
    inversion H; subst. simpl. apply IH. reflexivity.
Qed.

Lemma Forall2_alter_at {A} (R : A -> A -> Prop) (f : A -> A) (l : list A)
      (i : nat) (x : A) :
  (forall a, R a a) -> nth_error l i = Some x -> R x (f x) ->
  Forall2 R l (alter_at i f l).
Proof.
  intros Hrefl. revert i. induction l as [|y l IH]; intros [|i] Hn Hx;
    simpl in *; try discriminate.
  - inversion Hn; subst. constructor; [assumption|].
    clear -Hrefl. induction l; constructor; auto.
  - constructor; [apply Hrefl | apply IH; assumption].
Qed.

Lemma Forall2_update_all {A} (R : A -> A -> Prop) (p : A -> bool)
      (f : A -> A) (l : list A) :
  (forall a, R a a) -> (forall a, p a = true -> R a (f a)) ->
  Forall2 R l (update_all p f l).
Proof.
  intros Hrefl Hf. unfold update_all.
  induction l as [|y l IH]; simpl; constructor; [|assumption].
  destruct (p y) eqn:Hp; auto.
Qed.

Lemma findOne_eq (p : Notification.t -> bool) (w : World) :
  Notifications.findOne p w
  = (if next_rejects w then Throw StorageError
     else Ok (find_first p (notifications (db w))), tick w).
Proof.
  unfold Notifications.findOne, bind. rewrite await_storage_eq.
  destruct (next_rejects w); [reflexivity|].
  unfold get_db, ret. rewrite db_tick. reflexivity.
Qed.

Lemma notification_save_eq (i : nat) (n : Notification.t)
      (patch : Notification.t -> Notification.t) (w : World) :
  Notifications.save i n patch w
  = if negb (Notification.valid n) then (Throw ValidationError, w)
    else if next_rejects w then (Throw StorageError, tick w)
    else (Ok tt,
          set_db (set_notifications
                    (alter_at i patch (notifications (db w))) (db w))
                 (tick w)).
Proof.
  unfold Notifications.save. destruct (negb (Notification.valid n));
    [reflexivity|].
  unfold bind. rewrite await_storage_eq.
  destruct (next_rejects w); [reflexivity|].
  unfold get_db, put_db. rewrite db_tick. reflexivity.
Qed.

Lemma updateMany_eq (p : Notification.t -> bool)
      (f : Notification.t -> Notification.t) (w : World) :
  Notifications.updateMany p f w
  = if next_rejects w then (Throw StorageError, tick w)
    else (Ok (List.length (List.filter p (notifications (db w)))),
          set_db (set_notifications (update_all p f (notifications (db w)))
                                    (db w))
                 (tick w)).
Proof.
  unfold Notifications.updateMany, bind. rewrite await_storage_eq.
  destruct (next_rejects w); [reflexivity|].
  unfold get_db, put_db, ret. rewrite db_tick. reflexivity.
Qed.

(** Saving a patch of a freshly fetched notification changes the store
    along [evolves] as soon as the patch does so on that notification. *)
Lemma save_fetched_evolves (p : Notification.t -> bool) (i : nat)
      (n doc : Notification.t) (patch : Notification.t -> Notification.t)
      (w : World) :
  find_first p (notifications (db w)) = Some (i, n) ->
  evolves n (patch n) ->
  Forall2 evolves (notifications (db w))
          (notifications (db (snd (Notifications.save i doc patch (tick w))))).
Proof.
  intros Hfind Hev. rewrite notification_save_eq.
  destruct (negb (Notification.valid doc)); simpl.
  - rewrite db_tick. apply Forall2_evolves_refl.
  - destruct (next_rejects (tick w)); simpl.
    + rewrite !db_tick. apply Forall2_evolves_refl.
    + rewrite db_tick. apply find_first_Some in Hfind as [Hnth _].
      eapply Forall2_alter_at; eauto using evolves_refl.
Qed.

Lemma putRead_evolves (id : string) (w : World) :
  Forall2 evolves (notifications (db w))
          (notifications (db (exec (Routes.putRead id) w))).
Proof.
  unfold exec, Routes.putRead, try_catch, bind. rewrite findOne_eq.
  destruct (next_rejects w); simpl.
  - rewrite db_tick. apply Forall2_evolves_refl.
  - destruct (find_first _ (notifications (db w))) as [[i n]|] eqn:Hfind;
      simpl.
    + unfold Notifications.markAsRead.
      destruct (Notification.status n) eqn:Hst; simpl;
        try (rewrite db_tick; apply Forall2_evolves_refl).
      unfold bind, Date_now.
      pose proof (save_fetched_evolves _ i n
                    (Notification.set_status_readAt Notification.read
                                                    (clock (tick w)) n)
                    (Notification.set_status_readAt Notification.read
                                                    (clock (tick w)))
                    w Hfind) as Hsave.
      destruct (Notifications.save _ _ _ (tick w)) as [[[]|e] w1]; simpl in *;
        apply Hsave; (split; [reflexivity | rewrite Hst; reflexivity]).
    + rewrite db_tick. apply Forall2_evolves_refl.
Qed.

Lemma deleteNotification_evolves (id : string) (w : World) :
  Forall2 evolves (notifications (db w))
          (notifications (db (exec (Routes.deleteNotification id) w))).
Proof.
  unfold exec, Routes.deleteNotification, try_catch, bind. rewrite findOne_eq.
  destruct (next_rejects w); simpl.
  - rewrite db_tick. apply Forall2_evolves_refl.
  - destruct (find_first _ (notifications (db w))) as [[i n]|] eqn:Hfind;
      simpl.
    + unfold Notifications.dismiss, bind, Date_now.
      pose proof (save_fetched_evolves _ i n
                    (Notification.set_status_dismissedAt
                       Notification.dismissed (clock (tick w)) n)
                    (Notification.set_status_dismissedAt
                       Notification.dismissed (clock (tick w)))
                    w Hfind) as Hsave.
      destruct (Notifications.save _ _ _ (tick w)) as [[[]|e] w1]; simpl in *;
        apply Hsave;
        (split; [reflexivity | destruct (Notification.status n); reflexivity]).
    + rewrite db_tick. apply Forall2_evolves_refl.
Qed.

Lemma putReadAll_evolves (uid : string) (w : World) :
  Forall2 evolves (notifications (db w))
          (notifications (db (exec (Routes.putReadAll uid) w))).
Proof.
  unfold exec, Routes.putReadAll, Notifications.markAllAsRead, try_catch,
    bind, Date_now.
  rewrite updateMany_eq. destruct (next_rejects w); simpl.
  - rewrite db_tick. apply Forall2_evolves_refl.
  - apply Forall2_update_all; [apply evolves_refl|].
    intros a Ha. apply andb_true_iff in Ha as [_ Hst].
    split; [reflexivity|].
    destruct (Notification.status a); simpl in *; congruence.
Qed.

(** C6.  Marking one notification read, marking all of a user's
    notifications read and dismissing a notification, as the API runs them
    on a freshly fetched document, keep every stored notification in place
    and change its status only along unread to read or (unread or read) to
    dismissed: nothing leaves dismissed and nothing goes back from read to
    unread.  [markAsRead] on a document that is not unread resolves to the
    same document and changes nothing, so marking a read notification read
    again leaves [readAt] and the whole database as they were. *)
Theorem status_moves_forward (w : World) :
  (forall id,
      Forall2 evolves (notifications (db w))
              (notifications (db (exec (Routes.putRead id) w))))
  /\ (forall uid,
         Forall2 evolves (notifications (db w))
                 (notifications (db (exec (Routes.putReadAll uid) w))))
  /\ (forall id,
         Forall2 evolves (notifications (db w))
                 (notifications (db (exec (Routes.deleteNotification id) w))))
  /\ (forall b, allowed Notification.dismissed b = true ->
                b = Notification.dismissed)
  /\ allowed Notification.read Notification.unread = false
  /\ (forall i n,
         Notification.status n <> Notification.unread ->
         Notifications.markAsRead i n w = (Ok n, w))
  /\ (forall id i n,
         find_first (fun x => String.eqb (Notification.notificationId x) id)
                    (notifications (db w)) = Some (i, n) ->
         Notification.status n = Notification.read ->
         db (exec (Routes.putRead id) w) = db w).
Proof.
  split; [intros; apply putRead_evolves|].
  split; [intros; apply putReadAll_evolves|].
  split; [intros; apply deleteNotification_evolves|].
  split; [intros []; simpl; congruence|].
  split; [reflexivity|].
  split.
  - intros i n Hst. unfold Notifications.markAsRead.
    destruct (Notification.status n); [congruence | |]; reflexivity.
  - intros id i n Hfind Hst.
    unfold exec, Routes.putRead, try_catch, bind. rewrite findOne_eq.
    destruct (next_rejects w); simpl; [apply db_tick|].
    rewrite Hfind. simpl. unfold Notifications.markAsRead. rewrite Hst.
    simpl. apply db_tick.
Qed.

(** ** Storage calls of the processor *)

Lemma findByUserId_eq (id : string) (w : World) :
  Users.findByUserId id w
  = (if next_rejects w then Throw StorageError
     else Ok (List.find (fun u => String.eqb (User.userId u) id)
                        (users (db w))),
     tick w).
Proof.
  unfold Users.findByUserId, bind. rewrite await_storage_eq.
  destruct (next_rejects w); [reflexivity|].
  unfold get_db, ret. rewrite db_tick. reflexivity.
Qed.

Lemma findFollowing_eq (id : string) (w : World) :
  Users.findFollowing id w
  = (if next_rejects w then Throw StorageError
     else Ok (List.filter (fun u => Js.includes (User.following u) id)
                          (users (db w))),
     tick w).
Proof.
  unfold Users.findFollowing, bind. rewrite await_storage_eq.
  destruct (next_rejects w); [reflexivity|].
  unfold get_db, ret. rewrite db_tick. reflexivity.
Qed.

Lemma notification_insert_eq (n : Notification.t) (w : World) :
  Notifications.insert n w
  = if negb (Notification.valid n) then (Throw ValidationError, w)
    else if next_rejects w then (Throw StorageError, tick w)
    else if Notifications.clashes n (notifications (db w))
    then (Throw DuplicateKeyError, tick w)
    else (Ok tt,
          set_db (set_notifications (notifications (db w) ++ [n]) (db w))
                 (tick w)).
Proof.
  unfold Notifications.insert. destruct (negb (Notification.valid n));
    [reflexivity|].
  unfold bind. rewrite await_storage_eq.
  destruct (next_rejects w); [reflexivity|].
  unfold get_db, put_db, throw. rewrite db_tick.
  destruct (Notifications.clashes n (notifications (db w))); reflexivity.
Qed.

Lemma findOneAndUpdate_eq (id : string) (gen : list (string * string))
      (w : World) :
  Events.findOneAndUpdate id gen w
  = if next_rejects w then (Throw StorageError, tick w)
    else (Ok tt,
          set_db (set_events
                    (update_first (fun e => String.eqb (Event.eventId e) id)
                                  (Event.mark_processed gen) (events (db w)))
                    (db w))
                 (tick w)).
Proof.
  unfold Events.findOneAndUpdate, bind. rewrite await_storage_eq.
  destruct (next_rejects w); [reflexivity|].
  unfold get_db, put_db. rewrite db_tick. reflexivity.
Qed.

Lemma getUnprocessedEvents_eq (w : World) :
  Events.getUnprocessedEvents w
  = (if next_rejects w then Throw StorageError
     else Ok (merge_sort Events.older
                         (List.filter Events.unprocessed (events (db w)))),
     tick w).
Proof.
  unfold Events.getUnprocessedEvents, bind. rewrite await_storage_eq.
  destruct (next_rejects w); [reflexivity|].
  unfold get_db, ret. rewrite db_tick. reflexivity.
Qed.

Lemma find_first_None {A} (p : A -> bool) (l : list A) :
  find_first p l = None <-> forall x, In x l -> p x = false.
Proof.
  induction l as [|y l IH]; simpl.
  - split; [intros _ x [] | reflexivity].
  - destruct (p y) eqn:Hp.
    + split; [discriminate|]. intros H. specialize (H y (or_introl eq_refl)).
      congruence.
    + destruct (find_first p l) as [[j z]|].
      * split; [discriminate|]. intros H.
        destruct IH as [_ IH]. discriminate IH. intros x Hx. apply H. auto.
      * split; [|reflexivity]. intros _ x [<-|Hx]; [assumption|].
        apply IH; [reflexivity | assumption].
Qed.

Lemma generateNotificationContent_truthy (event : Event.t) (u : User.t) :
  Js.truthy (Processor.generateNotificationContent event u) = true.
Proof.
  unfold Processor.generateNotificationContent.
  repeat match goal with
         | |- context [if ?b then _ else _] => destruct b
         | |- context [match ?o with Some _ => _ | None => _ end] =>
             destruct o
         end;
    apply truthy_append_r; reflexivity.
Qed.

(** ** The notification writer *)

Ltac healthy_tac :=
  intros;
  repeat first
    [ assumption
    | apply healthy_tick
    | match goal with
      | |- healthy ?x = true =>
          let p := eval simpl in (pending x) in
          match p with
          | pending ?y => progress change (healthy y = true)
          end
      end ].

Ltac frame_tac :=
  simpl; rewrite ?db_tick; simpl; rewrite ?db_tick, ?app_nil_r;
  repeat split; auto; try healthy_tac.

Lemma createNotification_frame (event : Event.t) (src tgt : User.t)
      (w : World) :
  let r := Processor.createNotification event src tgt w in
  users (db (snd r)) = users (db w)
  /\ events (db (snd r)) = events (db w)
  /\ notifications (db (snd r)) = notifications (db w) ++ contribution (fst r)
  /\ Forall (written_for event tgt) (contribution (fst r))
  /\ (healthy w = true -> healthy (snd r) = true).
Proof.
  unfold Processor.createNotification, try_catch, bind, Date_now.
  rewrite findOne_eq.
  destruct (next_rejects w); [frame_tac|]. simpl.
  destruct (find_first _ (notifications (db w))) as [[i x]|]; [frame_tac|].
  unfold uuidv4, get_FRONTEND_URL. simpl.
  rewrite notification_insert_eq.
  destruct (negb (Notification.valid _)); [frame_tac|].
  destruct (next_rejects _); [frame_tac|].
  destruct (Notifications.clashes _ _); [frame_tac|].
  frame_tac. constructor; [|constructor]. repeat split.
Qed.

Lemma opt_eqb_eq (a b : option string) : Js.opt_eqb a b = true <-> a = b.
Proof.
  destruct a as [x|], b as [y|]; simpl; try (split; congruence).
  destruct (String.eqb_spec x y); split; congruence.
Qed.

Lemma dedup_query_true (event : Event.t) (src tgt : User.t) (w : World)
      (n : Notification.t) :
  dedup_query event src tgt w n = true
  <-> same_cause event src tgt n
      /\ clock w - Processor.five_minutes <= Notification.timestamp n.
Proof.
  unfold dedup_query, Processor.recentDuplicateFilter, same_cause.
  rewrite !andb_true_iff, !opt_eqb_eq, !String.eqb_eq, Z.leb_le. tauto.
Qed.

Lemma enum_type_truthy (t : string) :
  Js.includes Notification.type_enum t = true -> Js.truthy t = true.
Proof.
  intros H. apply includes_In in H. simpl in H.
  repeat destruct H as [<-|H]; try reflexivity. destruct H.
Qed.

(** ** C1: the de-duplication gate *)

(** C1.  Let the de-duplication query of [createNotification] resolve.
    If a stored notification has the recipient, source user, type and
    [data.postId] of the event at hand, and its timestamp is no earlier than
    five minutes before the time of processing, then nothing is written:
    the call resolves to no notification, without error, and the database is
    as before.  If every stored notification with those four fields is
    older than that, and the save goes through, a notification for the
    event is written: unread, with those four fields, appended to the
    collection. *)
Theorem dedup_within_five_minutes (w : World) (event : Event.t)
        (src tgt : User.t) :
  next_rejects w = false ->
  ((exists n,
       In n (notifications (db w))
       /\ same_cause event src tgt n
       /\ clock w - Processor.five_minutes <= Notification.timestamp n) ->
   Processor.createNotification event src tgt w = (Ok None, tick w)
   /\ db (tick w) = db w)
  /\ ((forall n,
          In n (notifications (db w)) -> same_cause event src tgt n ->
          Notification.timestamp n < clock w - Processor.five_minutes) ->
      write_accepted event tgt w = true ->
      exists n' w',
        Processor.createNotification event src tgt w = (Ok (Some n'), w')
        /\ notifications (db w') = notifications (db w) ++ [n']
        /\ same_cause event src tgt n'
        /\ Notification.status n' = Notification.unread
        /\ Notification.relatedEventId n' = Some (Event.eventId event)
        /\ Notification.timestamp n' = clock (tick w)).
Proof.
  intros Hok.
  unfold Processor.createNotification, try_catch, bind, Date_now.
  rewrite findOne_eq, Hok. fold (dedup_query event src tgt w).
  split.
  - intros (n & Hin & Hcause & Hrecent).
    destruct (find_first (dedup_query event src tgt w) (notifications (db w)))
      as [[i x]|] eqn:Hfind.
    + split; [reflexivity | apply db_tick].
    + exfalso.
      pose proof (proj1 (find_first_None _ _) Hfind n Hin) as Hq.
      assert (dedup_query event src tgt w n = true) as Hq'
          by (apply dedup_query_true; auto).
      congruence.
  - intros Hold Hacc.
    assert (find_first (dedup_query event src tgt w) (notifications (db w))
            = None) as Hfind.
    { apply find_first_None. intros x Hx.
      destruct (dedup_query event src tgt w x) eqn:Hq; [|reflexivity].
      apply dedup_query_true in Hq as [Hc Ht].
      specialize (Hold x Hx Hc). lia. }
    rewrite Hfind.
    unfold write_accepted in Hacc.
    repeat (apply andb_true_iff in Hacc as [Hacc ?]).
    apply negb_true_iff in Hacc.
    match goal with H : negb (existsb _ _) = true |- _ =>
      apply negb_true_iff in H; rename H into Hfresh end.
    unfold uuidv4, get_FRONTEND_URL, Date_now. simpl.
    rewrite notification_insert_eq.
    match goal with
    | |- context [negb (Notification.valid ?n)] =>
        assert (Notification.valid n = true) as Hvalid
    end.
    { unfold Notification.valid. simpl.
      rewrite generateNotificationContent_truthy.
      unfold tick. destruct (pending w); simpl;
        repeat (apply andb_true_iff; split); auto using enum_type_truthy. }
    rewrite Hvalid. simpl.
    match goal with
    | |- context [next_rejects ?w1] =>
        assert (next_rejects w1 = false) as Hnext
    end.
    { unfold next_rejects in *. simpl. exact Hacc. }
    rewrite Hnext.
    match goal with
    | |- context [Notifications.clashes ?n ?l] =>
        assert (Notifications.clashes n l = false) as Hclash
    end.
    { unfold Notifications.clashes. simpl. rewrite db_tick.
      unfold tick. destruct (pending w); simpl; exact Hfresh. }
    rewrite Hclash.
    eexists. eexists. split; [reflexivity|].
    simpl. rewrite db_tick.
    repeat split.
Qed.


Lemma reads_only_ret {A} (a : A) : reads_only (ret a).
Proof. intros w. simpl. eauto. Qed.

Lemma reads_only_bind {A B} (m : M A) (k : A -> M B) :
  reads_only m -> (forall a, reads_only (k a)) -> reads_only (bind m k).
Proof.
  intros Hm Hk w. unfold bind.
  destruct (Hm w) as [Hdb Hh]. destruct (m w) as [[a|e] w1]; simpl in *.
  - destruct (Hk a w1) as [Hdb1 Hh1]. split; [congruence|].
    intros H. destruct (Hh H) as [H1 _]. auto.
  - split; [assumption|]. intros H. destruct (Hh H) as [_ [a Ha]].
    discriminate.
Qed.

Lemma reads_only_console_warn (msg : string) : reads_only (console_warn msg).
Proof. intros w. simpl. eauto. Qed.

Lemma reads_only_findByUserId (id : string) :
  reads_only (Users.findByUserId id).
Proof.
  intros w. rewrite findByUserId_eq. simpl. split; [apply db_tick|].
  intros H. rewrite (healthy_next w H). eauto using healthy_tick.
Qed.

Lemma reads_only_findFollowing (id : string) :
  reads_only (Users.findFollowing id).
Proof.
  intros w. rewrite findFollowing_eq. simpl. split; [apply db_tick|].
  intros H. rewrite (healthy_next w H). eauto using healthy_tick.
Qed.

Create HintDb reads.

#[local] Hint Resolve reads_only_ret reads_only_findByUserId
  reads_only_findFollowing reads_only_console_warn : reads.

Lemma reads_only_targetRecipient (event : Event.t) :
  reads_only (Processor.targetRecipient event).
Proof.
  unfold Processor.targetRecipient.
  destruct (Event.targetUserId event) as [target|]; auto with reads.
  destruct (_ && _); auto with reads.
  apply reads_only_bind; auto with reads.
  intros [u|]; auto with reads.
  destruct (Processor.shouldReceiveNotification _ _); auto with reads.
Qed.

Lemma reads_only_mentionRecipients (event : Event.t) (ids : list string)
      (acc : list User.t) :
  reads_only (Processor.mentionRecipients event ids acc).
Proof.
  revert acc. induction ids as [|i ids IH]; intros acc; simpl;
    auto with reads.
  destruct (negb _); auto.
  apply reads_only_bind; auto with reads.
  intros [u|]; auto.
  destruct (Processor.shouldReceiveNotification _ _); auto.
Qed.

Lemma reads_only_getNotificationRecipients (event : Event.t) (src : User.t) :
  reads_only (Processor.getNotificationRecipients event src).
Proof.
  unfold Processor.getNotificationRecipients.
  repeat match goal with
         | |- context [if ?b then _ else _] => destruct b
         end;
    auto using reads_only_targetRecipient.
  - apply reads_only_bind; auto with reads.
  - destruct (Event.mentionedUsers _);
      auto using reads_only_mentionRecipients with reads.
  - apply reads_only_bind; auto with reads.
Qed.

(** ** The loop over the recipients *)

Lemma notifyRecipients_frame (event : Event.t) (src : User.t)
      (rs : list User.t) :
  forall (acc : list Notification.t) (w : World),
  exists added w',
    Processor.notifyRecipients event src rs acc w = (Ok (acc ++ added), w')
    /\ users (db w') = users (db w)
    /\ events (db w') = events (db w)
    /\ notifications (db w') = notifications (db w) ++ added
    /\ Forall (fun n => exists r, In r rs /\ written_for event r n) added
    /\ (healthy w = true -> healthy w' = true).
Proof.
  induction rs as [|r rs IH]; intros acc w.
  - exists [], w. simpl. rewrite !app_nil_r. repeat split; auto.
  - simpl. unfold bind at 1. unfold try_catch, bind at 1.
    pose proof (createNotification_frame event src r w) as Hf.
    destruct (Processor.createNotification event src r w) as [[[n|]|e] w1];
      simpl in Hf; destruct Hf as (Hu & He & Hn & Hw & Hh); simpl.
    + destruct (IH (acc ++ [n]) w1) as (added & w' & Hrun & Hu' & He' & Hn' & Hw' & Hh').
      exists (n :: added), w'. rewrite Hrun, <- app_assoc. simpl.
      repeat split; try congruence.
      * rewrite Hn', Hn, <- app_assoc. reflexivity.
      * constructor.
        -- exists r. split; [left; reflexivity | inversion Hw; assumption].
        -- eapply List.Forall_impl; [|exact Hw'].
           intros x (r' & Hin & Hx). exists r'. split; [right|]; assumption.
      * auto.
    + destruct (IH acc w1) as (added & w' & Hrun & Hu' & He' & Hn' & Hw' & Hh').
      exists added, w'. rewrite Hrun. rewrite app_nil_r in Hn.
      repeat split; try congruence.
      * eapply List.Forall_impl; [|exact Hw'].
        intros x (r' & Hin & Hx). exists r'. split; [right|]; assumption.
      * auto.
    + match goal with
      | |- context [Processor.notifyRecipients _ _ _ _ ?w2] =>
          destruct (IH acc w2)
            as (added & w' & Hrun & Hu' & He' & Hn' & Hw' & Hh')
      end.
      simpl in *.
      exists added, w'. rewrite Hrun. rewrite app_nil_r in Hn.
      repeat split; try congruence.
      * eapply List.Forall_impl; [|exact Hw'].
        intros x (r' & Hin & Hx). exists r'. split; [right|]; assumption.
      * auto.
Qed.

Lemma notifyRecipients_app (event : Event.t) (src : User.t)
      (l1 l2 : list User.t) :
  forall (acc : list Notification.t) (w : World),
    Processor.notifyRecipients event src (l1 ++ l2) acc w
    = bind (Processor.notifyRecipients event src l1 acc)
           (Processor.notifyRecipients event src l2) w.
Proof.
  induction l1 as [|r l1 IH]; intros acc w; [reflexivity|].
  simpl. unfold bind.
  match goal with
  | |- context [try_catch ?m ?h w] =>
      destruct (try_catch m h w) as [[acc'|e] w1]
  end; [|reflexivity].
  rewrite IH. reflexivity.
Qed.

(** ** The event processor, step by step *)

Lemma processEvent_run (event : Event.t) (w : World) :
  Processor.processEvent event w
  = if next_rejects w
    then (Throw StorageError,
          snd (console_error "Error in processEvent:" (tick w)))
    else
      match List.find (fun u => String.eqb (User.userId u)
                                           (Event.sourceUserId event))
                      (users (db w)) with
      | None =>
          (Ok None,
           snd (console_error ("Source user not found: "
                               +:+ Event.sourceUserId event) (tick w)))
      | Some src =>
          match Processor.getNotificationRecipients event src (tick w) with
          | (Throw e, w2) =>
              (Throw e, snd (console_error "Error in processEvent:" w2))
          | (Ok rs, w2) =>
              match Processor.notifyRecipients event src rs [] w2 with
              | (Throw e, w3) =>
                  (Throw e, snd (console_error "Error in processEvent:" w3))
              | (Ok written, w3) =>
                  if next_rejects w3
                  then (Throw StorageError,
                        snd (console_error "Error in processEvent:" (tick w3)))
                  else (Ok (Some written),
                        set_db
                          (set_events
                             (update_first
                                (fun e => String.eqb (Event.eventId e)
                                                     (Event.eventId event))
                                (Event.mark_processed
                                   (Processor.generated written))
                                (events (db w3)))
                             (db w3))
                          (tick w3))
              end
          end
      end.
Proof.
  unfold Processor.processEvent, try_catch. unfold bind at 1.
  rewrite findByUserId_eq.
  destruct (next_rejects w); [reflexivity|].
  destruct (List.find _ (users (db w))) as [src|]; [|reflexivity].
  unfold bind at 1.
  destruct (Processor.getNotificationRecipients event src (tick w))
    as [[rs|e] w2]; [|reflexivity].
  unfold bind at 1.
  destruct (Processor.notifyRecipients event src rs [] w2)
    as [[written|e] w3]; [|reflexivity].
  unfold bind. rewrite findOneAndUpdate_eq.
  destruct (next_rejects w3); reflexivity.
Qed.

Lemma find_userId (l : list User.t) (i : string) (u : User.t) :
  List.find (fun x => String.eqb (User.userId x) i) l = Some u ->
  User.userId u = i.
Proof.
  intros H. apply find_some in H as [_ H]. apply String.eqb_eq. exact H.
Qed.

Lemma find_update_first {A} (p : A -> bool) (f : A -> A) (l : list A) (x : A) :
  (forall a, p (f a) = p a) ->
  List.find p l = Some x -> List.find p (update_first p f l) = Some (f x).
Proof.
  intros Hp. induction l as [|y l IH]; simpl; [discriminate|].
  destruct (p y) eqn:Hy; simpl.
  - intros H. inversion H; subst. rewrite Hp, Hy. reflexivity.
  - rewrite Hy. exact IH.
Qed.

(** ** C2: marking the event processed *)

(** C2, as stated, fails: the source user of the like is stored, and yet
    the event is left unprocessed, once because the lookup of the
    recipient rejects and once because the final update rejects after
    the notification was written.  [processEvent] raises both times. *)
Lemma resolved_source_not_always_processed :
  List.find (fun u => String.eqb (User.userId u)
                                 (Event.sourceUserId Samples.like))
            (users (db (Samples.world [] [Samples.like] []))) = Some Samples.u2
  /\ (let w := Samples.world [] [Samples.like]
                            [{| rejects := false; elapsed := 1 |};
                             {| rejects := true; elapsed := 20 |}] in
      fst (Processor.processEvent Samples.like w) = Throw StorageError
      /\ map Event.processed
             (events (db (exec (Processor.processEvent Samples.like) w)))
         = [false]
      /\ notifications (db (exec (Processor.processEvent Samples.like) w))
         = [])
  /\ (let w := Samples.world [] [Samples.like]
                            [{| rejects := false; elapsed := 1 |};
                             {| rejects := false; elapsed := 1 |};
                             {| rejects := false; elapsed := 1 |};
                             {| rejects := false; elapsed := 1 |};
                             {| rejects := true; elapsed := 20 |}] in
      fst (Processor.processEvent Samples.like w) = Throw StorageError
      /\ map Event.processed
             (events (db (exec (Processor.processEvent Samples.like) w)))
         = [false]
      /\ map Notification.userId
             (notifications
                (db (exec (Processor.processEvent Samples.like) w)))
         = ["u1"]).
Proof. repeat split; vm_compute; reflexivity. Qed.

(** C2, amended.  Let the lookup of the source user resolve and find the
    user.  When a lookup made while the recipients are resolved rejects,
    [processEvent] raises that error and the database is as before: the
    event is not marked.  When the recipients are resolved, the loop over
    them always runs to its end, whatever becomes of each attempt, and
    the notifications it returns are exactly those it appended to the
    collection; the events are untouched meanwhile.  A recipient whose
    own attempt writes a notification has it in the result whatever
    happened to the recipients before it.  When the final update then
    resolves, [processEvent] resolves to those notifications, the update
    being the only change to the events: the stored event with this
    [eventId] gets [processed = true] and, as [notificationsGenerated],
    the (notificationId, userId) pairs of the written notifications, in
    one write; with no recipient the list is empty and the event is
    marked all the same.  When the final update rejects, [processEvent]
    raises, the written notifications stay and the events are as before:
    the event is not marked. *)
Theorem processed_records_written (w : World) (event : Event.t)
        (sourceUser : User.t) :
  next_rejects w = false ->
  List.find (fun u => String.eqb (User.userId u) (Event.sourceUserId event))
            (users (db w)) = Some sourceUser ->
  (forall e w2,
      Processor.getNotificationRecipients event sourceUser (tick w)
      = (Throw e, w2) ->
      fst (Processor.processEvent event w) = Throw e
      /\ db (exec (Processor.processEvent event) w) = db w)
  /\ forall recipients w2,
      Processor.getNotificationRecipients event sourceUser (tick w)
      = (Ok recipients, w2) ->
      exists written w3,
        Processor.notifyRecipients event sourceUser recipients [] w2
        = (Ok written, w3)
        /\ notifications (db w3) = notifications (db w) ++ written
        /\ events (db w3) = events (db w)
        /\ (forall before r after,
               recipients = before ++ r :: after ->
               exists acc wr,
                 Processor.notifyRecipients event sourceUser before [] w2
                 = (Ok acc, wr)
                 /\ forall n wr',
                     Processor.createNotification event sourceUser r wr
                     = (Ok (Some n), wr') ->
                     In n written)
        /\ (recipients = [] -> written = [])
        /\ (next_rejects w3 = false ->
            exists w4,
              Processor.processEvent event w = (Ok (Some written), w4)
              /\ notifications (db w4) = notifications (db w) ++ written
              /\ events (db w4)
                 = update_first
                     (fun e => String.eqb (Event.eventId e)
                                          (Event.eventId event))
                     (Event.mark_processed (Processor.generated written))
                     (events (db w))
              /\ forall e,
                  List.find (fun e => String.eqb (Event.eventId e)
                                                 (Event.eventId event))
                            (events (db w)) = Some e ->
                  exists e',
                    List.find (fun e => String.eqb (Event.eventId e)
                                                   (Event.eventId event))
                              (events (db w4)) = Some e'
                    /\ Event.processed e' = true
                    /\ Event.notificationsGenerated e'
                       = map (fun n => (Notification.notificationId n,
                                        Notification.userId n)) written)
        /\ (next_rejects w3 = true ->
            fst (Processor.processEvent event w) = Throw StorageError
            /\ events (db (exec (Processor.processEvent event) w))
               = events (db w)
            /\ notifications (db (exec (Processor.processEvent event) w))
               = notifications (db w) ++ written).
Proof.
  intros Hok Hsrc. split.
  { intros e w2 Hrs.
    pose proof (reads_only_getNotificationRecipients event sourceUser
                                                     (tick w)) as [Hdb2 _].
    rewrite Hrs in Hdb2. simpl in Hdb2. rewrite db_tick in Hdb2.
    unfold exec. rewrite processEvent_run, Hok, Hsrc, Hrs.
    split; [reflexivity | exact Hdb2]. }
  intros recipients w2 Hrs.
  pose proof (reads_only_getNotificationRecipients event sourceUser (tick w))
    as [Hdb2 _].
  rewrite Hrs in Hdb2. simpl in Hdb2. rewrite db_tick in Hdb2.
  destruct (notifyRecipients_frame event sourceUser recipients [] w2)
    as (written & w3 & Hrun & Hu & He & Hn & _ & _).
  simpl in Hrun. exists written, w3.
  split; [exact Hrun|]. split; [congruence|]. split; [congruence|].
  split; [|split; [|split]].
  - intros before r after ->.
    destruct (notifyRecipients_frame event sourceUser before [] w2)
      as (acc & wr & Hbefore & _).
    simpl in Hbefore. exists acc, wr. split; [exact Hbefore|].
    intros n wr' Hcreate.
    rewrite notifyRecipients_app in Hrun. unfold bind in Hrun.
    rewrite Hbefore in Hrun. simpl in Hrun.
    unfold bind at 1 in Hrun. unfold try_catch, bind at 1 in Hrun.
    rewrite Hcreate in Hrun. simpl in Hrun.
    destruct (notifyRecipients_frame event sourceUser after (acc ++ [n]) wr')
      as (rest & w' & Hafter & _).
    rewrite Hafter in Hrun. inversion Hrun; subst.
    apply in_or_app. left. apply in_or_app. right. left. reflexivity.
  - intros ->. simpl in Hrun. inversion Hrun. reflexivity.
  - intros Hok3. rewrite processEvent_run, Hok, Hsrc, Hrs, Hrun, Hok3.
    eexists. split; [reflexivity|]. simpl.
    split; [congruence|]. split; [congruence|].
    intros e Hfind. rewrite He, Hdb2.
    exists (Event.mark_processed (Processor.generated written) e).
    split; [|split; reflexivity].
    apply find_update_first; [reflexivity | exact Hfind].
  - intros Hbad3. unfold exec.
    rewrite processEvent_run, Hok, Hsrc, Hrs, Hrun, Hbad3.
    split; [reflexivity|]. simpl. rewrite db_tick.
    split; congruence.
Qed.

(** ** C3: an event whose source user does not resolve *)

(** C3, as stated, fails: for a like by a user that does not exist,
    [processEvent] does not raise; it resolves to [undefined]. *)
Lemma unresolved_source_does_not_raise :
  List.find (fun u => String.eqb (User.userId u)
                                 (Event.sourceUserId Samples.ghost_like))
            (users (db (Samples.world [] [Samples.ghost_like] []))) = None
  /\ fst (Processor.processEvent Samples.ghost_like
                                 (Samples.world [] [Samples.ghost_like] []))
     = Ok None
  /\ ~ exists e,
        fst (Processor.processEvent Samples.ghost_like
                                    (Samples.world [] [Samples.ghost_like] []))
        = Throw e.
Proof.
  split; [reflexivity|]. split; [reflexivity|].
  intros [e He]. vm_compute in He. discriminate.
Qed.

(** C3, amended.  When the source user of the event does not exist,
    [processEvent] leaves the database as it is (no notification written,
    the event not marked) and, the lookup having resolved, returns no
    result without raising, after logging the error line
    [Source user not found: <sourceUserId>].  [processEvent] raises only
    when a storage call outside the per-recipient guard rejects: the lookup
    of the source user, a lookup made while resolving the recipients, or
    the final update of the event.  The loop over the recipients itself
    never raises. *)
Theorem unresolved_source_returns_nothing (w : World) (event : Event.t) :
  (List.find (fun u => String.eqb (User.userId u) (Event.sourceUserId event))
             (users (db w)) = None ->
   db (exec (Processor.processEvent event) w) = db w
   /\ (next_rejects w = false ->
       fst (Processor.processEvent event w) = Ok None
       /\ console (exec (Processor.processEvent event) w)
          = console w
            ++ [(LError,
                 "Source user not found: " +:+ Event.sourceUserId event)]))
  /\ (forall e,
         fst (Processor.processEvent event w) = Throw e ->
         next_rejects w = true
         \/ exists src,
             List.find (fun u => String.eqb (User.userId u)
                                            (Event.sourceUserId event))
                       (users (db w)) = Some src
             /\ (fst (Processor.getNotificationRecipients event src (tick w))
                 = Throw e
                 \/ exists rs w2 written w3,
                     Processor.getNotificationRecipients event src (tick w)
                     = (Ok rs, w2)
                     /\ Processor.notifyRecipients event src rs [] w2
                        = (Ok written, w3)
                     /\ next_rejects w3 = true))
  /\ (forall src rs acc w0,
         exists l w',
           Processor.notifyRecipients event src rs acc w0 = (Ok l, w')).
Proof.
  split; [|split].
  - intros Hnone. unfold exec. rewrite processEvent_run, Hnone.
    destruct (next_rejects w); simpl.
    + split; [apply db_tick | discriminate].
    + split; [apply db_tick|]. intros _. rewrite console_tick. auto.
  - intros e He. rewrite processEvent_run in He.
    destruct (next_rejects w); [left; reflexivity|]. right.
    destruct (List.find _ (users (db w))) as [src|]; [|discriminate].
    exists src. split; [reflexivity|].
    destruct (Processor.getNotificationRecipients event src (tick w))
      as [[rs|e'] w2]; [|left; simpl in *; congruence].
    right.
    destruct (notifyRecipients_frame event src rs [] w2)
      as (written & w3 & Hrun & _).
    simpl in Hrun. rewrite Hrun in He.
    exists rs, w2, written, w3. split; [reflexivity|]. split; [exact Hrun|].
    destruct (next_rejects w3); [reflexivity | discriminate].
  - intros src rs acc w0.
    destruct (notifyRecipients_frame event src rs acc w0)
      as (added & w' & Hrun & _).
    eauto.
Qed.

(** ** What one run of the processor changes *)

Lemma processEvent_frame (event : Event.t) (w : World) :
  let w' := exec (Processor.processEvent event) w in
  users (db w') = users (db w)
  /\ (healthy w = true ->
      healthy w' = true
      /\ exists o, fst (Processor.processEvent event w) = Ok o)
  /\ exists added,
      notifications (db w') = notifications (db w) ++ added
      /\ (forall ns,
             fst (Processor.processEvent event w) = Ok (Some ns) ->
             ns = added)
      /\ (events (db w') = events (db w)
          \/ events (db w')
             = update_first
                 (fun e => String.eqb (Event.eventId e) (Event.eventId event))
                 (Event.mark_processed (Processor.generated added))
                 (events (db w)))
      /\ (added = []
          \/ exists src rs w2,
              List.find (fun u => String.eqb (User.userId u)
                                             (Event.sourceUserId event))
                        (users (db w)) = Some src
              /\ Processor.getNotificationRecipients event src (tick w)
                 = (Ok rs, w2)
              /\ Forall (fun n => exists r, In r rs /\ written_for event r n)
                        added).
Proof.
  unfold exec. rewrite processEvent_run.
  pose proof (healthy_next w) as Hnext. pose proof (healthy_tick w) as Htick.
  destruct (next_rejects w).
  { simpl. rewrite db_tick. split; [reflexivity|].
    split; [intros H; specialize (Hnext H); discriminate|].
    exists []. rewrite app_nil_r. repeat split; auto. discriminate. }
  destruct (List.find _ (users (db w))) as [src|] eqn:Hsrc.
  2:{ simpl. rewrite db_tick. split; [reflexivity|].
      split; [intros H; split; [healthy_tac | eauto]|].
      exists []. rewrite app_nil_r. repeat split; auto. discriminate. }
  destruct (reads_only_getNotificationRecipients event src (tick w))
    as [Hdb2 Hh2].
  destruct (Processor.getNotificationRecipients event src (tick w))
    as [[rs|e] w2] eqn:Hrs; simpl in Hdb2, Hh2; rewrite db_tick in Hdb2.
  2:{ simpl. rewrite Hdb2. split; [reflexivity|].
      split; [intros H; destruct (Hh2 (Htick H)) as [_ [a Ha]]; discriminate|].
      exists []. rewrite app_nil_r. repeat split; auto. discriminate. }
  destruct (notifyRecipients_frame event src rs [] w2)
    as (written & w3 & Hrun & Hu & He & Hn & Hw & Hh3).
  simpl in Hrun. rewrite Hrun.
  pose proof (healthy_next w3) as Hnext3.
  pose proof (healthy_tick w3) as Htick3.
  destruct (next_rejects w3); simpl; rewrite ?db_tick.
  - split; [congruence|].
    split; [intros H; destruct (Hh2 (Htick H)) as [H2 _];
            specialize (Hnext3 (Hh3 H2)); discriminate|].
    exists written. split; [congruence|]. split; [discriminate|].
    split; [left; congruence|]. right. exists src, rs, w2. auto.
  - split; [congruence|].
    split; [intros H; destruct (Hh2 (Htick H)) as [H2 _];
            split; [healthy_tac; auto | eexists; reflexivity]|].
    exists written. split; [congruence|].
    split; [intros ns Hns; congruence|].
    split; [right; congruence|]. right. exists src, rs, w2. auto.
Qed.

(** ** C5: the acting user is never a recipient *)

Lemma targetRecipient_self (event : Event.t) (w : World) :
  Event.targetUserId event = Some (Event.sourceUserId event) ->
  Processor.targetRecipient event w = (Ok [], w).
Proof.
  intros Ht. unfold Processor.targetRecipient. rewrite Ht.
  rewrite String.eqb_refl, andb_false_r. reflexivity.
Qed.

Lemma mentionRecipients_not_source (event : Event.t) (ids : list string) :
  forall (acc rs : list User.t) (w w' : World),
    Forall (fun u => User.userId u <> Event.sourceUserId event) acc ->
    Processor.mentionRecipients event ids acc w = (Ok rs, w') ->
    Forall (fun u => User.userId u <> Event.sourceUserId event) rs.
Proof.
  induction ids as [|i ids IH]; intros acc rs w w' Hacc Hrun; simpl in Hrun.
  - inversion Hrun; subst. exact Hacc.
  - destruct (String.eqb_spec i (Event.sourceUserId event)) as [|Hne];
      simpl in Hrun; [eauto|].
    unfold bind in Hrun. rewrite findByUserId_eq in Hrun.
    destruct (next_rejects w); [discriminate|].
    destruct (List.find _ (users (db w))) as [u|] eqn:Hfind; [|eauto].
    destruct (Processor.shouldReceiveNotification u (Event.type event));
      [|eauto].
    eapply IH; [|exact Hrun].
    apply Forall_app. split; [exact Hacc|].
    constructor; [|constructor].
    apply find_userId in Hfind. congruence.
Qed.

Lemma mentionRecipients_healthy (event : Event.t) (ids : list string) :
  forall (acc : list User.t) (w : World),
    healthy w = true ->
    fst (Processor.mentionRecipients event ids acc w)
    = Ok (acc ++ mentioned (users (db w)) event ids).
Proof.
  induction ids as [|i ids IH]; intros acc w Hh; simpl.
  - rewrite app_nil_r. reflexivity.
  - destruct (String.eqb i (Event.sourceUserId event)); simpl; [auto|].
    unfold bind. rewrite findByUserId_eq, (healthy_next w Hh).
    pose proof (healthy_tick w Hh) as Hh'.
    destruct (List.find _ (users (db w))) as [u|]; simpl.
    + destruct (Processor.shouldReceiveNotification u (Event.type event));
        simpl; rewrite IH, db_tick by assumption; [|reflexivity].
      rewrite <- app_assoc. reflexivity.
    + rewrite IH, db_tick by assumption. reflexivity.
Qed.

(** C5.  For a LIKE, COMMENT or SHARE event whose target is its own source
    user, [processEvent] writes no notification, and when it resolves to a
    list that list is empty.  For a MENTION event, no recipient the
    resolver returns is the source user, even when [data.mentionedUsers]
    lists it; when no storage call rejects, the recipients are, in the order
    of [data.mentionedUsers], the mentioned users other than the source that
    exist and subscribe to MENTION; and no notification [processEvent]
    writes is addressed to the source user. *)
Theorem source_user_never_notified (w : World) (event : Event.t) :
  ((Event.type event = "LIKE" \/ Event.type event = "COMMENT"
    \/ Event.type event = "SHARE") ->
   Event.targetUserId event = Some (Event.sourceUserId event) ->
   notifications (db (exec (Processor.processEvent event) w))
   = notifications (db w)
   /\ forall ns,
       fst (Processor.processEvent event w) = Ok (Some ns) -> ns = [])
  /\ (Event.type event = "MENTION" ->
      (forall src rs w',
          Processor.getNotificationRecipients event src w = (Ok rs, w') ->
          Forall (fun u => User.userId u <> Event.sourceUserId event) rs)
      /\ (forall src ids,
             Event.mentionedUsers (Event.data event) = Some ids ->
             healthy w = true ->
             fst (Processor.getNotificationRecipients event src w)
             = Ok (mentioned (users (db w)) event ids))
      /\ exists added,
          notifications (db (exec (Processor.processEvent event) w))
          = notifications (db w) ++ added
          /\ Forall (fun n => Notification.userId n
                              <> Event.sourceUserId event) added).
Proof.
  assert (forall w0 src rs w',
             Event.type event = "MENTION" ->
             Processor.getNotificationRecipients event src w0 = (Ok rs, w') ->
             Forall (fun u => User.userId u <> Event.sourceUserId event) rs)
    as Hmention.
  { intros w0 src rs w' Hty Hrun.
    unfold Processor.getNotificationRecipients in Hrun.
    rewrite Hty in Hrun. simpl in Hrun.
    destruct (Event.mentionedUsers (Event.data event)) as [ids|].
    - eapply mentionRecipients_not_source; [constructor | exact Hrun].
    - inversion Hrun. constructor. }
  destruct (processEvent_frame event w)
    as (_ & _ & added & Hn & Hres & _ & Hadded).
  split.
  - intros Hty Hself.
    assert (added = []) as ->.
    { destruct Hadded as [|(src & rs & w2 & _ & Hrs & Hw)]; [assumption|].
      assert (rs = []) as ->.
      { unfold Processor.getNotificationRecipients in Hrs.
        destruct Hty as [Hty|[Hty|Hty]]; rewrite Hty in Hrs; simpl in Hrs;
          rewrite targetRecipient_self in Hrs by assumption;
          inversion Hrs; reflexivity. }
      destruct Hw as [|n added (r & [] & _) _]. reflexivity. }
    rewrite app_nil_r in Hn. split; [exact Hn | exact Hres].
  - intros Hty. split; [intros src rs w'; apply Hmention; assumption|].
    split.
    + intros src ids Hids Hh. unfold Processor.getNotificationRecipients.
      rewrite Hty, Hids. simpl.
      apply (mentionRecipients_healthy event ids [] w Hh).
    + exists added. split; [exact Hn|].
      destruct Hadded as [->|(src & rs & w2 & _ & Hrs & Hw)]; [constructor|].
      pose proof (Hmention _ _ _ _ Hty Hrs) as Hne.
      eapply List.Forall_impl; [|exact Hw].
      intros n (r & Hin & Hr & _). rewrite Hr.
      rewrite List.Forall_forall in Hne. apply Hne. exact Hin.
Qed.

(** ** C4: the recovery sweep *)

#[local] Instance older_total : Total Events.older.
Proof. intros a b. unfold Events.older. lia. Qed.

#[local] Instance older_transitive : Transitive Events.older.
Proof. intros a b c. unfold Events.older. lia. Qed.

Lemma In_update_first_other {A} (p : A -> bool) (f : A -> A) (l : list A)
      (x : A) :
  In x l -> p x = false -> In x (update_first p f l).
Proof.
  intros Hin Hp. induction l as [|y l IH]; simpl in *; [assumption|].
  destruct Hin as [->|Hin].
  - rewrite Hp. left. reflexivity.
  - destruct (p y); right; auto.
Qed.

Lemma NoDup_map_eq {A B} (f : A -> B) (l : list A) (x y : A) :
  List.NoDup (map f l) -> In x l -> In y l -> f x = f y -> x = y.
Proof.
  induction l as [|a l IH]; simpl; intros Hnd Hx Hy Hf; [destruct Hx|].
  inversion Hnd as [|? ? Hnotin Hnd']; subst.
  destruct Hx as [->|Hx], Hy as [->|Hy]; auto.
  - exfalso. apply Hnotin. rewrite Hf. apply in_map. assumption.
  - exfalso. apply Hnotin. rewrite <- Hf. apply in_map. assumption.
Qed.

Lemma processEach_frame (l : list Event.t) :
  forall w : World,
    let w' := exec (Processor.processEach l) w in
    users (db w') = users (db w)
    /\ (forall e,
           In e (events (db w)) ->
           (forall x, In x l -> Event.eventId x <> Event.eventId e) ->
           In e (events (db w')))
    /\ exists added,
        notifications (db w') = notifications (db w) ++ added
        /\ Forall (fun n => exists x,
                       In x l
                       /\ Notification.relatedEventId n
                          = Some (Event.eventId x))
                  added.
Proof.
  induction l as [|x l IH]; intros w; simpl.
  - split; [reflexivity|]. split; [auto|].
    exists []. rewrite app_nil_r. auto.
  - unfold exec, bind.
    destruct (processEvent_frame x w)
      as (Hu & _ & added & Hn & _ & He & Hadded').
    assert (Forall (fun n => Notification.relatedEventId n
                             = Some (Event.eventId x)) added) as Hadded.
    { destruct Hadded' as [->|(src & rs & w2 & _ & _ & Hw)]; [constructor|].
      eapply List.Forall_impl; [|exact Hw].
      intros n (r & _ & _ & Hrel & _). exact Hrel. }
    clear Hadded'. unfold exec in *.
    destruct (Processor.processEvent x w) as [[o|err] w1]; simpl in *.
    + destruct (IH w1) as (Hu1 & He1 & added1 & Hn1 & Hadded1).
      unfold exec in *.
      split; [congruence|]. split.
      * intros e Hin Hids. apply He1; [|intros y Hy; apply Hids; auto].
        destruct He as [->| ->]; [assumption|].
        apply In_update_first_other; [assumption|].
        apply String.eqb_neq. intros Heq. apply (Hids x); auto.
      * exists (added ++ added1).
        split; [rewrite Hn1, Hn, app_assoc; reflexivity|].
        apply Forall_app. split.
        -- eapply List.Forall_impl; [|exact Hadded].
           intros n Hrel. exists x. auto.
        -- eapply List.Forall_impl; [|exact Hadded1].
           intros n (y & Hy & Hrel). exists y. auto.
    + split; [assumption|]. split.
      * intros e Hin Hids.
        destruct He as [->| ->]; [assumption|].
        apply In_update_first_other; [assumption|].
        apply String.eqb_neq. intros Heq. apply (Hids x); auto.
      * exists added. split; [assumption|].
        eapply List.Forall_impl; [|exact Hadded].
        intros n Hrel. exists x. auto.
Qed.

Lemma processEach_healthy (l : list Event.t) :
  forall w : World,
    healthy w = true ->
    Processor.processEach l w
    = (Ok tt,
       fold_left (fun w0 e => exec (Processor.processEvent e) w0) l w).
Proof.
  induction l as [|x l IH]; intros w Hh; simpl; [reflexivity|].
  unfold bind.
  destruct (processEvent_frame x w) as (_ & Hx & _).
  destruct (Hx Hh) as [Hh1 [o Ho]]. unfold exec in *.
  destruct (Processor.processEvent x w) as [r w1]; simpl in *. subst r.
  apply IH. exact Hh1.
Qed.


Lemma sweep_db (w : World) :
  db (exec Processor.processUnprocessedEvents w)
  = if next_rejects w then db w
    else db (exec (Processor.processEach
                     (merge_sort Events.older
                                 (List.filter Events.unprocessed
                                              (events (db w)))))
                  (tick w)).
Proof.
  unfold exec, Processor.processUnprocessedEvents, try_catch, bind.
  rewrite getUnprocessedEvents_eq.
  destruct (next_rejects w); simpl; [apply db_tick|].
  destruct (Processor.processEach _ (tick w)) as [[[]|e] w1]; reflexivity.
Qed.


(** ** Invariants of the database *)

Section Invariant.

Variable I : DB -> Prop.

Lemma invariant_ret {A} (a : A) : invariant I (ret a).
Proof. intros w H. exact H. Qed.

Lemma invariant_throw {A} (e : Error) : invariant I (@throw A e).
Proof. intros w H. exact H. Qed.

Lemma invariant_bind {A B} (m : M A) (k : A -> M B) :
  invariant I m -> (forall a, invariant I (k a)) -> invariant I (bind m k).
Proof.
  intros Hm Hk w H. unfold bind. specialize (Hm w H).
  destruct (m w) as [[a|e] w1]; simpl in *; [apply Hk|]; assumption.
Qed.

Lemma invariant_try_catch {A} (m : M A) (h : Error -> M A) :
  invariant I m -> (forall e, invariant I (h e)) -> invariant I (try_catch m h).
Proof.
  intros Hm Hh w H. unfold try_catch. specialize (Hm w H).
  destruct (m w) as [[a|e] w1]; simpl in *; [|apply Hh]; assumption.
Qed.

(** A computation that leaves the users, or the whole database, alone. *)
Lemma invariant_same_db {A} (m : M A) :
  (forall w, db (snd (m w)) = db w) -> invariant I m.
Proof. intros Hm w H. rewrite Hm. exact H. Qed.

Lemma invariant_console_error (msg : string) :
  invariant I (console_error msg).
Proof. apply invariant_same_db. reflexivity. Qed.

Lemma invariant_uuidv4 : invariant I uuidv4.
Proof. apply invariant_same_db. reflexivity. Qed.

Lemma invariant_Date_now : invariant I Date_now.
Proof. apply invariant_same_db. reflexivity. Qed.

Lemma invariant_await_storage : invariant I await_storage.
Proof.
  apply invariant_same_db. intros w. rewrite await_storage_eq.
  apply db_tick.
Qed.

Lemma invariant_findHandle (id : string) : invariant I (Users.findHandle id).
Proof.
  apply invariant_same_db. intros w. unfold Users.findHandle, bind.
  rewrite await_storage_eq. destruct (next_rejects w); apply db_tick.
Qed.

Lemma invariant_findExisting (i e n : string) :
  invariant I (Users.findExisting i e n).
Proof.
  apply invariant_same_db. intros w. unfold Users.findExisting, bind.
  rewrite await_storage_eq. destruct (next_rejects w); apply db_tick.
Qed.

Lemma invariant_countDocuments : invariant I Users.countDocuments.
Proof.
  apply invariant_same_db. intros w. unfold Users.countDocuments, bind.
  rewrite await_storage_eq. destruct (next_rejects w); apply db_tick.
Qed.

Lemma invariant_findOne (p : Notification.t -> bool) :
  invariant I (Notifications.findOne p).
Proof.
  apply invariant_same_db. intros w. rewrite findOne_eq. apply db_tick.
Qed.

End Invariant.


Section UsersInvariant.

Variable I : DB -> Prop.
Hypothesis I_users : about_users I.

Lemma invariant_same_users {A} (m : M A) :
  (forall w, users (db (snd (m w))) = users (db w)) -> invariant I m.
Proof. intros Hm w H. eapply I_users; [apply Hm | exact H]. Qed.

Lemma invariant_processEvent (event : Event.t) :
  invariant I (Processor.processEvent event).
Proof.
  apply invariant_same_users. intros w.
  apply (processEvent_frame event w).
Qed.

Lemma invariant_sweep : invariant I Processor.processUnprocessedEvents.
Proof.
  apply invariant_same_users. intros w.
  change (users (db (exec Processor.processUnprocessedEvents w))
          = users (db w)).
  rewrite sweep_db. destruct (next_rejects w); [reflexivity|].
  destruct (processEach_frame
              (merge_sort Events.older
                          (List.filter Events.unprocessed (events (db w))))
              (tick w)) as [Hu _].
  rewrite db_tick in Hu. exact Hu.
Qed.

Lemma invariant_cleanupOld : invariant I Processor.cleanupOldNotifications.
Proof.
  apply invariant_same_users. intros w.
  change (users (db (exec Processor.cleanupOldNotifications w))
          = users (db w)).
  rewrite cleanupOldNotifications_db.
  destruct (next_rejects w); reflexivity.
Qed.

Lemma invariant_deleteMany (p : Notification.t -> bool) :
  invariant I (Notifications.deleteMany p).
Proof.
  apply invariant_same_users. intros w. rewrite deleteMany_eq.
  destruct (next_rejects w); simpl; rewrite ?db_tick; reflexivity.
Qed.

Lemma invariant_updateMany (p : Notification.t -> bool)
      (f : Notification.t -> Notification.t) :
  invariant I (Notifications.updateMany p f).
Proof.
  apply invariant_same_users. intros w. rewrite updateMany_eq.
  destruct (next_rejects w); simpl; rewrite ?db_tick; reflexivity.
Qed.

Lemma invariant_notification_save (i : nat) (n : Notification.t)
      (patch : Notification.t -> Notification.t) :
  invariant I (Notifications.save i n patch).
Proof.
  apply invariant_same_users. intros w. rewrite notification_save_eq.
  destruct (negb _); [reflexivity|].
  destruct (next_rejects w); simpl; rewrite ?db_tick; reflexivity.
Qed.

Lemma invariant_notification_insertMany (l : list Notification.t) :
  invariant I (Notifications.insertMany l).
Proof.
  apply invariant_same_users. intros w. unfold Notifications.insertMany.
  destruct (negb _); [reflexivity|].
  unfold bind. rewrite await_storage_eq.
  destruct (next_rejects w); simpl; [rewrite db_tick; reflexivity|].
  destruct (insert_ordered _ _ _) as [coll []]; simpl;
    rewrite db_tick; reflexivity.
Qed.

Lemma invariant_event_insert (e : Event.t) : invariant I (Events.insert e).
Proof.
  apply invariant_same_users. intros w. unfold Events.insert.
  destruct (negb _); [reflexivity|].
  unfold bind. rewrite await_storage_eq.
  destruct (next_rejects w); simpl; [rewrite db_tick; reflexivity|].
  destruct (Events.clashes _ _); simpl; rewrite db_tick; reflexivity.
Qed.

Lemma invariant_event_insertMany (l : list Event.t) :
  invariant I (Events.insertMany l).
Proof.
  apply invariant_same_users. intros w. unfold Events.insertMany.
  destruct (negb _); [reflexivity|].
  unfold bind. rewrite await_storage_eq.
  destruct (next_rejects w); simpl; [rewrite db_tick; reflexivity|].
  destruct (insert_ordered _ _ _) as [coll []]; simpl;
    rewrite db_tick; reflexivity.
Qed.

Lemma invariant_event_deleteAll : invariant I Events.deleteAll.
Proof.
  apply invariant_same_users. intros w. unfold Events.deleteAll, bind.
  rewrite await_storage_eq.
  destruct (next_rejects w); simpl; rewrite db_tick; reflexivity.
Qed.

Lemma invariant_deleteEvent (id : string) :
  invariant I (Routes.deleteEvent id).
Proof.
  apply invariant_same_users. intros w.
  unfold Routes.deleteEvent, try_catch, bind.
  rewrite await_storage_eq.
  destruct (next_rejects w); simpl; [rewrite db_tick; reflexivity|].
  destruct (find_first _ _) as [[i e]|]; simpl; rewrite db_tick;
    reflexivity.
Qed.

End UsersInvariant.

(** ** C9: SHARE events and the subscription enum *)

Lemma subscriptions_about_users : about_users subscriptions_valid.
Proof. intros d d' Hu H. unfold subscriptions_valid in *. congruence. Qed.

Lemma valid_subscriptions (u : User.t) :
  User.valid u = true ->
  forallb (Js.includes User.notificationTypes_enum)
          (User.notificationTypes (User.preferences u)) = true.
Proof. unfold User.valid. rewrite !andb_true_iff. tauto. Qed.

Lemma Forall_alter_at {A} (P : A -> Prop) (f : A -> A) (i : nat)
      (l : list A) :
  (forall x, P x -> P (f x)) -> Forall P l -> Forall P (alter_at i f l).
Proof.
  intros Hf. revert i.
  induction l as [|y l IH]; intros i Hl; [destruct i; constructor|].
  inversion Hl; subst. destruct i; simpl; constructor; auto.
Qed.

Lemma Forall_insert_ordered {A} (P : A -> Prop) (clash : A -> list A -> bool)
      (docs : list A) :
  forall coll,
    Forall P docs -> Forall P coll ->
    Forall P (fst (insert_ordered clash docs coll)).
Proof.
  induction docs as [|x docs IH]; intros coll Hdocs Hcoll; simpl;
    [assumption|].
  inversion Hdocs; subst.
  destruct (clash x coll); simpl; [assumption|].
  apply IH; [assumption|]. apply Forall_app. auto.
Qed.

Lemma subs_insert (u : User.t) :
  invariant subscriptions_valid (Users.insert u).
Proof.
  intros w H. unfold Users.insert.
  destruct (User.valid u) eqn:Hv; simpl; [|exact H].
  unfold bind. rewrite await_storage_eq.
  destruct (next_rejects w); simpl; [rewrite db_tick; exact H|].
  rewrite db_tick. destruct (Users.clashes u (users (db w))); simpl;
    [rewrite db_tick; exact H|].
  unfold subscriptions_valid. simpl. apply Forall_app. split; [exact H|].
  constructor; [|constructor]. apply valid_subscriptions. exact Hv.
Qed.

Lemma subs_save (i : nat) (doc : User.t) (patch : User.t -> User.t) :
  (User.valid doc = true ->
   forall x,
     forallb (Js.includes User.notificationTypes_enum)
             (User.notificationTypes (User.preferences x)) = true ->
     forallb (Js.includes User.notificationTypes_enum)
             (User.notificationTypes (User.preferences (patch x))) = true) ->
  invariant subscriptions_valid (Users.save i doc patch).
Proof.
  intros Hpatch w H. unfold Users.save.
  destruct (User.valid doc) eqn:Hv; simpl; [|exact H].
  unfold bind. rewrite await_storage_eq.
  destruct (next_rejects w); simpl; [rewrite db_tick; exact H|].
  rewrite db_tick. unfold subscriptions_valid. simpl.
  apply Forall_alter_at; [apply Hpatch; reflexivity | exact H].
Qed.

Lemma subs_save_preferences (i : nat) (u : User.t) (p : User.Preferences) :
  invariant subscriptions_valid
            (Users.save i (User.set_preferences p u) (User.set_preferences p)).
Proof.
  apply subs_save. intros Hv x _. apply valid_subscriptions in Hv. exact Hv.
Qed.

Lemma subs_save_following (i : nat) (doc : User.t) (l : list string) :
  invariant subscriptions_valid (Users.save i doc (User.set_following l)).
Proof. apply subs_save. intros _ x Hx. exact Hx. Qed.

Lemma subs_save_followers (i : nat) (doc : User.t) (l : list string) :
  invariant subscriptions_valid (Users.save i doc (User.set_followers l)).
Proof. apply subs_save. intros _ x Hx. exact Hx. Qed.

Lemma subs_save_id (i : nat) (doc : User.t) :
  invariant subscriptions_valid (Users.save i doc id).
Proof. apply subs_save. intros _ x Hx. exact Hx. Qed.

Lemma subs_insertMany (l : list User.t) :
  invariant subscriptions_valid (Users.insertMany l).
Proof.
  intros w H. unfold Users.insertMany.
  destruct (forallb User.valid l) eqn:Hv; simpl; [|exact H].
  unfold bind. rewrite await_storage_eq.
  destruct (next_rejects w); simpl; [rewrite db_tick; exact H|].
  rewrite db_tick.
  pose proof (Forall_insert_ordered
                (fun u => forallb (Js.includes User.notificationTypes_enum)
                                  (User.notificationTypes (User.preferences u))
                          = true)
                Users.clashes l (users (db w))) as Hins.
  destruct (insert_ordered Users.clashes l (users (db w))) as [coll all].
  simpl in *.
  assert (subscriptions_valid (set_users coll (db w))) as Hcoll.
  { apply Hins; [|exact H]. apply List.Forall_forall. intros u Hu.
    apply valid_subscriptions.
    rewrite forallb_forall in Hv. apply Hv. exact Hu. }
  destruct all; simpl; exact Hcoll.
Qed.

Lemma subs_deleteAll : invariant subscriptions_valid Users.deleteAll.
Proof.
  intros w H. unfold Users.deleteAll, bind. rewrite await_storage_eq.
  destruct (next_rejects w); simpl; [rewrite db_tick; exact H|].
  constructor.
Qed.

Ltac inv_step :=
  lazymatch goal with
  | |- invariant _ (bind _ _) => apply invariant_bind; [|intros ?]
  | |- invariant _ (try_catch _ _) => apply invariant_try_catch; [|intros ?]
  | |- invariant _ (ret _) => apply invariant_ret
  | |- invariant _ (throw _) => apply invariant_throw
  | |- invariant _ (console_error _) => apply invariant_console_error
  | |- invariant _ uuidv4 => apply invariant_uuidv4
  | |- invariant _ Date_now => apply invariant_Date_now
  | |- invariant _ (Users.findHandle _) => apply invariant_findHandle
  | |- invariant _ (Users.findExisting _ _ _) => apply invariant_findExisting
  | |- invariant _ Users.countDocuments => apply invariant_countDocuments
  | |- invariant _ (Users.insert _) => apply subs_insert
  | |- invariant _ (Users.insertMany _) => apply subs_insertMany
  | |- invariant _ Users.deleteAll => apply subs_deleteAll
  | |- invariant _ (Users.save _ _ (User.set_preferences _)) =>
      apply subs_save_preferences
  | |- invariant _ (Users.save _ _ (User.set_following _)) =>
      apply subs_save_following
  | |- invariant _ (Users.save _ _ (User.set_followers _)) =>
      apply subs_save_followers
  | |- invariant _ (Users.save _ _ id) => apply subs_save_id
  | |- invariant _ (Users.save _ _ (if ?b then _ else _)) => destruct b
  | |- invariant _ (Notifications.findOne _) => apply invariant_findOne
  | |- invariant _ (Notifications.deleteMany _) =>
      apply invariant_deleteMany; apply subscriptions_about_users
  | |- invariant _ (Notifications.updateMany _ _) =>
      apply invariant_updateMany; apply subscriptions_about_users
  | |- invariant _ (Notifications.save _ _ _) =>
      apply invariant_notification_save; apply subscriptions_about_users
  | |- invariant _ (Notifications.insertMany _) =>
      apply invariant_notification_insertMany;
      apply subscriptions_about_users
  | |- invariant _ (Events.insert _) =>
      apply invariant_event_insert; apply subscriptions_about_users
  | |- invariant _ (Events.insertMany _) =>
      apply invariant_event_insertMany; apply subscriptions_about_users
  | |- invariant _ Events.deleteAll =>
      apply invariant_event_deleteAll; apply subscriptions_about_users
  | |- invariant _ (Routes.deleteEvent _) =>
      apply invariant_deleteEvent; apply subscriptions_about_users
  | |- invariant _ (Processor.processEvent _) =>
      apply invariant_processEvent; apply subscriptions_about_users
  | |- invariant _ Processor.processUnprocessedEvents =>
      apply invariant_sweep; apply subscriptions_about_users
  | |- invariant _ Processor.cleanupOldNotifications =>
      apply invariant_cleanupOld; apply subscriptions_about_users
  | |- invariant _ (if ?b then _ else _) => destruct b
  | |- invariant _ (match ?x with _ => _ end) => destruct x
  | |- invariant _ (let _ := _ in _) => cbv zeta
  end.

Ltac inv_tac := repeat inv_step.

Lemma subs_perform (c : Call) (w : World) :
  subscriptions_valid (db w) -> subscriptions_valid (db (perform c w)).
Proof.
  revert w. change (invariant subscriptions_valid (fun w => (Ok tt, perform c w))).
  destruct c; simpl.
  all: match goal with
       | |- invariant _ (fun w => (Ok tt, exec ?m w)) =>
           assert (invariant subscriptions_valid m) as Hm;
           [|intros w H; exact (Hm w H)]
       end.
  - unfold Routes.postUser. inv_tac.
  - unfold Routes.putPreferences. inv_tac.
  - unfold Routes.postFollow. inv_tac.
  - unfold Routes.deleteFollow. inv_tac.
  - unfold Routes.postEvent. inv_tac.
  - inv_tac.
  - unfold Routes.putRead, Notifications.markAsRead. inv_tac.
  - unfold Routes.putReadAll, Notifications.markAllAsRead. inv_tac.
  - unfold Routes.deleteNotification, Notifications.dismiss. inv_tac.
  - unfold Routes.postCleanup, Notifications.cleanupExpired. inv_tac.
  - inv_tac.
  - inv_tac.
  - unfold Seed.seedDatabase. inv_tac.
  - unfold Seed.clearDatabase. inv_tac.
Qed.

Lemma reachable_subscriptions_valid (d : DB) :
  reachable d -> subscriptions_valid d.
Proof.
  induction 1 as [|w c _ IH]; [constructor | apply subs_perform; exact IH].
Qed.

Lemma enum_excludes_share (l : list string) :
  forallb (Js.includes User.notificationTypes_enum) l = true ->
  Js.includes l "SHARE" = false.
Proof.
  induction l as [|x l IH]; simpl; [reflexivity|].
  rewrite andb_true_iff. intros [Hx Hl]. rewrite (IH Hl), orb_false_r.
  apply String.eqb_neq. intros ->. vm_compute in Hx. discriminate.
Qed.

Lemma targetRecipient_unsubscribed (event : Event.t) (w : World)
      (rs : list User.t) (w' : World) :
  (forall u, In u (users (db w)) ->
             Processor.shouldReceiveNotification u (Event.type event) = false) ->
  Processor.targetRecipient event w = (Ok rs, w') -> rs = [].
Proof.
  intros Hno Hrun. unfold Processor.targetRecipient in Hrun.
  destruct (Event.targetUserId event) as [target|]; [|inversion Hrun; auto].
  destruct (_ && _); [|inversion Hrun; auto].
  unfold bind in Hrun. rewrite findByUserId_eq in Hrun.
  destruct (next_rejects w); [discriminate|].
  destruct (List.find _ (users (db w))) as [u|] eqn:Hfind;
    [|inversion Hrun; auto].
  apply find_some in Hfind as [Hin _].
  rewrite (Hno u Hin) in Hrun. inversion Hrun; auto.
Qed.

(** C9.  The user schema has no SHARE subscription: a user document
    with SHARE among its [notificationTypes] fails validation, and the
    default set does not contain it.  The recipient filter keeps a user for
    an event exactly when the event's type is in the user's set.  In every
    database reachable from the empty one through the route handlers, the
    sweeps and the seed and clear routines, every stored user's set lies
    within the enum, and so processing a SHARE event writes no notification
    and, when it resolves to a list, resolves to the empty list. *)
Theorem share_never_notifies (d : DB) :
  reachable d ->
  (forall u, User.valid u = true ->
             Processor.shouldReceiveNotification u "SHARE" = false)
  /\ Js.includes (User.notificationTypes User.default_preferences) "SHARE"
     = false
  /\ (forall u ty,
         Processor.shouldReceiveNotification u ty = true
         <-> In ty (User.notificationTypes (User.preferences u)))
  /\ subscriptions_valid d
  /\ (forall w event,
         db w = d -> Event.type event = "SHARE" ->
         notifications (db (exec (Processor.processEvent event) w))
         = notifications (db w)
         /\ forall ns,
             fst (Processor.processEvent event w) = Ok (Some ns) -> ns = []).
Proof.
  intros Hreach.
  pose proof (reachable_subscriptions_valid d Hreach) as Hvalid.
  split; [|split; [|split; [|split]]].
  - intros u Hu. apply enum_excludes_share, valid_subscriptions, Hu.
  - reflexivity.
  - intros u ty. apply includes_In.
  - exact Hvalid.
  - intros w event Hd Hty.
    destruct (processEvent_frame event w)
      as (_ & _ & added & Hn & Hres & _ & Hadded).
    assert (added = []) as ->.
    { destruct Hadded as [|(src & rs & w2 & _ & Hrs & Hw)]; [assumption|].
      assert (rs = []) as ->.
      { unfold Processor.getNotificationRecipients in Hrs.
        rewrite Hty in Hrs. simpl in Hrs.
        eapply targetRecipient_unsubscribed; [|exact Hrs].
        intros u Hu. rewrite db_tick, Hd in Hu. rewrite Hty.
        apply enum_excludes_share.
        unfold subscriptions_valid in Hvalid.
        rewrite List.Forall_forall in Hvalid. apply Hvalid. exact Hu. }
      destruct Hw as [|n added (r & [] & _) _]. reflexivity. }
    rewrite app_nil_r in Hn. split; [exact Hn | exact Hres].
Qed.

(** * Further properties *)

(** ** More on the notification writer *)

Lemma createNotification_well_formed (event : Event.t) (src tgt : User.t)
      (w : World) :
  Forall (well_formed event src)
         (contribution (fst (Processor.createNotification event src tgt w))).
Proof.
  unfold Processor.createNotification, try_catch, bind, Date_now.
  rewrite findOne_eq.
  destruct (next_rejects w); [constructor|]. simpl.
  destruct (find_first _ (notifications (db w))) as [[i x]|]; [constructor|].
  unfold uuidv4, get_FRONTEND_URL. simpl.
  rewrite notification_insert_eq.
  destruct (Notification.valid _) eqn:Hvalid; [|constructor].
  simpl.
  destruct (next_rejects _); [constructor|].
  destruct (Notifications.clashes _ _); [constructor|].
  simpl. constructor; [|constructor].
  unfold well_formed. simpl.
  repeat split; try exact Hvalid.
  eexists. split; [reflexivity | lia].
Qed.

(** Whatever a property of the single attempts, the loop over the
    recipients hands it on to the notifications it adds, of which there is
    at most one per recipient. *)
Lemma notifyRecipients_added (P : Notification.t -> Prop) (event : Event.t)
      (src : User.t) (rs : list User.t) :
  (forall r w, In r rs ->
               Forall P (contribution
                           (fst (Processor.createNotification event src r w)))) ->
  forall acc w l w',
    Processor.notifyRecipients event src rs acc w = (Ok l, w') ->
    exists added,
      l = acc ++ added
      /\ Forall P added
      /\ (List.length added <= List.length rs)%nat.
Proof.
  induction rs as [|r rs IH]; intros HP acc w l w' Hrun.
  - simpl in Hrun. inversion Hrun; subst. exists []. rewrite app_nil_r.
    repeat split; [constructor | simpl; lia].
  - simpl in Hrun. unfold bind at 1 in Hrun.
    unfold try_catch, bind at 1 in Hrun.
    pose proof (HP r w (or_introl eq_refl)) as Hr.
    assert (forall r0 w0, In r0 rs ->
              Forall P (contribution
                          (fst (Processor.createNotification event src r0 w0))))
      as HP' by (intros; apply HP; right; assumption).
    destruct (Processor.createNotification event src r w) as [[[n|]|e] w1];
      simpl in Hr, Hrun.
    + destruct (IH HP' _ _ _ _ Hrun) as (added & -> & Hadded & Hlen).
      exists (n :: added). rewrite <- app_assoc. simpl.
      repeat split; [|simpl; lia].
      constructor; [inversion Hr; assumption | exact Hadded].
    + destruct (IH HP' _ _ _ _ Hrun) as (added & -> & Hadded & Hlen).
      exists added. repeat split; [exact Hadded | simpl; lia].
    + destruct (IH HP' _ _ _ _ Hrun) as (added & -> & Hadded & Hlen).
      exists added. repeat split; [exact Hadded | simpl; lia].
Qed.

(** One run of the processor, with what it resolved on the way. *)
Lemma processEvent_added (event : Event.t) (w : World) :
  exists added,
    notifications (db (exec (Processor.processEvent event) w))
    = notifications (db w) ++ added
    /\ (added = []
        \/ exists src rs w2 w3,
            List.find (fun u => String.eqb (User.userId u)
                                           (Event.sourceUserId event))
                      (users (db w)) = Some src
            /\ next_rejects w = false
            /\ Processor.getNotificationRecipients event src (tick w)
               = (Ok rs, w2)
            /\ Processor.notifyRecipients event src rs [] w2
               = (Ok added, w3)).
Proof.
  unfold exec. rewrite processEvent_run.
  destruct (next_rejects w).
  { exists []. simpl. rewrite db_tick, app_nil_r. auto. }
  destruct (List.find _ (users (db w))) as [src|] eqn:Hsrc.
  2:{ exists []. simpl. rewrite db_tick, app_nil_r. auto. }
  destruct (reads_only_getNotificationRecipients event src (tick w))
    as [Hdb2 _].
  destruct (Processor.getNotificationRecipients event src (tick w))
    as [[rs|e] w2] eqn:Hrs; simpl in Hdb2; rewrite db_tick in Hdb2.
  2:{ exists []. simpl. rewrite Hdb2, app_nil_r. auto. }
  destruct (notifyRecipients_frame event src rs [] w2)
    as (written & w3 & Hrun & _ & _ & Hn & _).
  simpl in Hrun. rewrite Hrun. exists written.
  split.
  - rewrite Hdb2 in Hn.
    destruct (next_rejects w3); simpl; rewrite ?db_tick; exact Hn.
  - right. exists src, rs, w2, w3. auto.
Qed.


Lemma content_after_username (event : Event.t) (src : User.t) :
  exists suffix,
    Processor.generateNotificationContent event src
    = User.username src +:+ suffix
    /\ suffix <> EmptyString.
Proof.
  unfold Processor.generateNotificationContent.
  repeat match goal with
         | |- context [if ?b then _ else _] => destruct b
         | |- context [match ?o with Some _ => _ | None => _ end] =>
             destruct o
         end;
    eexists; (split; [reflexivity | discriminate]).
Qed.

(** X1.  Every notification [processEvent] adds to the collection was
    built for a source user that exists: it is unread, was never read or
    dismissed, carries the event's type, id and [data.postId] and the
    source user's id, passed the schema validation, and its content is
    the source user's display name followed by a non-empty text.  Its
    [expiresAt] is set, by the schema default, and lies thirty days after
    its timestamp or later: the default reads the clock when the
    document is built, after the [new Date()] of the timestamp. *)
Theorem written_notifications_well_formed (w : World) (event : Event.t) :
  exists added,
    notifications (db (exec (Processor.processEvent event) w))
    = notifications (db w) ++ added
    /\ forall n,
        In n added ->
        exists src,
          List.find (fun u => String.eqb (User.userId u)
                                         (Event.sourceUserId event))
                    (users (db w)) = Some src
          /\ well_formed event src n
          /\ exists suffix,
              Notification.content n = User.username src +:+ suffix
              /\ suffix <> EmptyString.
Proof.
  destruct (processEvent_added event w) as (added & Hn & Hadded).
  exists added. split; [exact Hn|].
  intros n Hin.
  destruct Hadded as [->|(src & rs & w2 & w3 & Hsrc & _ & _ & Hrun)];
    [destruct Hin|].
  destruct (notifyRecipients_added (well_formed event src) event src rs
              (fun r w0 _ => createNotification_well_formed event src r w0)
              [] w2 added w3 Hrun) as (added' & Heq & Hwf & _).
  simpl in Heq. subst added'.
  exists src. split; [exact Hsrc|].
  rewrite List.Forall_forall in Hwf. specialize (Hwf n Hin).
  split; [exact Hwf|].
  destruct Hwf as (_ & _ & Hcontent & _). rewrite Hcontent.
  apply content_after_username.
Qed.

Lemma event_type_cases (t : string) :
  t = "LIKE" \/ t = "COMMENT" \/ t = "FOLLOW" \/ t = "POST_CREATE"
  \/ t = "MENTION" \/ t = "SHARE"
  \/ Js.includes Event.type_enum t = false.
Proof.
  destruct (Js.includes Event.type_enum t) eqn:H; [|tauto].
  apply includes_In in H. simpl in H. intuition.
Qed.

Lemma unknown_type_eqb (t : string) :
  Js.includes Event.type_enum t = false ->
  String.eqb t "LIKE" = false /\ String.eqb t "COMMENT" = false
  /\ String.eqb t "FOLLOW" = false /\ String.eqb t "POST_CREATE" = false
  /\ String.eqb t "MENTION" = false /\ String.eqb t "SHARE" = false.
Proof.
  intros H. simpl in H. rewrite !orb_false_iff in H.
  rewrite !(String.eqb_sym t). tauto.
Qed.

Lemma postUrl_path (b : string) (event : Event.t) :
  exists path,
    Processor.postUrl b event = b +:+ path
    /\ forall p,
        Event.postId (Event.data event) = Some p ->
        (p <> EmptyString -> path = "/posts/" +:+ p)
        /\ (p = EmptyString -> path = EmptyString).
Proof.
  unfold Processor.postUrl.
  destruct (Event.postId (Event.data event)) as [p|].
  - destruct (Js.truthy p) eqn:Hp.
    + exists ("/posts/" +:+ p). split; [reflexivity|].
      intros q [= <-]. split; [reflexivity|].
      intros ->. discriminate.
    + exists EmptyString. rewrite append_empty_r. split; [reflexivity|].
      intros q [= <-]. split; [|reflexivity].
      intros Hq. apply truthy_true in Hq. congruence.
  - exists EmptyString. rewrite append_empty_r. split; [reflexivity|].
    discriminate.
Qed.

Lemma postUrl_without_post (b : string) (event : Event.t) :
  Event.postId (Event.data event) = None -> Processor.postUrl b event = b.
Proof. unfold Processor.postUrl. intros ->. reflexivity. Qed.

Lemma append_cancel_l (b x y : string) : b +:+ x = b +:+ y -> x = y.
Proof.
  induction b as [|c b IH]; [auto|].
  rewrite !append_cons. intros [= H]. auto.
Qed.

(** X2.  The deep link of a notification always starts with the base URL,
    which is [FRONTEND_URL] when that is set and not empty and the local
    default otherwise, so never empty.  After the base come [/profile/] and
    the source user for FOLLOW, [/posts/] and the post for the five other
    types when [data.postId] is a non-empty string, and nothing in every
    other case: for those five types when [data.postId] is absent or
    empty, and for a type that is none of the six. *)
Theorem notification_url_starts_with_base (FRONTEND_URL : option string)
        (event : Event.t) :
  exists base path,
    Processor.generateNotificationUrl FRONTEND_URL event = base +:+ path
    /\ base <> EmptyString
    /\ (forall u, FRONTEND_URL = Some u -> u <> EmptyString -> base = u)
    /\ (FRONTEND_URL = None \/ FRONTEND_URL = Some EmptyString ->
        base = "http://localhost:3000")
    /\ (Event.type event = "FOLLOW" ->
        path = "/profile/" +:+ Event.sourceUserId event)
    /\ (forall p,
           Js.includes ["LIKE"; "COMMENT"; "SHARE"; "POST_CREATE"; "MENTION"]
                       (Event.type event) = true ->
           Event.postId (Event.data event) = Some p ->
           (p <> EmptyString -> path = "/posts/" +:+ p)
           /\ (p = EmptyString -> path = EmptyString))
    /\ (Js.includes ["LIKE"; "COMMENT"; "SHARE"; "POST_CREATE"; "MENTION"]
                    (Event.type event) = true ->
        Event.postId (Event.data event) = None ->
        path = EmptyString)
    /\ (Js.includes Event.type_enum (Event.type event) = false ->
        path = EmptyString).
Proof.
  set (base := match FRONTEND_URL with
               | Some u => if Js.truthy u then u else "http://localhost:3000"
               | None => "http://localhost:3000"
               end).
  assert (base <> EmptyString) as Hbase.
  { subst base. destruct FRONTEND_URL as [u|]; [|discriminate].
    destruct (Js.truthy u) eqn:Hu; [|discriminate].
    apply truthy_true. exact Hu. }
  assert (forall u, FRONTEND_URL = Some u -> u <> EmptyString -> base = u)
    as Hset.
  { intros u -> Hu. subst base. apply truthy_true in Hu. rewrite Hu.
    reflexivity. }
  assert (FRONTEND_URL = None \/ FRONTEND_URL = Some EmptyString ->
          base = "http://localhost:3000") as Hunset.
  { intros [-> | ->]; reflexivity. }
  destruct (postUrl_path base event) as (post & Hpost & Hpath).
  unfold Processor.generateNotificationUrl. fold base.
  destruct (event_type_cases (Event.type event))
    as [Hty|[Hty|[Hty|[Hty|[Hty|[Hty|Hty]]]]]].
  1,2,4,5,6: rewrite Hty; simpl; exists base, post;
    (split; [exact Hpost|]); (split; [exact Hbase|]);
    (split; [exact Hset|]); (split; [exact Hunset|]);
    (split; [discriminate|]);
    (split; [intros p _; apply Hpath|]);
    (split; [intros _ Hnone; rewrite (postUrl_without_post _ _ Hnone) in Hpost;
             rewrite <- (append_empty_r base) in Hpost at 1;
             symmetry; exact (append_cancel_l _ _ _ Hpost)
            | intros H; vm_compute in H; discriminate H]).
  - rewrite Hty. simpl.
    exists base, ("/profile/" +:+ Event.sourceUserId event).
    split; [reflexivity|]. split; [exact Hbase|].
    split; [exact Hset|]. split; [exact Hunset|].
    split; [reflexivity|].
    split; [intros; discriminate|].
    split; intros; discriminate.
  - destruct (unknown_type_eqb _ Hty) as (H1 & H2 & H3 & H4 & H5 & H6).
    assert (Js.includes
              ["LIKE"; "COMMENT"; "SHARE"; "POST_CREATE"; "MENTION"]
              (Event.type event) = false) as Hnot.
    { destruct (Js.includes
                  ["LIKE"; "COMMENT"; "SHARE"; "POST_CREATE"; "MENTION"]
                  (Event.type event)) eqn:Hin; [|reflexivity].
      apply includes_In in Hin.
      assert (In (Event.type event) Event.type_enum) as Hknown
          by (simpl in *; intuition).
      apply includes_In in Hknown. congruence. }
    rewrite H1, H2, H3, H4, H5, H6, Hnot.
    change (false || false || false) with false. cbv iota.
    exists base, EmptyString. rewrite append_empty_r.
    split; [reflexivity|]. split; [exact Hbase|].
    split; [exact Hset|]. split; [exact Hunset|].
    split; [intros Hf; rewrite Hf in H3; discriminate|].
    split; [discriminate|]. split; [discriminate | reflexivity].
Qed.


(** ** More on the recipients *)

Lemma targetRecipient_shape (event : Event.t) (w : World)
      (rs : list User.t) (w' : World) :
  Processor.targetRecipient event w = (Ok rs, w') ->
  rs = []
  \/ exists u,
      rs = [u]
      /\ Event.targetUserId event = Some (User.userId u)
      /\ User.userId u <> Event.sourceUserId event
      /\ Processor.shouldReceiveNotification u (Event.type event) = true
      /\ In u (users (db w)).
Proof.
  intros Hrun. unfold Processor.targetRecipient in Hrun.
  destruct (Event.targetUserId event) as [target|];
    [|inversion Hrun; auto].
  destruct (Js.truthy target); simpl in Hrun; [|inversion Hrun; auto].
  destruct (String.eqb_spec target (Event.sourceUserId event)) as [|Hne];
    simpl in Hrun; [inversion Hrun; auto|].
  unfold bind in Hrun. rewrite findByUserId_eq in Hrun.
  destruct (next_rejects w); [discriminate|].
  destruct (List.find _ (users (db w))) as [u|] eqn:Hfind;
    [|inversion Hrun; auto].
  destruct (Processor.shouldReceiveNotification u (Event.type event)) eqn:Hs;
    inversion Hrun; subst; auto.
  right. exists u. pose proof (find_userId _ _ _ Hfind) as Hid.
  apply find_some in Hfind as [Hin _].
  repeat split; congruence || assumption.
Qed.

Lemma single_target_recipients (event : Event.t) (src : User.t) (w : World) :
  Event.type event = "LIKE" \/ Event.type event = "COMMENT"
  \/ Event.type event = "FOLLOW" \/ Event.type event = "SHARE" ->
  Processor.getNotificationRecipients event src w
  = Processor.targetRecipient event w.
Proof.
  intros Hty. unfold Processor.getNotificationRecipients.
  destruct Hty as [Hty|[Hty|[Hty|Hty]]]; rewrite Hty; reflexivity.
Qed.

(** X3.  A LIKE, COMMENT, FOLLOW or SHARE event adds at most one
    notification, and that one is addressed to the event's target user,
    who is not the source user and subscribes to the event's type. *)
Theorem single_target_at_most_one (w : World) (event : Event.t) :
  Event.type event = "LIKE" \/ Event.type event = "COMMENT"
  \/ Event.type event = "FOLLOW" \/ Event.type event = "SHARE" ->
  exists added,
    notifications (db (exec (Processor.processEvent event) w))
    = notifications (db w) ++ added
    /\ (List.length added <= 1)%nat
    /\ forall n,
        In n added ->
        Event.targetUserId event = Some (Notification.userId n)
        /\ Notification.userId n <> Event.sourceUserId event
        /\ exists u,
            In u (users (db w))
            /\ User.userId u = Notification.userId n
            /\ Processor.shouldReceiveNotification u (Event.type event)
               = true.
Proof.
  intros Hty.
  destruct (processEvent_added event w) as (added & Hn & Hadded).
  exists added. split; [exact Hn|].
  destruct Hadded as [->|(src & rs & w2 & w3 & _ & _ & Hrs & Hrun)].
  { split; [simpl; lia | intros n []]. }
  rewrite single_target_recipients in Hrs by exact Hty.
  destruct (notifyRecipients_frame event src rs [] w2)
    as (added' & w3' & Hrun' & _ & _ & _ & Hw & _).
  rewrite Hrun in Hrun'. simpl in Hrun'. injection Hrun' as <- <-.
  destruct (notifyRecipients_added (fun _ => True) event src rs
              (fun r w0 _ =>
                 proj2 (List.Forall_forall _ _) (fun _ _ => Logic.I))
              [] w2 added w3 Hrun) as (added' & Heq & _ & Hlen).
  simpl in Heq. subst added'.
  apply targetRecipient_shape in Hrs
    as [->|(u & -> & Htarget & Hne & Hsub & Hin)].
  - split; [simpl in Hlen; lia|]. intros n Hn'.
    rewrite List.Forall_forall in Hw.
    destruct (Hw n Hn') as (r & [] & _).
  - split; [exact Hlen|]. intros n Hn'.
    rewrite List.Forall_forall in Hw.
    destruct (Hw n Hn') as (r & [<-|[]] & Hid & _).
    rewrite db_tick in Hin. rewrite Hid.
    split; [exact Htarget|]. split; [exact Hne|]. exists u. auto.
Qed.

(** X4.  For an event whose type is none of the six, with the source user
    found and the storage calls resolving, [processEvent] logs the warning
    [Unknown event type: <type>], writes no notification, resolves to the
    empty list, and marks the event processed with an empty
    [notificationsGenerated]. *)
Theorem unknown_type_still_processed (w : World) (event : Event.t)
        (src : User.t) :
  Js.includes Event.type_enum (Event.type event) = false ->
  next_rejects w = false ->
  next_rejects (tick w) = false ->
  List.find (fun u => String.eqb (User.userId u) (Event.sourceUserId event))
            (users (db w)) = Some src ->
  exists w',
    Processor.processEvent event w = (Ok (Some []), w')
    /\ console w'
       = console w ++ [(LWarn, "Unknown event type: " +:+ Event.type event)]
    /\ notifications (db w') = notifications (db w)
    /\ users (db w') = users (db w)
    /\ events (db w')
       = update_first
           (fun e => String.eqb (Event.eventId e) (Event.eventId event))
           (fun e => {| Event.eventId := Event.eventId e;
                        Event.type := Event.type e;
                        Event.sourceUserId := Event.sourceUserId e;
                        Event.targetUserId := Event.targetUserId e;
                        Event.data := Event.data e;
                        Event.timestamp := Event.timestamp e;
                        Event.processed := true;
                        Event.notificationsGenerated := [] |})
           (events (db w)).
Proof.
  intros Hty Hok Hok' Hsrc.
  destruct (unknown_type_eqb _ Hty) as (H1 & H2 & H3 & H4 & H5 & H6).
  assert (Processor.getNotificationRecipients event src (tick w)
          = (Ok [], snd (console_warn ("Unknown event type: "
                                       +:+ Event.type event) (tick w))))
    as Hrs.
  { unfold Processor.getNotificationRecipients.
    rewrite H1, H2, H3, H4, H5, H6. reflexivity. }
  rewrite processEvent_run, Hok, Hsrc, Hrs. simpl.
  replace (next_rejects _) with false
    by (symmetry; unfold next_rejects in *; simpl; exact Hok').
  eexists. split; [reflexivity|]. simpl.
  rewrite db_tick. unfold tick at 1. simpl.
  destruct (pending (tick w)); simpl; rewrite console_tick; auto.
Qed.

(** X5.  With the lookup resolving, the recipients of a POST_CREATE event
    are, in the order of the collection, the users whose [following] list
    contains the source user and who subscribe to POST_CREATE; the source
    user is not set apart.  The notifications [processEvent] adds are at
    most as many, each addressed to one of them. *)
Theorem post_create_fans_out_to_followers (w : World) (event : Event.t)
        (src : User.t) :
  Event.type event = "POST_CREATE" ->
  (next_rejects w = false ->
   Processor.getNotificationRecipients event src w
   = (Ok (List.filter
            (fun u => Js.includes (User.following u)
                                  (Event.sourceUserId event)
                      && Js.includes
                           (User.notificationTypes (User.preferences u))
                           "POST_CREATE")
            (users (db w))),
      tick w))
  /\ exists added,
      notifications (db (exec (Processor.processEvent event) w))
      = notifications (db w) ++ added
      /\ (List.length added
          <= List.length
               (List.filter
                  (fun u => Js.includes (User.following u)
                                        (Event.sourceUserId event)
                            && Js.includes
                                 (User.notificationTypes (User.preferences u))
                                 "POST_CREATE")
                  (users (db w))))%nat
      /\ forall n,
          In n added ->
          exists u,
            In u (users (db w))
            /\ User.userId u = Notification.userId n
            /\ Js.includes (User.following u) (Event.sourceUserId event)
               = true
            /\ Js.includes (User.notificationTypes (User.preferences u))
                           "POST_CREATE" = true.
Proof.
  intros Hty.
  assert (forall w0,
             next_rejects w0 = false ->
             Processor.getNotificationRecipients event src w0
             = (Ok (List.filter
                      (fun u => Js.includes (User.following u)
                                            (Event.sourceUserId event)
                                && Js.includes
                                     (User.notificationTypes
                                        (User.preferences u))
                                     "POST_CREATE")
                      (users (db w0))),
                tick w0)) as Hrec.
  { intros w0 Hok. unfold Processor.getNotificationRecipients.
    rewrite Hty. simpl. unfold bind. rewrite findFollowing_eq, Hok.
    unfold ret, Processor.shouldReceiveNotification. f_equal. f_equal.
    induction (users (db w0)) as [|u us IH]; simpl; [reflexivity|].
    destruct (Js.includes (User.following u) (Event.sourceUserId event));
      simpl; [|exact IH].
    destruct (Js.includes (User.notificationTypes (User.preferences u))
                          "POST_CREATE"); simpl; congruence. }
  split; [apply Hrec|].
  destruct (processEvent_added event w) as (added & Hn & Hadded).
  exists added. split; [exact Hn|].
  destruct Hadded as [->|(src' & rs & w2 & w3 & _ & _ & Hrs & Hrun)].
  { split; [simpl; lia | intros n []]. }
  assert (rs = List.filter
                 (fun u => Js.includes (User.following u)
                                       (Event.sourceUserId event)
                           && Js.includes
                                (User.notificationTypes (User.preferences u))
                                "POST_CREATE")
                 (users (db w))) as Hrs'.
  { unfold Processor.getNotificationRecipients in Hrs.
    rewrite Hty in Hrs. simpl in Hrs. unfold bind in Hrs.
    rewrite findFollowing_eq in Hrs.
    destruct (next_rejects (tick w)) eqn:Hok; [discriminate|].
    pose proof (Hrec (tick w) Hok) as Hfull.
    unfold Processor.getNotificationRecipients in Hfull.
    rewrite Hty in Hfull. simpl in Hfull. unfold bind in Hfull.
    rewrite findFollowing_eq, Hok in Hfull.
    rewrite Hfull in Hrs. rewrite db_tick in Hrs. congruence. }
  destruct (notifyRecipients_frame event src' rs [] w2)
    as (added' & w3' & Hrun' & _ & _ & _ & Hw & _).
  rewrite Hrun in Hrun'. simpl in Hrun'. injection Hrun' as <- <-.
  destruct (notifyRecipients_added (fun _ => True) event src' rs
              (fun r w0 _ =>
                 proj2 (List.Forall_forall _ _) (fun _ _ => Logic.I))
              [] w2 added w3 Hrun) as (added' & Heq & _ & Hlen).
  simpl in Heq. subst added'. rewrite <- Hrs'.
  split; [exact Hlen|]. intros n Hin.
  rewrite List.Forall_forall in Hw.
  destruct (Hw n Hin) as (r & Hr & Hid & _).
  rewrite Hrs' in Hr. apply filter_In in Hr as [Hr Hcond].
  apply andb_true_iff in Hcond as [Hf Hs].
  exists r. auto.
Qed.


Lemma env_tick (w : World) : env_FRONTEND_URL (tick w) = env_FRONTEND_URL w.
Proof. unfold tick. destruct (pending w); reflexivity. Qed.

Lemma rng_tick (w : World) :
  rng (tick w) = rng w /\ drawn (tick w) = drawn w.
Proof. unfold tick. destruct (pending w); auto. Qed.

(** The writer succeeds when the query resolves and finds no duplicate and
    the save goes through. *)
Lemma createNotification_success (event : Event.t) (src tgt : User.t)
      (w : World) :
  next_rejects w = false ->
  (forall n, In n (notifications (db w)) ->
             dedup_query event src tgt w n = false) ->
  write_accepted event tgt w = true ->
  exists n w',
    Processor.createNotification event src tgt w = (Ok (Some n), w')
    /\ db w' = set_notifications (notifications (db w) ++ [n]) (db w)
    /\ (healthy w = true -> healthy w' = true)
    /\ Notification.notificationId n = rng w (drawn w)
    /\ Notification.userId n = User.userId tgt
    /\ Notification.type n = Event.type event
    /\ Notification.status n = Notification.unread
    /\ Notification.content n
       = Processor.generateNotificationContent event src
    /\ Notification.url (Notification.data n)
       = Some (Processor.generateNotificationUrl (env_FRONTEND_URL w) event).
Proof.
  intros Hok Hnone Hacc.
  apply find_first_None in Hnone.
  unfold Processor.createNotification, try_catch, bind, Date_now.
  rewrite findOne_eq, Hok. fold (dedup_query event src tgt w).
  rewrite Hnone.
  unfold write_accepted in Hacc.
  repeat (apply andb_true_iff in Hacc as [Hacc ?]).
  apply negb_true_iff in Hacc.
  match goal with H : negb (existsb _ _) = true |- _ =>
    apply negb_true_iff in H; rename H into Hfresh end.
  unfold uuidv4, get_FRONTEND_URL. simpl.
  rewrite notification_insert_eq.
  destruct (rng_tick w) as [Hrng Hdrawn].
  match goal with
  | |- context [negb (Notification.valid ?n)] =>
      assert (Notification.valid n = true) as Hvalid
  end.
  { unfold Notification.valid. simpl.
    rewrite generateNotificationContent_truthy, Hrng, Hdrawn.
    repeat (apply andb_true_iff; split); auto using enum_type_truthy. }
  rewrite Hvalid. simpl.
  match goal with
  | |- context [next_rejects ?w1] =>
      assert (next_rejects w1 = false) as Hnext
  end.
  { unfold next_rejects in *. simpl. exact Hacc. }
  rewrite Hnext.
  match goal with
  | |- context [Notifications.clashes ?n ?l] =>
      assert (Notifications.clashes n l = false) as Hclash
  end.
  { unfold Notifications.clashes. simpl.
    rewrite db_tick, Hrng, Hdrawn. exact Hfresh. }
  rewrite Hclash.
  eexists. eexists. split; [reflexivity|].
  simpl. rewrite db_tick, Hrng, Hdrawn, env_tick.
  repeat split. healthy_tac.
Qed.

(** X6.  Let no storage call reject, and let a FOLLOW event have an
    existing source user and, as target, another existing user who
    subscribes to FOLLOW; let no notification of the same cause be younger
    than five minutes when the writer asks, and the uuid drawn be non-empty
    and new.  Then [processEvent] writes exactly one notification: for the
    followed user, of type FOLLOW, unread, with the content
    [<source's display name> started following you] and a link to the
    source user's profile under the base URL; it resolves to that
    notification and marks the stored event with its id. *)
Theorem follow_notifies_followed_user (w : World) (event : Event.t)
        (src tgt : User.t) (t : string) :
  healthy w = true ->
  Event.type event = "FOLLOW" ->
  List.find (fun u => String.eqb (User.userId u) (Event.sourceUserId event))
            (users (db w)) = Some src ->
  Event.targetUserId event = Some t ->
  t <> EmptyString ->
  t <> Event.sourceUserId event ->
  List.find (fun u => String.eqb (User.userId u) t) (users (db w))
  = Some tgt ->
  Js.includes (User.notificationTypes (User.preferences tgt)) "FOLLOW"
  = true ->
  (forall n, In n (notifications (db w)) -> same_cause event src tgt n ->
             Notification.timestamp n
             < clock (tick (tick w)) - Processor.five_minutes) ->
  Js.truthy (rng w (drawn w)) = true ->
  (forall n, In n (notifications (db w)) ->
             Notification.notificationId n <> rng w (drawn w)) ->
  exists n w',
    Processor.processEvent event w = (Ok (Some [n]), w')
    /\ notifications (db w') = notifications (db w) ++ [n]
    /\ Notification.notificationId n = rng w (drawn w)
    /\ Notification.userId n = t
    /\ Notification.type n = "FOLLOW"
    /\ Notification.status n = Notification.unread
    /\ Notification.content n
       = User.username src +:+ " started following you"
    /\ Notification.url (Notification.data n)
       = Some (base_url w +:+ "/profile/" +:+ Event.sourceUserId event)
    /\ events (db w')
       = update_first
           (fun e => String.eqb (Event.eventId e) (Event.eventId event))
           (Event.mark_processed [(rng w (drawn w), t)])
           (events (db w)).
Proof.
  intros Hh Hty Hsrc Htarget Htruthy Hne Htgt Hsub Hold Hid Hfresh.
  pose proof (healthy_tick w Hh) as Hh1.
  pose proof (healthy_tick (tick w) Hh1) as Hh2.
  pose proof (find_userId _ _ _ Htgt) as Hidt.
  assert (Processor.getNotificationRecipients event src (tick w)
          = (Ok [tgt], tick (tick w))) as Hrs.
  { unfold Processor.getNotificationRecipients, Processor.targetRecipient.
    rewrite Hty, Htarget. simpl.
    apply truthy_true in Htruthy. rewrite Htruthy.
    apply String.eqb_neq in Hne. rewrite Hne. simpl.
    unfold bind. rewrite findByUserId_eq, (healthy_next _ Hh1), db_tick, Htgt.
    unfold Processor.shouldReceiveNotification. rewrite Hsub. reflexivity. }
  destruct (rng_tick w) as [Hrng1 Hdrawn1].
  destruct (rng_tick (tick w)) as [Hrng2 Hdrawn2].
  destruct (createNotification_success event src tgt (tick (tick w)))
    as (n & w3 & Hcreate & Hdb & Hh3 & Hnid & Huid & Hnty & Hst & Hcontent
        & Hurl).
  { apply healthy_next. exact Hh2. }
  { intros x Hx. rewrite !db_tick in Hx.
    destruct (dedup_query event src tgt (tick (tick w)) x) eqn:Hq;
      [|reflexivity].
    apply dedup_query_true in Hq as [Hc Hrecent].
    specialize (Hold x Hx Hc). lia. }
  { unfold write_accepted.
    rewrite (healthy_next _ (healthy_tick _ Hh2)).
    apply truthy_true in Htruthy.
    rewrite Hrng2, Hdrawn2, Hrng1, Hdrawn1, Hid, !db_tick, Hidt, Hty, Htruthy.
    change (Js.includes Notification.type_enum "FOLLOW") with true.
    rewrite !andb_true_r. simpl. apply negb_true_iff.
    destruct (existsb _ (notifications (db w))) eqn:Hex; [|reflexivity].
    apply existsb_exists in Hex as (x & Hx & Heq).
    apply String.eqb_eq in Heq. destruct (Hfresh x Hx Heq). }
  rewrite Hrng2, Hdrawn2, Hrng1, Hdrawn1 in Hnid.
  rewrite !env_tick in Hurl.
  exists n. rewrite processEvent_run, (healthy_next _ Hh), Hsrc, Hrs.
  simpl. unfold bind at 1. unfold try_catch, bind at 1.
  rewrite Hcreate. simpl.
  rewrite (healthy_next _ (Hh3 Hh2)).
  eexists. split; [reflexivity|]. simpl.
  rewrite Hdb. simpl. rewrite !db_tick.
  split; [reflexivity|]. split; [exact Hnid|]. split; [congruence|].
  split; [congruence|]. split; [exact Hst|].
  split.
  { rewrite Hcontent. unfold Processor.generateNotificationContent.
    rewrite Hty. reflexivity. }
  split.
  { rewrite Hurl. unfold Processor.generateNotificationUrl, base_url.
    rewrite Hty. reflexivity. }
  unfold Processor.generated. simpl. rewrite Hnid, Huid, Hidt. reflexivity.
Qed.


(** ** Counting unread notifications *)

Lemma getUnreadCount_eq (uid : string) (w : World) :
  Notifications.getUnreadCount uid w
  = (if next_rejects w then Throw StorageError
     else Ok (List.length
                (List.filter
                   (fun n => String.eqb (Notification.userId n) uid
                             && Notification.status_eqb
                                  (Notification.status n) Notification.unread)
                   (notifications (db w)))),
     tick w).
Proof.
  unfold Notifications.getUnreadCount, bind. rewrite await_storage_eq.
  destruct (next_rejects w); [reflexivity|].
  unfold get_db, ret. rewrite db_tick. reflexivity.
Qed.

Lemma unread_after_read_all (uid other : string) (d : Z)
      (l : list Notification.t) :
  List.filter
    (fun n => String.eqb (Notification.userId n) other
              && Notification.status_eqb (Notification.status n)
                                         Notification.unread)
    (update_all
       (fun n => String.eqb (Notification.userId n) uid
                 && Notification.status_eqb (Notification.status n)
                                            Notification.unread)
       (Notification.set_status_readAt Notification.read d) l)
  = if String.eqb other uid then []
    else List.filter
           (fun n => String.eqb (Notification.userId n) other
                     && Notification.status_eqb (Notification.status n)
                                                Notification.unread)
           l.
Proof.
  unfold update_all.
  induction l as [|n l IH]; simpl; [destruct (String.eqb other uid); auto|].
  rewrite IH. clear IH.
  destruct (String.eqb_spec other uid) as [->|Hne].
  - destruct (String.eqb (Notification.userId n) uid) eqn:Hu; simpl.
    + destruct (Notification.status n) eqn:Hs; simpl;
        rewrite ?Hu, ?Hs; simpl; rewrite ?andb_false_r; reflexivity.
    + rewrite Hu. reflexivity.
  - destruct (String.eqb_spec (Notification.userId n) uid) as [Hu|Hu]; simpl.
    + assert (String.eqb (Notification.userId n) other = false) as Ho
          by (apply String.eqb_neq; congruence).
      destruct (Notification.status n); simpl; rewrite Ho; reflexivity.
    + reflexivity.
Qed.

(** X7.  When no storage call rejects, [markAllAsRead(userId)] resolves to
    the number of notifications that were unread for that user, which is
    what [getUnreadCount(userId)] gave before; afterwards
    [getUnreadCount(userId)] gives 0, every other user's unread count is
    as before, no notification was added or removed, and every
    notification that was unread for the user is stored read, with
    [readAt] the time of the call. *)
Theorem read_all_clears_unread_count (w : World) (uid : string) :
  healthy w = true ->
  exists k w1,
    Notifications.markAllAsRead uid w = (Ok k, w1)
    /\ fst (Notifications.getUnreadCount uid w) = Ok k
    /\ fst (Notifications.getUnreadCount uid w1) = Ok 0%nat
    /\ (forall other,
           other <> uid ->
           fst (Notifications.getUnreadCount other w1)
           = fst (Notifications.getUnreadCount other w))
    /\ List.length (notifications (db w1))
       = List.length (notifications (db w))
    /\ forall n,
        In n (notifications (db w)) ->
        Notification.userId n = uid ->
        Notification.status n = Notification.unread ->
        exists n',
          In n' (notifications (db w1))
          /\ Notification.notificationId n' = Notification.notificationId n
          /\ Notification.status n' = Notification.read
          /\ Notification.readAt n' = Some (clock w).
Proof.
  intros Hh.
  pose proof (healthy_next w Hh) as Hok.
  pose proof (healthy_next _ (healthy_tick w Hh)) as Hok1.
  set (p := fun n => String.eqb (Notification.userId n) uid
                     && Notification.status_eqb (Notification.status n)
                                                Notification.unread).
  set (f := Notification.set_status_readAt Notification.read (clock w)).
  set (w1 := set_db (set_notifications
                       (update_all p f (notifications (db w))) (db w))
                    (tick w)).
  assert (next_rejects w1 = false) as Hw1 by exact Hok1.
  assert (notifications (db w1) = update_all p f (notifications (db w)))
    as Hdb1.
  { unfold w1. simpl. reflexivity. }
  exists (List.length (List.filter p (notifications (db w)))), w1.
  split.
  { unfold Notifications.markAllAsRead, bind, Date_now.
    rewrite updateMany_eq, Hok. reflexivity. }
  split; [rewrite getUnreadCount_eq, Hok; reflexivity|].
  split.
  { rewrite getUnreadCount_eq, Hw1, Hdb1. simpl. unfold p, f.
    rewrite unread_after_read_all, String.eqb_refl. reflexivity. }
  split.
  { intros other Hne.
    rewrite !getUnreadCount_eq, Hw1, Hok, Hdb1. simpl. unfold p, f.
    rewrite unread_after_read_all.
    apply String.eqb_neq in Hne. rewrite Hne. reflexivity. }
  split; [rewrite Hdb1; unfold update_all; apply length_map|].
  intros n Hin Hu Hs.
  exists (f n).
  split; [|repeat split].
  rewrite Hdb1. unfold update_all. apply in_map_iff. exists n.
  split; [|exact Hin].
  unfold p. rewrite Hu, Hs, String.eqb_refl. reflexivity.
Qed.


(** ** The in-memory queue *)

Lemma console_error_db (msg : string) (w : World) :
  db (snd (console_error msg w)) = db w.
Proof. reflexivity. Qed.

Lemma console_error_healthy (msg : string) (w : World) :
  healthy (snd (console_error msg w)) = healthy w.
Proof. reflexivity. Qed.

Lemma drain_step (event : Event.t) (rest : list Event.t) (w : World) :
  EventQueue.drain (event :: rest) w
  = EventQueue.drain rest
      (match Processor.processEvent event w with
       | (Ok _, w1) => w1
       | (Throw _, w1) =>
           snd (console_error "Error processing event from queue:" w1)
       end).
Proof.
  simpl. unfold bind, try_catch, ret.
  destruct (Processor.processEvent event w) as [[o|e] w1]; reflexivity.
Qed.

Lemma drain_frame (l : list Event.t) :
  forall w : World,
  exists w',
    EventQueue.drain l w = (Ok tt, w')
    /\ users (db w') = users (db w)
    /\ (exists added,
           notifications (db w') = notifications (db w) ++ added
           /\ Forall (fun n => exists x,
                          In x l
                          /\ Notification.relatedEventId n
                             = Some (Event.eventId x))
                     added)
    /\ (healthy w = true ->
        w' = fold_left (fun w0 e => exec (Processor.processEvent e) w0) l w).
Proof.
  induction l as [|x l IH]; intros w.
  - exists w. split; [reflexivity|]. split; [reflexivity|].
    split; [exists []; rewrite app_nil_r; auto|]. reflexivity.
  - rewrite drain_step.
    destruct (processEvent_frame x w)
      as (Hu & Hh & added & Hn & _ & _ & Hadded').
    assert (Forall (fun n => Notification.relatedEventId n
                             = Some (Event.eventId x)) added) as Hadded.
    { destruct Hadded' as [->|(src & rs & w2 & _ & _ & Hw)]; [constructor|].
      eapply List.Forall_impl; [|exact Hw].
      intros n (r & _ & _ & Hrel & _). exact Hrel. }
    clear Hadded'. unfold exec in *. simpl.
    destruct (Processor.processEvent x w) as [[o|err] w1]; simpl in *.
    + destruct (IH w1) as (w' & Hrun & Hu1 & (added1 & Hn1 & Hadded1) & Hf).
      exists w'. split; [exact Hrun|]. split; [congruence|]. split.
      * exists (added ++ added1).
        split; [rewrite Hn1, Hn, app_assoc; reflexivity|].
        apply Forall_app. split.
        -- eapply List.Forall_impl; [|exact Hadded].
           intros n Hrel. exists x. auto.
        -- eapply List.Forall_impl; [|exact Hadded1].
           intros n (y & Hy & Hrel). exists y. auto.
      * intros H. apply Hf. apply Hh. exact H.
    + destruct (IH (snd (console_error
                           "Error processing event from queue:" w1)))
        as (w' & Hrun & Hu1 & (added1 & Hn1 & Hadded1) & Hf).
      exists w'. split; [exact Hrun|].
      rewrite console_error_db in Hu1, Hn1.
      split; [congruence|]. split.
      * exists (added ++ added1).
        split; [rewrite Hn1, Hn, app_assoc; reflexivity|].
        apply Forall_app. split.
        -- eapply List.Forall_impl; [|exact Hadded].
           intros n Hrel. exists x. auto.
        -- eapply List.Forall_impl; [|exact Hadded1].
           intros n (y & Hy & Hrel). exists y. auto.
      * intros H. destruct (Hh H) as [_ [o Ho]]. discriminate.
Qed.

(** X8.  [enqueue] on the event queue never raises, whatever the storage
    does.  On a queue that is already processing it only appends the
    event.  On an idle queue it attempts every waiting event and then the
    new one, going on after an event whose processing raised (the error
    is logged), and leaves the queue empty and idle; no user is changed,
    stored notifications stay and each added one refers to a queued
    event.  When no storage call rejects, the outcome is that of running
    [processEvent] on the events one after the other. *)
Theorem enqueue_never_raises (q : EventQueue.t) (event : Event.t)
        (w : World) :
  let waiting := EventQueue.queue q ++ [event] in
  exists q' w',
    EventQueue.enqueue event q w = (Ok q', w')
    /\ (EventQueue.processing q = true ->
        q' = {| EventQueue.queue := waiting; EventQueue.processing := true |}
        /\ w' = w)
    /\ (EventQueue.processing q = false ->
        q' = EventQueue.constructor
        /\ (forall first rest err,
               waiting = first :: rest ->
               fst (Processor.processEvent first w) = Throw err ->
               w' = exec (EventQueue.drain rest)
                         (exec (console_error
                                  "Error processing event from queue:")
                               (exec (Processor.processEvent first) w)))
        /\ (healthy w = true ->
            w' = fold_left
                   (fun w0 e => exec (Processor.processEvent e) w0)
                   waiting w))
    /\ users (db w') = users (db w)
    /\ exists added,
        notifications (db w') = notifications (db w) ++ added
        /\ Forall (fun n => exists x,
                       In x waiting
                       /\ Notification.relatedEventId n
                          = Some (Event.eventId x))
                  added.
Proof.
  intros waiting. unfold EventQueue.enqueue, EventQueue.processQueue.
  cbn [EventQueue.processing EventQueue.queue]. fold waiting.
  destruct (EventQueue.processing q) eqn:Hp; simpl.
  - exists {| EventQueue.queue := waiting; EventQueue.processing := true |}, w.
    split; [reflexivity|]. split; [auto|]. split; [discriminate|].
    split; [reflexivity|]. exists []. rewrite app_nil_r. auto.
  - assert ((List.length waiting =? 0)%nat = false) as Hlen.
    { apply Nat.eqb_neq. unfold waiting. rewrite length_app. simpl. lia. }
    rewrite Hlen.
    destruct (drain_frame waiting w) as (w' & Hrun & Hu & Hadded & Hf).
    exists EventQueue.constructor, w'.
    unfold bind, ret. rewrite Hrun.
    split; [reflexivity|]. split; [discriminate|].
    split; [|split; assumption].
    intros _. split; [reflexivity|]. split; [|exact Hf].
    intros first rest err Hw Herr. rewrite Hw in Hrun.
    rewrite drain_step in Hrun. unfold exec.
    destruct (Processor.processEvent first w) as [[o|e] w1];
      simpl in Herr; [discriminate|].
    cbn [snd fst]. cbn [snd fst] in Hrun.
    change (console_error "Error processing event from queue:" w1).2
      with (snd (console_error "Error processing event from queue:" w1)).
    rewrite Hrun. reflexivity.
Qed.

(** ** Following and unfollowing *)

Lemma findHandle_eq (id : string) (w : World) :
  Users.findHandle id w
  = (if next_rejects w then Throw StorageError else Ok (handle id (db w)),
     tick w).
Proof.
  unfold Users.findHandle, bind. rewrite await_storage_eq.
  destruct (next_rejects w); [reflexivity|].
  unfold get_db, ret, handle. rewrite db_tick. reflexivity.
Qed.

Lemma user_save_eq (i : nat) (u : User.t) (patch : User.t -> User.t)
      (w : World) :
  Users.save i u patch w
  = if negb (User.valid u) then (Throw ValidationError, w)
    else if next_rejects w then (Throw StorageError, tick w)
    else (Ok tt,
          set_db (set_users (alter_at i patch (users (db w))) (db w))
                 (tick w)).
Proof.
  unfold Users.save. destruct (negb (User.valid u)); [reflexivity|].
  unfold bind. rewrite await_storage_eq.
  destruct (next_rejects w); [reflexivity|].
  unfold get_db, put_db. rewrite db_tick. reflexivity.
Qed.

Lemma find_first_alter_at {A} (p : A -> bool) (f : A -> A) (l : list A) :
  (forall x, p (f x) = p x) ->
  forall k,
    find_first p (alter_at k f l)
    = match find_first p l with
      | Some (i, x) => Some (i, if (i =? k)%nat then f x else x)
      | None => None
      end.
Proof.
  intros Hf. induction l as [|y l IH]; intros k; [destruct k; reflexivity|].
  destruct k as [|k]; simpl.
  - rewrite Hf. destruct (p y); [reflexivity|].
    destruct (find_first p l) as [[i x]|]; reflexivity.
  - destruct (p y); [reflexivity|]. rewrite IH.
    destruct (find_first p l) as [[i x]|]; reflexivity.
Qed.

Lemma nth_error_alter_at_other {A} (f : A -> A) (l : list A) :
  forall i k, k <> i -> nth_error (alter_at i f l) k = nth_error l k.
Proof.
  induction l as [|y l IH]; intros i k Hk; [destruct i; reflexivity|].
  destruct i as [|i], k as [|k]; simpl; try reflexivity; try congruence.
  apply IH. congruence.
Qed.

Lemma alter_at_id {A} (l : list A) : forall i, alter_at i id l = l.
Proof.
  induction l as [|y l IH]; intros [|i]; simpl; try reflexivity.
  rewrite IH. reflexivity.
Qed.

Lemma alter_at_fetched {A} (p : A -> bool) (f : A -> A) (l : list A)
      (i : nat) (x : A) :
  find_first p l = Some (i, x) -> f x = x -> alter_at i f l = l.
Proof.
  revert i. induction l as [|y l IH]; intros i; simpl; [discriminate|].
  destruct (p y).
  - intros [= <- <-] Hx. simpl. rewrite Hx. reflexivity.
  - destruct (find_first p l) as [[k z]|]; [|discriminate].
    intros [= <- <-] Hx. simpl. rewrite (IH k); auto.
Qed.

Lemma handle_distinct (d : DB) (a b : string) (i j : nat) (u t : User.t) :
  handle a d = Some (i, u) -> handle b d = Some (j, t) -> a <> b -> i <> j.
Proof.
  unfold handle. intros Hu Ht Hne ->.
  apply find_first_Some in Hu as [Hu Hpu].
  apply find_first_Some in Ht as [Ht Hpt].
  rewrite Hu in Ht. injection Ht as ->.
  apply String.eqb_eq in Hpu, Hpt. congruence.
Qed.

Lemma healthy_set_db (d : DB) (w : World) :
  healthy (set_db d w) = healthy w.
Proof. reflexivity. Qed.

Lemma next_rejects_set_db (d : DB) (w : World) :
  next_rejects (set_db d w) = next_rejects w.
Proof. reflexivity. Qed.

Lemma tick_set_db (d : DB) (w : World) :
  tick (set_db d w) = set_db d (tick w).
Proof.
  unfold tick. cbn [pending set_db].
  destruct (pending w) eqn:E; reflexivity.
Qed.

Lemma with_member_In (x : string) (l : list string) :
  In x (with_member x l)
  /\ Js.includes (with_member x l) x = true
  /\ with_member x (with_member x l) = with_member x l.
Proof.
  assert (Js.includes (with_member x l) x = true) as H.
  { unfold with_member. destruct (Js.includes l x) eqn:E; [exact E|].
    apply includes_In. apply in_or_app. right. left. reflexivity. }
  split; [apply includes_In; exact H|]. split; [exact H|].
  unfold with_member at 1. rewrite H. reflexivity.
Qed.

Lemma without_not_In (x : string) (l : list string) :
  ~ In x (without x l).
Proof.
  unfold without. rewrite filter_In. intros [_ H].
  rewrite String.eqb_refl in H. discriminate.
Qed.

Lemma without_with_member (x : string) (l : list string) :
  ~ In x l -> without x (with_member x l) = l.
Proof.
  intros Hx. unfold with_member.
  destruct (Js.includes l x) eqn:E; [apply includes_In in E; tauto|].
  unfold without. rewrite List.filter_app. simpl.
  rewrite String.eqb_refl. simpl. rewrite app_nil_r.
  clear E. induction l as [|y l IH]; simpl; [reflexivity|].
  destruct (String.eqb_spec y x) as [->|Hne]; simpl.
  - exfalso. apply Hx. left. reflexivity.
  - rewrite IH; [reflexivity|]. intros H. apply Hx. right. exact H.
Qed.

(** The second of two calls of [postFollow], seen from the two handles
    fetched at its start. *)
Lemma postFollow_steps (w : World) (userId target : string) (i j : nat)
      (u t : User.t) :
  target <> EmptyString ->
  userId <> target ->
  next_rejects w = false ->
  next_rejects (tick w) = false ->
  handle userId (db w) = Some (i, u) ->
  handle target (db w) = Some (j, t) ->
  User.valid u = true ->
  User.valid t = true ->
  let w2 := tick (tick w) in
  let following := with_member target (User.following u) in
  let followers := with_member userId (User.followers t) in
  let d3 := set_users (alter_at i (User.set_following following)
                                (users (db w))) (db w) in
  let failed x := snd (console_error "Error following user:" x) in
  Routes.postFollow userId (Some target) w
  = if next_rejects w2 then (Ok 500%nat, failed (tick w2))
    else if Js.includes (User.followers t) userId
    then (Ok 200%nat, set_db d3 (tick w2))
    else if next_rejects (tick w2)
    then (Ok 500%nat, failed (set_db d3 (tick (tick w2))))
    else (Ok 200%nat,
          set_db (set_users (alter_at j (User.set_followers followers)
                                      (users d3)) d3)
                 (tick (tick w2))).
Proof.
  intros Ht Hne H0 H1 Hu Htg Hvu Hvt w2 following followers d3 failed.
  unfold Routes.postFollow, try_catch.
  assert (Js.truthy_opt (Some target) = true) as Htr
      by (apply truthy_true; exact Ht).
  rewrite Htr. change (default EmptyString (Some target)) with target.
  cbn [negb].
  apply String.eqb_neq in Hne. rewrite Hne.
  unfold bind at 1. rewrite findHandle_eq, H0, Hu.
  unfold bind at 1. rewrite findHandle_eq, H1, db_tick, Htg.
  fold w2.
  assert (alter_at i (if Js.includes (User.following u) target then id
                      else User.set_following (User.following u ++ [target]))
                   (users (db w))
          = alter_at i (User.set_following following) (users (db w)))
    as Hpatch.
  { unfold following, with_member.
    destruct (Js.includes (User.following u) target); [|reflexivity].
    rewrite alter_at_id. symmetry.
    apply (alter_at_fetched _ _ _ _ _ Hu). destruct u; reflexivity. }
  unfold bind. rewrite user_save_eq.
  replace (User.valid _) with true
    by (destruct (Js.includes (User.following u) target); symmetry;
        exact Hvu).
  cbn [negb]. destruct (next_rejects w2) eqn:H2; [reflexivity|].
  unfold w2 at 1 2. rewrite !db_tick. fold w2. rewrite Hpatch. fold d3.
  destruct (Js.includes (User.followers t) userId) eqn:Hin; cbn [negb].
  - reflexivity.
  - rewrite user_save_eq.
    replace (User.valid _) with true by (symmetry; exact Hvt).
    cbn [negb]. rewrite next_rejects_set_db, tick_set_db.
    destruct (next_rejects (tick w2)); [reflexivity|].
    unfold followers, with_member. rewrite Hin. reflexivity.
Qed.

Lemma healthy_steps (w : World) :
  healthy w = true ->
  next_rejects w = false /\ next_rejects (tick w) = false
  /\ next_rejects (tick (tick w)) = false
  /\ next_rejects (tick (tick (tick w))) = false
  /\ healthy (tick (tick (tick (tick w)))) = true.
Proof.
  intros H.
  pose proof (healthy_tick _ H) as H1.
  pose proof (healthy_tick _ H1) as H2.
  pose proof (healthy_tick _ H2) as H3.
  pose proof (healthy_tick _ H3) as H4.
  repeat split; try apply healthy_next; assumption.
Qed.

Lemma handle_alter_at (id : string) (d : DB) (k : nat)
      (f : User.t -> User.t) :
  (forall x, User.userId (f x) = User.userId x) ->
  handle id (set_users (alter_at k f (users d)) d)
  = match handle id d with
    | Some (i, x) => Some (i, if (i =? k)%nat then f x else x)
    | None => None
    end.
Proof.
  intros Hf. unfold handle. simpl. apply find_first_alter_at.
  intros x. rewrite Hf. reflexivity.
Qed.

Lemma set_users_same (d : DB) : set_users (users d) d = d.
Proof. destruct d; reflexivity. Qed.

Lemma set_following_same (u : User.t) :
  User.set_following (User.following u) u = u.
Proof. destruct u; reflexivity. Qed.

Lemma set_followers_same (u : User.t) :
  User.set_followers (User.followers u) u = u.
Proof. destruct u; reflexivity. Qed.

Lemma with_member_same (x : string) (l : list string) :
  Js.includes l x = true -> with_member x l = l.
Proof. intros H. unfold with_member. rewrite H. reflexivity. Qed.

(** Following a user that is followed already. *)
Lemma postFollow_linked (w : World) (userId target : string) (i j : nat)
      (u t : User.t) :
  healthy w = true ->
  target <> EmptyString ->
  userId <> target ->
  handle userId (db w) = Some (i, u) ->
  handle target (db w) = Some (j, t) ->
  User.valid u = true ->
  User.valid t = true ->
  Js.includes (User.following u) target = true ->
  Js.includes (User.followers t) userId = true ->
  fst (Routes.postFollow userId (Some target) w) = Ok 200%nat
  /\ db (exec (Routes.postFollow userId (Some target)) w) = db w.
Proof.
  intros Hh Ht Hne Hu Htg Hvu Hvt Hfu Hft.
  destruct (healthy_steps w Hh) as (H0 & H1 & H2 & H3 & H4).
  unfold exec.
  rewrite (postFollow_steps w userId target i j u t); try assumption.
  cbv zeta. rewrite H2, Hft. split; [reflexivity|].
  simpl. rewrite (with_member_same _ _ Hfu).
  rewrite (alter_at_fetched _ _ _ _ _ Hu (set_following_same u)).
  apply set_users_same.
Qed.

(** X9.  When no storage call rejects, [POST /api/users/:userId/follow]
    for two different stored users answers 200; afterwards the user's
    [following] holds the target and the target's [followers] holds the
    user, each list grown by that one entry at its end unless it was
    there already; the two documents are otherwise as before, and so are
    all other users, the notifications and the events.  A second
    identical request answers 200 and changes nothing. *)
Theorem follow_links_both_users (w : World) (userId target : string)
        (i j : nat) (u t : User.t) :
  healthy w = true ->
  target <> EmptyString ->
  userId <> target ->
  handle userId (db w) = Some (i, u) ->
  handle target (db w) = Some (j, t) ->
  User.valid u = true ->
  User.valid t = true ->
  exists w',
    Routes.postFollow userId (Some target) w = (Ok 200%nat, w')
    /\ handle userId (db w')
       = Some (i, User.set_following
                    (with_member target (User.following u)) u)
    /\ handle target (db w')
       = Some (j, User.set_followers
                    (with_member userId (User.followers t)) t)
    /\ (forall k, k <> i -> k <> j ->
                  nth_error (users (db w')) k = nth_error (users (db w)) k)
    /\ notifications (db w') = notifications (db w)
    /\ events (db w') = events (db w)
    /\ fst (Routes.postFollow userId (Some target) w') = Ok 200%nat
    /\ db (exec (Routes.postFollow userId (Some target)) w') = db w'.
Proof.
  intros Hh Ht Hne Hu Htg Hvu Hvt.
  destruct (healthy_steps w Hh) as (H0 & H1 & H2 & H3 & H4).
  pose proof (handle_distinct _ _ _ _ _ _ _ Hu Htg Hne) as Hij.
  set (fu := User.set_following (with_member target (User.following u))).
  set (ft := User.set_followers (with_member userId (User.followers t))).
  set (d3 := set_users (alter_at i fu (users (db w))) (db w)).
  set (d4 := set_users (alter_at j ft (users d3)) d3).
  assert (handle userId d3 = Some (i, fu u)) as Hu3.
  { unfold d3. rewrite handle_alter_at, Hu, Nat.eqb_refl; reflexivity. }
  assert (handle target d3 = Some (j, t)) as Ht3.
  { unfold d3. rewrite handle_alter_at, Htg; [|reflexivity].
    apply Nat.eqb_neq in Hij. rewrite Nat.eqb_sym, Hij. reflexivity. }
  assert (handle userId d4 = Some (i, fu u)) as Hu4.
  { unfold d4. rewrite handle_alter_at, Hu3; [|reflexivity].
    apply Nat.eqb_neq in Hij. rewrite Hij. reflexivity. }
  assert (handle target d4 = Some (j, ft t)) as Ht4.
  { unfold d4. rewrite handle_alter_at, Ht3, Nat.eqb_refl; reflexivity. }
  assert (forall w', healthy w' = true ->
                     handle userId (db w') = Some (i, fu u) ->
                     handle target (db w') = Some (j, ft t) ->
                     fst (Routes.postFollow userId (Some target) w')
                     = Ok 200%nat
                     /\ db (exec (Routes.postFollow userId (Some target)) w')
                        = db w') as Hagain.
  { intros w' Hh' Hu' Ht'.
    apply (postFollow_linked w' userId target i j (fu u) (ft t));
      try assumption.
    - apply (with_member_In target (User.following u)).
    - apply (with_member_In userId (User.followers t)). }
  rewrite (postFollow_steps w userId target i j u t); try assumption.
  cbv zeta. rewrite H2, H3. fold fu ft d3 d4.
  destruct (Js.includes (User.followers t) userId) eqn:Hin.
  - assert (ft t = t) as Hft.
    { unfold ft. rewrite (with_member_same _ _ Hin).
      apply set_followers_same. }
    eexists. split; [reflexivity|]. cbn [db set_db].
    split; [exact Hu3|]. split; [rewrite Hft; exact Ht3|].
    split; [intros k Hki _; apply nth_error_alter_at_other; exact Hki|].
    split; [reflexivity|]. split; [reflexivity|].
    apply Hagain; cbn [db set_db]; [|exact Hu3 | rewrite Hft; exact Ht3].
    rewrite healthy_set_db. apply healthy_tick, healthy_tick, healthy_tick.
    exact Hh.
  - eexists. split; [reflexivity|]. cbn [db set_db].
    split; [exact Hu4|]. split; [exact Ht4|].
    split.
    { intros k Hki Hkj. unfold d4, d3. simpl.
      rewrite !nth_error_alter_at_other; auto. }
    split; [reflexivity|]. split; [reflexivity|].
    apply Hagain; cbn [db set_db]; [|exact Hu4 | exact Ht4].
    rewrite healthy_set_db. exact H4.
Qed.

(** X10.  The two writes of a follow request are not one transaction:
    when the save of the user's [following] resolves and the save of the
    target's [followers] rejects, the request answers 500 while the
    user's [following] already holds the target and the target's
    [followers] still lacks the user. *)
Theorem follow_can_stop_halfway (w : World) (userId target : string)
        (i j : nat) (u t : User.t) :
  next_rejects w = false ->
  next_rejects (tick w) = false ->
  next_rejects (tick (tick w)) = false ->
  next_rejects (tick (tick (tick w))) = true ->
  target <> EmptyString ->
  userId <> target ->
  handle userId (db w) = Some (i, u) ->
  handle target (db w) = Some (j, t) ->
  User.valid u = true ->
  User.valid t = true ->
  ~ In userId (User.followers t) ->
  exists w' u',
    Routes.postFollow userId (Some target) w = (Ok 500%nat, w')
    /\ handle userId (db w') = Some (i, u')
    /\ In target (User.following u')
    /\ handle target (db w') = Some (j, t)
    /\ console w' = console w ++ [(LError, "Error following user:")].
Proof.
  intros H0 H1 H2 H3 Ht Hne Hu Htg Hvu Hvt Hnot.
  pose proof (handle_distinct _ _ _ _ _ _ _ Hu Htg Hne) as Hij.
  rewrite (postFollow_steps w userId target i j u t); try assumption.
  cbv zeta. rewrite H2, H3.
  destruct (Js.includes (User.followers t) userId) eqn:Hin;
    [apply includes_In in Hin; contradiction|].
  eexists. eexists. split; [reflexivity|]. cbn [db set_db snd console_error].
  split.
  { rewrite handle_alter_at, Hu, Nat.eqb_refl; reflexivity. }
  split; [apply (with_member_In target (User.following u))|].
  split.
  { rewrite handle_alter_at, Htg; [|reflexivity].
    apply Nat.eqb_neq in Hij. rewrite Nat.eqb_sym, Hij. reflexivity. }
  simpl. rewrite !console_tick. reflexivity.
Qed.

Lemma deleteFollow_steps (w : World) (userId target : string) (i j : nat)
      (u t : User.t) :
  target <> EmptyString ->
  next_rejects w = false ->
  next_rejects (tick w) = false ->
  handle userId (db w) = Some (i, u) ->
  handle target (db w) = Some (j, t) ->
  User.valid u = true ->
  User.valid t = true ->
  let w2 := tick (tick w) in
  let d3 := set_users
              (alter_at i (User.set_following
                             (without target (User.following u)))
                        (users (db w))) (db w) in
  let failed x := snd (console_error "Error unfollowing user:" x) in
  Routes.deleteFollow userId (Some target) w
  = if next_rejects w2 then (Ok 500%nat, failed (tick w2))
    else if next_rejects (tick w2)
    then (Ok 500%nat, failed (set_db d3 (tick (tick w2))))
    else (Ok 200%nat,
          set_db (set_users
                    (alter_at j (User.set_followers
                                   (without userId (User.followers t)))
                              (users d3)) d3)
                 (tick (tick w2))).
Proof.
  intros Ht H0 H1 Hu Htg Hvu Hvt w2 d3 failed.
  unfold Routes.deleteFollow, try_catch.
  assert (Js.truthy_opt (Some target) = true) as Htr
      by (apply truthy_true; exact Ht).
  rewrite Htr. change (default EmptyString (Some target)) with target.
  cbn [negb].
  unfold bind at 1. rewrite findHandle_eq, H0, Hu.
  unfold bind at 1. rewrite findHandle_eq, H1, db_tick, Htg.
  fold w2. unfold bind. rewrite user_save_eq.
  replace (User.valid _) with true by (symmetry; exact Hvu).
  cbn [negb]. destruct (next_rejects w2) eqn:H2; [reflexivity|].
  unfold w2 at 1 2. rewrite !db_tick. fold w2.
  fold (without target (User.following u)). fold d3.
  rewrite user_save_eq.
  replace (User.valid _) with true by (symmetry; exact Hvt).
  cbn [negb]. rewrite next_rejects_set_db, tick_set_db.
  destruct (next_rejects (tick w2)); reflexivity.
Qed.

Lemma alter_at_comm {A} (f g : A -> A) (l : list A) :
  forall i j, i <> j ->
              alter_at i f (alter_at j g l) = alter_at j g (alter_at i f l).
Proof.
  induction l as [|y l IH]; intros i j Hij; [destruct i, j; reflexivity|].
  destruct i as [|i], j as [|j]; simpl; try reflexivity; try congruence.
  rewrite IH; [reflexivity | congruence].
Qed.

Lemma alter_at_compose {A} (f g : A -> A) (l : list A) :
  forall i, alter_at i f (alter_at i g l) = alter_at i (fun x => f (g x)) l.
Proof.
  induction l as [|y l IH]; intros [|i]; simpl; try reflexivity.
  rewrite IH. reflexivity.
Qed.

Lemma alter_at_length {A} (f : A -> A) (l : list A) :
  forall i, List.length (alter_at i f l) = List.length l.
Proof.
  induction l as [|y l IH]; intros [|i]; simpl; try reflexivity.
  rewrite IH. reflexivity.
Qed.

(** X11.  When no storage call rejects,
    [DELETE /api/users/:userId/follow] for two stored users answers 200,
    whether or not the user followed the target and also when the two
    are the same user; afterwards the user's [following] is the old list
    without the target and the target's [followers] the old list without
    the user, so neither holds the other any more; no user, notification
    or event is added or removed. *)
Theorem unfollow_removes_link (w : World) (userId target : string)
        (i j : nat) (u t : User.t) :
  healthy w = true ->
  target <> EmptyString ->
  handle userId (db w) = Some (i, u) ->
  handle target (db w) = Some (j, t) ->
  User.valid u = true ->
  User.valid t = true ->
  exists w' u' t',
    Routes.deleteFollow userId (Some target) w = (Ok 200%nat, w')
    /\ handle userId (db w') = Some (i, u')
    /\ User.following u' = without target (User.following u)
    /\ ~ In target (User.following u')
    /\ handle target (db w') = Some (j, t')
    /\ User.followers t' = without userId (User.followers t)
    /\ ~ In userId (User.followers t')
    /\ List.length (users (db w')) = List.length (users (db w))
    /\ notifications (db w') = notifications (db w)
    /\ events (db w') = events (db w).
Proof.
  intros Hh Ht Hu Htg Hvu Hvt.
  destruct (healthy_steps w Hh) as (H0 & H1 & H2 & H3 & H4).
  rewrite (deleteFollow_steps w userId target i j u t); try assumption.
  cbv zeta. rewrite H2, H3.
  set (f := User.set_following (without target (User.following u))).
  set (g := User.set_followers (without userId (User.followers t))).
  eexists. exists (if (i =? j)%nat then g (f u) else f u).
  exists (g (if (j =? i)%nat then f t else t)).
  split; [reflexivity|]. cbn [db set_db].
  split.
  { rewrite !handle_alter_at, Hu, Nat.eqb_refl; reflexivity. }
  assert (User.following (if (i =? j)%nat then g (f u) else f u)
          = without target (User.following u)) as Hfo
      by (destruct (i =? j)%nat; reflexivity).
  split; [exact Hfo|]. split; [rewrite Hfo; apply without_not_In|].
  split.
  { rewrite !handle_alter_at, Htg, Nat.eqb_refl; reflexivity. }
  split; [reflexivity|]. split; [apply without_not_In|].
  split; [simpl; rewrite !alter_at_length; reflexivity|].
  split; reflexivity.
Qed.

(** X12.  When no storage call rejects and the user did not follow the
    target before, a follow request followed by the unfollow request
    answers 200 twice and leaves the database as it was. *)
Theorem unfollow_undoes_follow (w : World) (userId target : string)
        (i j : nat) (u t : User.t) :
  healthy w = true ->
  target <> EmptyString ->
  userId <> target ->
  handle userId (db w) = Some (i, u) ->
  handle target (db w) = Some (j, t) ->
  User.valid u = true ->
  User.valid t = true ->
  ~ In target (User.following u) ->
  ~ In userId (User.followers t) ->
  exists w1 w2,
    Routes.postFollow userId (Some target) w = (Ok 200%nat, w1)
    /\ Routes.deleteFollow userId (Some target) w1 = (Ok 200%nat, w2)
    /\ db w1 <> db w
    /\ db w2 = db w.
Proof.
  intros Hh Ht Hne Hu Htg Hvu Hvt Hnu Hnt.
  destruct (healthy_steps w Hh) as (H0 & H1 & H2 & H3 & H4).
  pose proof (handle_distinct _ _ _ _ _ _ _ Hu Htg Hne) as Hij.
  set (fu := User.set_following (with_member target (User.following u))).
  set (ft := User.set_followers (with_member userId (User.followers t))).
  set (d3 := set_users (alter_at i fu (users (db w))) (db w)).
  set (d4 := set_users (alter_at j ft (users d3)) d3).
  assert (handle userId d4 = Some (i, fu u)) as Hu4.
  { unfold d4, d3. rewrite !handle_alter_at, Hu, Nat.eqb_refl; try reflexivity.
    apply Nat.eqb_neq in Hij. rewrite Hij. reflexivity. }
  assert (handle target d4 = Some (j, ft t)) as Ht4.
  { unfold d4, d3. rewrite !handle_alter_at, Htg, Nat.eqb_refl;
      try reflexivity.
    apply Nat.eqb_neq in Hij. rewrite Nat.eqb_sym, Hij. reflexivity. }
  assert (Js.includes (User.followers t) userId = false) as Hin.
  { destruct (Js.includes (User.followers t) userId) eqn:E; [|reflexivity].
    apply includes_In in E. contradiction. }
  rewrite (postFollow_steps w userId target i j u t); try assumption.
  cbv zeta. rewrite H2, H3, Hin. fold fu ft d3 d4.
  set (w1 := set_db d4 (tick (tick (tick (tick w))))).
  assert (healthy w1 = true) as Hh1 by exact H4.
  destruct (healthy_steps w1 Hh1) as (K0 & K1 & K2 & K3 & _).
  exists w1. eexists. split; [reflexivity|].
  rewrite (deleteFollow_steps w1 userId target i j (fu u) (ft t));
    try assumption.
  cbv zeta. rewrite K2, K3. split; [reflexivity|].
  split.
  { intros Heq. apply Hnu.
    assert (handle userId (db w1) = handle userId (db w)) as Hh'
        by (rewrite Heq; reflexivity).
    change (db w1) with d4 in Hh'. rewrite Hu4, Hu in Hh'.
    injection Hh' as Hh'. rewrite <- Hh'.
    apply (with_member_In target (User.following u)). }
  cbn [db set_db]. change (db w1) with d4.
  unfold d4, d3. cbn [users set_users].
  change (User.following (fu u))
    with (with_member target (User.following u)).
  change (User.followers (ft t))
    with (with_member userId (User.followers t)).
  rewrite (without_with_member _ _ Hnu), (without_with_member _ _ Hnt).
  rewrite (alter_at_comm _ ft _ i j Hij).
  rewrite !alter_at_compose.
  unfold handle in Hu, Htg.
  rewrite (alter_at_fetched _ _ _ _ _ Hu); [|destruct u; reflexivity].
  rewrite (alter_at_fetched _ _ _ _ _ Htg); [|destruct t; reflexivity].
  destruct (db w); reflexivity.
Qed.

(** ** Processing when the storage is healthy *)

Lemma processEvent_healthy (event : Event.t) (w : World) (src : User.t) :
  healthy w = true ->
  List.find (fun u => String.eqb (User.userId u) (Event.sourceUserId event))
            (users (db w)) = Some src ->
  exists added w',
    Processor.processEvent event w = (Ok (Some added), w')
    /\ healthy w' = true
    /\ users (db w') = users (db w)
    /\ notifications (db w') = notifications (db w) ++ added
    /\ Forall (fun n => Notification.relatedEventId n
                        = Some (Event.eventId event)) added
    /\ events (db w')
       = update_first
           (fun e => String.eqb (Event.eventId e) (Event.eventId event))
           (Event.mark_processed (Processor.generated added))
           (events (db w)).
Proof.
  intros Hh Hsrc. rewrite processEvent_run, (healthy_next w Hh), Hsrc.
  destruct (reads_only_getNotificationRecipients event src (tick w))
    as [Hdb2 Hh2].
  destruct (Hh2 (healthy_tick w Hh)) as [Hh2' [rs Hrs]].
  destruct (Processor.getNotificationRecipients event src (tick w))
    as [r w2]; simpl in Hdb2, Hh2', Hrs. subst r. rewrite db_tick in Hdb2.
  destruct (notifyRecipients_frame event src rs [] w2)
    as (added & w3 & Hrun & Hu & He & Hn & Hw & Hh3).
  simpl in Hrun. rewrite Hrun.
  specialize (Hh3 Hh2'). rewrite (healthy_next w3 Hh3).
  exists added. eexists. split; [reflexivity|].
  split; [rewrite healthy_set_db; apply healthy_tick; exact Hh3|].
  cbn [db set_db set_events users notifications events].
  split; [congruence|]. split; [congruence|].
  split; [|congruence].
  eapply List.Forall_impl; [|exact Hw].
  intros n (r & _ & _ & Hrel & _). exact Hrel.
Qed.

Lemma processEvent_unknown_source (event : Event.t) (w : World) :
  healthy w = true ->
  List.find (fun u => String.eqb (User.userId u) (Event.sourceUserId event))
            (users (db w)) = None ->
  exists w',
    Processor.processEvent event w = (Ok None, w')
    /\ healthy w' = true
    /\ db w' = db w.
Proof.
  intros Hh Hsrc. rewrite processEvent_run, (healthy_next w Hh), Hsrc.
  eexists. split; [reflexivity|].
  split; [apply (healthy_tick w Hh) | apply db_tick].
Qed.

Lemma update_first_unique (id : string) (f : Event.t -> Event.t)
      (l : list Event.t) :
  List.NoDup (map Event.eventId l) ->
  update_first (fun e => String.eqb (Event.eventId e) id) f l
  = map (fun e => if String.eqb (Event.eventId e) id then f e else e) l.
Proof.
  induction l as [|x l IH]; intros Hnd; [reflexivity|].
  simpl in *. inversion Hnd as [|? ? Hx Hl]; subst.
  destruct (String.eqb_spec (Event.eventId x) id) as [Heq|Hne].
  - f_equal. rewrite <- (map_id l) at 1. apply map_ext_in.
    intros e He. destruct (String.eqb_spec (Event.eventId e) id) as [He'|];
      [|reflexivity].
    exfalso. apply Hx. rewrite Heq, <- He'. apply in_map. exact He.
  - rewrite IH; auto.
Qed.

Lemma processed_step_ids (id : string) (g : list (string * string))
      (l : list Event.t) :
  map Event.eventId
      (map (fun e => if String.eqb (Event.eventId e) id
                     then Event.mark_processed g e else e) l)
  = map Event.eventId l.
Proof.
  rewrite map_map. apply map_ext. intros e.
  destruct (String.eqb (Event.eventId e) id); reflexivity.
Qed.

(** What a run of [processEvent] over a list of stored events with
    distinct ids leaves of each stored event. *)
Lemma fold_processEvent_events (l : list Event.t) :
  forall w : World,
    healthy w = true ->
    List.NoDup (map Event.eventId (events (db w))) ->
    List.NoDup (map Event.eventId l) ->
    (forall x, In x l -> In x (events (db w))) ->
    users (db (fold_left (fun w0 e => exec (Processor.processEvent e) w0)
                         l w))
    = users (db w)
    /\ exists h,
        events (db (fold_left
                      (fun w0 e => exec (Processor.processEvent e) w0) l w))
        = map h (events (db w))
        /\ forall e,
            In e (events (db w)) ->
            Event.eventId (h e) = Event.eventId e
            /\ (~ In (Event.eventId e) (map Event.eventId l) -> h e = e)
            /\ (In (Event.eventId e) (map Event.eventId l) ->
                if source_known (db w) e
                then Event.processed (h e) = true
                else h e = e).
Proof.
  induction l as [|x l IH]; intros w Hh Hnd Hndl Hin.
  - simpl. split; [reflexivity|]. exists id.
    split; [rewrite map_id; reflexivity|].
    intros e _. split; [reflexivity|]. split; [reflexivity|]. intros [].
  - simpl. simpl in Hndl. inversion Hndl as [|? ? Hx Hl]; subst.
    assert (In x (events (db w))) as Hxin by (apply Hin; left; reflexivity).
    change (exec (Processor.processEvent x) w)
      with (snd (Processor.processEvent x w)).
    destruct (List.find (fun u => String.eqb (User.userId u)
                                             (Event.sourceUserId x))
                        (users (db w))) as [src|] eqn:Hsrc.
    + destruct (processEvent_healthy x w src Hh Hsrc)
        as (added & w1 & Hrun & Hh1 & Hu1 & _ & _ & He1).
      rewrite Hrun. cbn [snd].
      rewrite (update_first_unique _ _ _ Hnd) in He1.
      set (h1 := fun e => if String.eqb (Event.eventId e) (Event.eventId x)
                          then Event.mark_processed
                                 (Processor.generated added) e
                          else e) in He1.
      assert (forall y, In y l -> In y (events (db w1))) as Hin1.
      { intros y Hy. rewrite He1. apply in_map_iff. exists y.
        split; [|apply Hin; right; exact Hy].
        unfold h1. destruct (String.eqb_spec (Event.eventId y)
                                             (Event.eventId x)) as [E|];
          [|reflexivity].
        exfalso. apply Hx. rewrite <- E. apply in_map. exact Hy. }
      assert (List.NoDup (map Event.eventId (events (db w1)))) as Hnd1.
      { rewrite He1. unfold h1. rewrite processed_step_ids. exact Hnd. }
      destruct (IH w1 Hh1 Hnd1 Hl Hin1) as (Hu & h & He & Hh').
      split; [congruence|].
      exists (fun e => h (h1 e)). split; [rewrite He, He1, map_map; reflexivity|].
      intros e Hein.
      assert (In (h1 e) (events (db w1))) as Hein1
          by (rewrite He1; apply in_map; exact Hein).
      destruct (Hh' (h1 e) Hein1) as (Hid & Hout & Hdone).
      assert (Event.eventId (h1 e) = Event.eventId e) as Hid1
          by (unfold h1; destruct (String.eqb _ _); reflexivity).
      rewrite Hid1 in Hid, Hout, Hdone.
      split; [exact Hid|].
      destruct (String.eqb_spec (Event.eventId e) (Event.eventId x))
        as [Heq|Hne].
      * assert (e = x) as ->
            by (apply (NoDup_map_eq Event.eventId _ _ _ Hnd Hein Hxin Heq)).
        split; [intros Hno; exfalso; apply Hno; left; reflexivity|].
        intros _. unfold source_known. rewrite Hsrc.
        rewrite (Hout Hx). unfold h1. rewrite String.eqb_refl. reflexivity.
      * assert (h1 e = e) as He1e.
        { unfold h1. apply String.eqb_neq in Hne. rewrite Hne. reflexivity. }
        rewrite He1e in *.
        split.
        -- intros Hno. apply Hout. intros H. apply Hno. right. exact H.
        -- intros [H|H]; [congruence|].
           specialize (Hdone H). unfold source_known in *.
           rewrite Hu1 in Hdone. exact Hdone.
    + destruct (processEvent_unknown_source x w Hh Hsrc)
        as (w1 & Hrun & Hh1 & Hdb1).
      rewrite Hrun. cbn [snd].
      rewrite <- Hdb1 in Hnd, Hin.
      destruct (IH w1 Hh1 Hnd Hl (fun y Hy => Hin y (or_intror Hy)))
        as (Hu & h & He & Hh').
      rewrite Hdb1 in *.
      split; [exact Hu|]. exists h. split; [exact He|].
      intros e Hein. destruct (Hh' e Hein) as (Hid & Hout & Hdone).
      split; [exact Hid|].
      destruct (String.eqb_spec (Event.eventId e) (Event.eventId x))
        as [Heq|Hne].
      * assert (e = x) as ->
            by (apply (NoDup_map_eq Event.eventId _ _ _ Hnd Hein Hxin Heq)).
        split; [intros Hno; exfalso; apply Hno; left; reflexivity|].
        intros _. unfold source_known. rewrite Hsrc. apply Hout. exact Hx.
      * split.
        -- intros Hno. apply Hout. intros H. apply Hno. right. exact H.
        -- intros [H|H]; [congruence|]. apply Hdone. exact H.
Qed.

Lemma NoDup_map_filter {A B} (f : A -> B) (p : A -> bool) (l : list A) :
  List.NoDup (map f l) -> List.NoDup (map f (List.filter p l)).
Proof.
  induction l as [|x l IH]; intros Hnd; [constructor|].
  simpl in *. inversion Hnd as [|? ? Hx Hl]; subst.
  destruct (p x); simpl; [constructor|]; auto.
  intros Hin. apply Hx. apply in_map_iff in Hin as (y & Hy & Hyin).
  apply in_map_iff. exists y. split; [exact Hy|].
  apply filter_In in Hyin. tauto.
Qed.

Lemma Forall2_map_In {A} (R : A -> A -> Prop) (h : A -> A) (l : list A) :
  (forall x, In x l -> R x (h x)) -> Forall2 R l (map h l).
Proof.
  induction l as [|x l IH]; intros H; simpl; constructor.
  - apply H. left. reflexivity.
  - apply IH. intros y Hy. apply H. right. exact Hy.
Qed.

(** X13.  Let no storage call reject and let the stored events have
    distinct [eventId]s.  After [processUnprocessedEvents] the events
    are the same in number and order, event by event with the same
    [eventId]: one that was processed is untouched, an unprocessed one
    whose source user is stored is now processed, and an unprocessed one
    whose source user is not stored is untouched, so it stays
    unprocessed and the next sweep will select it again.  No user is
    changed and no notification removed. *)
Theorem sweep_processes_resolvable_events (w : World) :
  healthy w = true ->
  List.NoDup (map Event.eventId (events (db w))) ->
  users (db (exec Processor.processUnprocessedEvents w)) = users (db w)
  /\ (exists added,
         notifications (db (exec Processor.processUnprocessedEvents w))
         = notifications (db w) ++ added)
  /\ Forall2
       (fun e e' =>
          Event.eventId e' = Event.eventId e
          /\ (Event.processed e = true -> e' = e)
          /\ (Event.processed e = false ->
              if source_known (db w) e
              then Event.processed e' = true
              else e' = e))
       (events (db w))
       (events (db (exec Processor.processUnprocessedEvents w))).
Proof.
  intros Hh Hnd. rewrite sweep_db, (healthy_next w Hh).
  set (l := merge_sort Events.older
                       (List.filter Events.unprocessed (events (db w)))).
  assert (Permutation l (List.filter Events.unprocessed (events (db w))))
    as Hperm by apply merge_sort_Permutation.
  destruct (processEach_frame l (tick w)) as (Hu & _ & added & Hn & _).
  rewrite db_tick in Hu, Hn.
  split; [exact Hu|]. split; [exists added; exact Hn|].
  unfold exec. rewrite (processEach_healthy l _ (healthy_tick w Hh)).
  cbn [snd].
  assert (forall x, In x l <->
                    In x (events (db w)) /\ Event.processed x = false)
    as Hl.
  { intros x. split.
    - intros Hx. apply (Permutation_in _ Hperm) in Hx.
      apply filter_In in Hx as [Hx Hp]. split; [exact Hx|].
      unfold Events.unprocessed in Hp. apply negb_true_iff. exact Hp.
    - intros [Hx Hp]. apply (Permutation_in _ (Permutation_sym Hperm)).
      apply filter_In. split; [exact Hx|].
      unfold Events.unprocessed. rewrite Hp. reflexivity. }
  destruct (fold_processEvent_events l (tick w)) as (_ & h & He & Hh').
  - apply healthy_tick. exact Hh.
  - rewrite db_tick. exact Hnd.
  - apply (Permutation_NoDup
             (Permutation_sym (Permutation_map Event.eventId Hperm))).
    apply NoDup_map_filter. exact Hnd.
  - intros x Hx. rewrite db_tick. apply Hl. exact Hx.
  - rewrite db_tick in He, Hh'. rewrite He.
    apply Forall2_map_In. intros e Hein.
    destruct (Hh' e Hein) as (Hid & Hout & Hdone).
    split; [exact Hid|]. split.
    + intros Hp. apply Hout. intros Hin.
      apply in_map_iff in Hin as (y & Hy & Hyin).
      apply Hl in Hyin as [Hyin Hyp].
      assert (y = e) as ->
          by (apply (NoDup_map_eq Event.eventId _ _ _ Hnd Hyin Hein Hy)).
      congruence.
    + intros Hp.
      assert (In (Event.eventId e) (map Event.eventId l)) as Hin
          by (apply in_map; apply Hl; auto).
      specialize (Hdone Hin). unfold source_known in *.
      rewrite ?db_tick in Hdone. exact Hdone.
Qed.

(** ** Posting an event *)

Lemma event_insert_eq (e : Event.t) (w : World) :
  Events.insert e w
  = if negb (Events.valid e) then (Throw ValidationError, w)
    else if next_rejects w then (Throw StorageError, tick w)
    else if Events.clashes e (events (db w))
    then (Throw DuplicateKeyError, tick w)
    else (Ok tt, set_db (set_events (events (db w) ++ [e]) (db w)) (tick w)).
Proof.
  unfold Events.insert. destruct (negb (Events.valid e)); [reflexivity|].
  unfold bind. rewrite await_storage_eq.
  destruct (next_rejects w); [reflexivity|].
  unfold get_db, put_db, throw. rewrite db_tick.
  destruct (Events.clashes e (events (db w))); reflexivity.
Qed.

Lemma postEvent_eq (ty s : string) (tgt : option string)
      (data : Routes.EventBody) (w : World) :
  Js.includes Event.type_enum ty = true ->
  s <> EmptyString ->
  Routes.postEvent (Some ty) (Some s) tgt data w
  = let event := posted_event (rng w (drawn w)) ty s tgt data (clock w) in
    match Events.insert event (drew w) with
    | (Throw _, w1) =>
        (Ok 500%nat, snd (console_error "Error creating event:" w1))
    | (Ok _, w1) =>
        (Ok 201%nat,
         match Processor.processEvent event w1 with
         | (Ok _, w2) => w2
         | (Throw _, w2) => snd (console_error "Error processing event" w2)
         end)
    end.
Proof.
  intros Hty Hs. unfold Routes.postEvent, try_catch.
  assert (ty <> EmptyString) as Hty'
      by (intros ->; vm_compute in Hty; discriminate).
  assert (Js.truthy_opt (Some ty) = true) as H1
      by (apply truthy_true; exact Hty').
  assert (Js.truthy_opt (Some s) = true) as H2
      by (apply truthy_true; exact Hs).
  rewrite H1, H2.
  change (default EmptyString (Some ty)) with ty.
  change (default EmptyString (Some s)) with s.
  rewrite Hty. cbn [negb orb]. cbv zeta.
  unfold bind at 1. unfold uuidv4 at 1. unfold bind at 1.
  unfold Date_now at 1. cbn [clock].
  fold (posted_event (rng w (drawn w)) ty s tgt data (clock w)).
  unfold bind at 1. unfold bind at 1.
  change {| db := db w; clock := clock w; rng := rng w;
            drawn := S (drawn w); pending := pending w;
            console := console w;
            env_FRONTEND_URL := env_FRONTEND_URL w; lag := lag w |}
    with (drew w).
  cbv zeta.
  destruct (Events.insert _ (drew w)) as [[[]|e] w1]; [|reflexivity].
  unfold bind, try_catch, ret.
  destruct (Processor.processEvent _ w1) as [[o|e] w2]; reflexivity.
Qed.

Lemma update_first_ids (p : Event.t -> bool) (g : list (string * string))
      (l : list Event.t) :
  map Event.eventId (update_first p (Event.mark_processed g) l)
  = map Event.eventId l.
Proof.
  induction l as [|x l IH]; simpl; [reflexivity|].
  destruct (p x); simpl; [reflexivity|]. rewrite IH. reflexivity.
Qed.

Lemma update_first_app_fresh {A} (p : A -> bool) (f : A -> A) (l : list A)
      (x : A) :
  (forall y, In y l -> p y = false) -> p x = true ->
  update_first p f (l ++ [x]) = l ++ [f x].
Proof.
  intros Hl Hx. induction l as [|y l IH]; simpl.
  - rewrite Hx. reflexivity.
  - rewrite (Hl y (or_introl eq_refl)). rewrite IH; [reflexivity|].
    intros z Hz. apply Hl. right. exact Hz.
Qed.

Lemma clashes_false (e : Event.t) (l : list Event.t) :
  Events.clashes e l = false
  <-> forall x, In x l -> Event.eventId x <> Event.eventId e.
Proof.
  unfold Events.clashes. split.
  - intros H x Hx Heq.
    assert (existsb (fun y => String.eqb (Event.eventId y) (Event.eventId e))
                    l = true) as Ht.
    { apply existsb_exists. exists x. split; [exact Hx|].
      apply String.eqb_eq. exact Heq. }
    congruence.
  - intros H. destruct (existsb _ l) eqn:E; [|reflexivity].
    apply existsb_exists in E as (x & Hx & Heq).
    apply String.eqb_eq in Heq. destruct (H x Hx Heq).
Qed.

(** X14.  [POST /api/events] answers 400, touching nothing and drawing
    no uuid, when [type] or [sourceUserId] is missing or empty or [type]
    is none of the six.  Otherwise it answers 201 exactly when the event
    was saved, that is when the drawn uuid is non-empty and carried by
    no stored event and the storage call of the save resolved, and 500
    otherwise.  On 500 the database is unchanged; on 201 the stored
    [eventId]s are the old ones followed by the uuid, whatever happened
    while the event was processed.  No user is changed. *)
Theorem post_event_answers (type sourceUserId targetUserId : option string)
        (data : Routes.EventBody) (w : World) :
  (Js.truthy_opt type = false \/ Js.truthy_opt sourceUserId = false
   \/ Js.includes Event.type_enum (default EmptyString type) = false ->
   Routes.postEvent type sourceUserId targetUserId data w = (Ok 400%nat, w))
  /\ (Js.truthy_opt type = true -> Js.truthy_opt sourceUserId = true ->
      Js.includes Event.type_enum (default EmptyString type) = true ->
      let id := rng w (drawn w) in
      let saved :=
        Js.truthy id && negb (next_rejects w)
        && negb (existsb (fun e => String.eqb (Event.eventId e) id)
                         (events (db w))) in
      exists w',
        Routes.postEvent type sourceUserId targetUserId data w
        = (Ok (if saved then 201%nat else 500%nat), w')
        /\ users (db w') = users (db w)
        /\ map Event.eventId (events (db w'))
           = map Event.eventId (events (db w))
             ++ (if saved then [id] else [])
        /\ (saved = false -> db w' = db w)).
Proof.
  split.
  - intros H. unfold Routes.postEvent, try_catch.
    destruct (Js.truthy_opt type) eqn:H1; [|reflexivity].
    destruct (Js.truthy_opt sourceUserId) eqn:H2; [|reflexivity].
    cbn [negb orb].
    destruct (Js.includes Event.type_enum (default EmptyString type)) eqn:H3;
      [|reflexivity].
    destruct H as [H|[H|H]]; discriminate.
  - intros H1 H2 H3 id saved.
    destruct type as [ty|]; [|discriminate].
    destruct sourceUserId as [s|]; [|discriminate].
    change (default EmptyString (Some ty)) with ty in H3.
    apply truthy_true in H2.
    rewrite (postEvent_eq ty s targetUserId data w H3 H2). cbv zeta.
    rewrite event_insert_eq. fold id.
    assert (Events.valid (posted_event id ty s targetUserId data (clock w))
            = Js.truthy id) as Hvalid.
    { unfold Events.valid. cbn [Event.eventId Event.type Event.sourceUserId
                                posted_event].
      rewrite H3. apply truthy_true in H2. rewrite H2.
      assert (Js.truthy ty = true) as ->
          by (apply truthy_true; intros ->; vm_compute in H3; discriminate).
      rewrite !andb_true_r. reflexivity. }
    rewrite Hvalid.
    change (next_rejects (drew w)) with (next_rejects w).
    change (db (drew w)) with (db w).
    change (Events.clashes (posted_event id ty s targetUserId data (clock w))
                           (events (db w)))
      with (existsb (fun e => String.eqb (Event.eventId e) id)
                    (events (db w))).
    unfold saved.
    destruct (Js.truthy id); cbn [negb andb].
    2:{ eexists. split; [reflexivity|]. rewrite app_nil_r.
        repeat split; intros; reflexivity. }
    destruct (next_rejects w); cbn [negb andb].
    { eexists. split; [reflexivity|]. rewrite app_nil_r.
      cbn [db snd console_error]. rewrite db_tick.
      repeat split; intros; reflexivity. }
    destruct (existsb _ (events (db w))); cbn [negb].
    { eexists. split; [reflexivity|]. rewrite app_nil_r.
      cbn [db snd console_error]. rewrite db_tick.
      repeat split; intros; reflexivity. }
    eexists. split; [reflexivity|].
    set (e0 := posted_event id ty s targetUserId data (clock w)).
    set (w1 := set_db _ (tick (drew w))).
    destruct (processEvent_frame e0 w1) as (Hu & _ & added & _ & _ & He & _).
    unfold exec in Hu, He.
    assert (users (db w1) = users (db w)) as Hu1
        by (unfold w1; simpl; rewrite ?db_tick; reflexivity).
    assert (map Event.eventId (events (db w1))
            = map Event.eventId (events (db w)) ++ [id]) as He1.
    { unfold w1. simpl. rewrite ?db_tick. simpl. rewrite map_app.
      reflexivity. }
    destruct (Processor.processEvent e0 w1) as [[o|err] w2];
      cbn [snd] in Hu, He; cbn [db snd console_error].
    + split; [congruence|]. split; [|discriminate].
      destruct He as [->| ->]; rewrite ?update_first_ids; exact He1.
    + split; [congruence|]. split; [|discriminate].
      destruct He as [->| ->]; rewrite ?update_first_ids; exact He1.
Qed.

(** X15.  When no storage call rejects, [POST /api/events] with a known
    type, a non-empty [sourceUserId] and a fresh non-empty uuid answers
    201 and appends one event, carrying the uuid, the request's fields
    and the time of the request.  That event is stored processed, with
    the (notificationId, userId) pairs of the notifications written for
    it, exactly when its source user is stored; otherwise it is stored
    unprocessed and no notification is written. *)
Theorem posted_event_processed_iff_source_known
        (ty s : string) (targetUserId : option string)
        (data : Routes.EventBody) (w : World) :
  healthy w = true ->
  Js.includes Event.type_enum ty = true ->
  s <> EmptyString ->
  rng w (drawn w) <> EmptyString ->
  (forall e, In e (events (db w)) -> Event.eventId e <> rng w (drawn w)) ->
  let event :=
    posted_event (rng w (drawn w)) ty s targetUserId data (clock w) in
  exists w' added,
    Routes.postEvent (Some ty) (Some s) targetUserId data w
    = (Ok 201%nat, w')
    /\ users (db w') = users (db w)
    /\ notifications (db w') = notifications (db w) ++ added
    /\ Forall (fun n => Notification.relatedEventId n
                        = Some (rng w (drawn w))) added
    /\ events (db w')
       = events (db w)
         ++ [if source_known (db w) event
             then Event.mark_processed (Processor.generated added) event
             else event]
    /\ (source_known (db w) event = false -> added = []).
Proof.
  intros Hh Hty Hs Hid Hfresh event.
  rewrite (postEvent_eq ty s targetUserId data w Hty Hs). cbv zeta.
  fold event. rewrite event_insert_eq.
  assert (Events.valid event = true) as Hvalid.
  { unfold Events.valid, event.
    cbn [Event.eventId Event.type Event.sourceUserId posted_event].
    rewrite Hty. apply truthy_true in Hid, Hs. rewrite Hid, Hs.
    assert (Js.truthy ty = true) as ->
        by (apply truthy_true; intros ->; vm_compute in Hty; discriminate).
    reflexivity. }
  rewrite Hvalid. cbn [negb].
  change (next_rejects (drew w)) with (next_rejects w).
  change (db (drew w)) with (db w).
  rewrite (healthy_next w Hh).
  assert (Events.clashes event (events (db w)) = false) as Hclash
      by (apply clashes_false; exact Hfresh).
  rewrite Hclash.
  set (w1 := set_db _ (tick (drew w))).
  assert (healthy w1 = true) as Hh1.
  { unfold w1. rewrite healthy_set_db.
    apply (healthy_tick (drew w)). exact Hh. }
  assert (db w1 = set_events (events (db w) ++ [event]) (db w)) as Hdb1.
  { unfold w1. simpl. rewrite ?db_tick. reflexivity. }
  unfold source_known.
  change (Event.sourceUserId event) with s.
  destruct (List.find (fun u => String.eqb (User.userId u) s) (users (db w)))
    as [src|] eqn:Hsrc.
  - destruct (processEvent_healthy event w1 src Hh1)
      as (added & w2 & Hrun & _ & Hu & Hn & Hrel & He).
    { rewrite Hdb1. exact Hsrc. }
    rewrite Hrun. exists w2, added. split; [reflexivity|].
    rewrite Hdb1 in Hu, Hn, He. cbn [users notifications events set_events]
      in Hu, Hn, He.
    split; [exact Hu|]. split; [exact Hn|]. split; [exact Hrel|].
    split; [|discriminate].
    rewrite He. apply update_first_app_fresh.
    + intros y Hy. apply String.eqb_neq. apply Hfresh. exact Hy.
    + apply String.eqb_refl.
  - destruct (processEvent_unknown_source event w1 Hh1)
      as (w2 & Hrun & _ & Hdb2).
    { rewrite Hdb1. exact Hsrc. }
    rewrite Hrun. exists w2, []. split; [reflexivity|].
    rewrite Hdb2, Hdb1. cbn [users notifications events set_events].
    rewrite app_nil_r. repeat split; constructor.
Qed.

(** ** The unique indexes *)

Lemma NoDup_snoc {A} (l : list A) (x : A) :
  List.NoDup l -> ~ In x l -> List.NoDup (l ++ [x]).
Proof.
  intros Hl Hx. apply List.NoDup_app; [exact Hl | |].
  - constructor; [intros []|constructor].
  - intros a Ha [<-|[]]. contradiction.
Qed.

Lemma NoDup_insert_ordered {A B} (f : A -> B) (clash : A -> list A -> bool)
      (docs : list A) :
  (forall x l, clash x l = false -> ~ In (f x) (map f l)) ->
  forall coll,
    List.NoDup (map f coll) ->
    List.NoDup (map f (fst (insert_ordered clash docs coll))).
Proof.
  intros Hclash. induction docs as [|x docs IH]; intros coll Hnd; simpl;
    [assumption|].
  destruct (clash x coll) eqn:E; simpl; [assumption|].
  apply IH. rewrite map_app. simpl. apply NoDup_snoc; auto.
Qed.

Lemma existsb_false_map {A} (f : A -> string) (x : string) (l : list A) :
  existsb (fun y => String.eqb (f y) x) l = false -> ~ In x (map f l).
Proof.
  intros H Hin. apply in_map_iff in Hin as (y & Hy & Hyin).
  assert (existsb (fun y => String.eqb (f y) x) l = true) as Ht.
  { apply existsb_exists. exists y. split; [exact Hyin|].
    apply String.eqb_eq. exact Hy. }
  congruence.
Qed.

Lemma user_clashes_false (u : User.t) (l : list User.t) :
  Users.clashes u l = false ->
  ~ In (User.userId u) (map User.userId l)
  /\ ~ In (User.email u) (map User.email l).
Proof.
  unfold Users.clashes. intros H. split.
  - apply existsb_false_map. apply not_true_is_false. intros Ht.
    apply existsb_exists in Ht as (y & Hy & Hp).
    assert (existsb (fun v => String.eqb (User.userId v) (User.userId u)
                              || String.eqb (User.email v) (User.email u)) l
            = true) as Hc.
    { apply existsb_exists. exists y. rewrite Hp. auto. }
    congruence.
  - apply existsb_false_map. apply not_true_is_false. intros Ht.
    apply existsb_exists in Ht as (y & Hy & Hp).
    assert (existsb (fun v => String.eqb (User.userId v) (User.userId u)
                              || String.eqb (User.email v) (User.email u)) l
            = true) as Hc.
    { apply existsb_exists. exists y. rewrite Hp, orb_true_r. auto. }
    congruence.
Qed.

Lemma map_alter_at {A B} (f : A -> B) (g : A -> A) (l : list A) :
  (forall x, f (g x) = f x) ->
  forall i, map f (alter_at i g l) = map f l.
Proof.
  intros Hg. induction l as [|y l IH]; intros [|i]; simpl; try reflexivity.
  - rewrite Hg. reflexivity.
  - rewrite IH. reflexivity.
Qed.

Lemma In_take_drop {A} (l : list A) :
  forall i x, In x (take i l ++ drop (S i) l) -> In x l.
Proof.
  induction l as [|y l IH]; intros i x Hin.
  - destruct i; simpl in Hin; contradiction.
  - destruct i as [|i]; simpl in Hin.
    + right. rewrite drop_0 in Hin. exact Hin.
    + destruct Hin as [->|Hin]; [left; reflexivity|].
      right. apply (IH i). exact Hin.
Qed.

Lemma NoDup_map_take_drop {A B} (f : A -> B) (l : list A) :
  forall i,
    List.NoDup (map f l) -> List.NoDup (map f (take i l ++ drop (S i) l)).
Proof.
  induction l as [|y l IH]; intros i Hnd.
  - destruct i; simpl; constructor.
  - simpl in Hnd. inversion Hnd as [|? ? Hy Hl]; subst.
    destruct i as [|i]; simpl.
    + rewrite drop_0. exact Hl.
    + constructor; [|apply IH; exact Hl].
      intros Hin. apply Hy. apply in_map_iff in Hin as (z & Hz & Hzin).
      apply in_map_iff. exists z. split; [exact Hz|].
      apply (In_take_drop l i). exact Hzin.
Qed.

Lemma ids_users (d : DB) (l : list User.t) :
  ids_unique d ->
  List.NoDup (map User.userId l) -> List.NoDup (map User.email l) ->
  ids_unique (set_users l d).
Proof. intros (_ & _ & He & Hn) Hu Hm. repeat split; assumption. Qed.

Lemma ids_events (d : DB) (l : list Event.t) :
  ids_unique d -> List.NoDup (map Event.eventId l) ->
  ids_unique (set_events l d).
Proof. intros (Hu & Hm & _ & Hn) He. repeat split; assumption. Qed.

Lemma ids_notifications (d : DB) (l : list Notification.t) :
  ids_unique d -> List.NoDup (map Notification.notificationId l) ->
  ids_unique (set_notifications l d).
Proof. intros (Hu & Hm & He & _) Hn. repeat split; assumption. Qed.

Lemma ids_user_insert (u : User.t) : invariant ids_unique (Users.insert u).
Proof.
  intros w H. unfold Users.insert.
  destruct (negb (User.valid u)); [exact H|].
  unfold bind. rewrite await_storage_eq.
  destruct (next_rejects w); simpl; [rewrite db_tick; exact H|].
  rewrite db_tick.
  destruct (Users.clashes u (users (db w))) eqn:E; simpl;
    [rewrite db_tick; exact H|].
  apply user_clashes_false in E as [E1 E2]. destruct H as (Hu & Hm & Hrest).
  apply ids_users; [repeat split; tauto | |]; rewrite map_app;
    apply NoDup_snoc; assumption.
Qed.

Lemma ids_user_save (i : nat) (doc : User.t) (patch : User.t -> User.t) :
  (forall x, User.userId (patch x) = User.userId x
             /\ User.email (patch x) = User.email x) ->
  invariant ids_unique (Users.save i doc patch).
Proof.
  intros Hpatch w H. rewrite user_save_eq.
  destruct (negb (User.valid doc)); [exact H|].
  destruct (next_rejects w); simpl; rewrite ?db_tick; [exact H|].
  destruct H as (Hu & Hm & Hrest).
  apply ids_users; [repeat split; tauto | |];
    rewrite map_alter_at; try assumption; intros x; apply Hpatch.
Qed.

Lemma ids_user_insertMany (l : list User.t) :
  invariant ids_unique (Users.insertMany l).
Proof.
  intros w H. unfold Users.insertMany.
  destruct (negb (forallb User.valid l)); [exact H|].
  unfold bind. rewrite await_storage_eq.
  destruct (next_rejects w); simpl; [rewrite db_tick; exact H|].
  rewrite db_tick.
  assert (ids_unique
            (set_users (fst (insert_ordered Users.clashes l (users (db w))))
                       (db w))) as Hins.
  { destruct H as (Hu & Hm & Hrest).
    apply ids_users; [repeat split; tauto | |];
      apply NoDup_insert_ordered; try assumption;
      intros x c Hc; apply user_clashes_false in Hc; tauto. }
  destruct (insert_ordered Users.clashes l (users (db w))) as [coll all].
  destruct all; exact Hins.
Qed.

Lemma ids_user_deleteAll : invariant ids_unique Users.deleteAll.
Proof.
  intros w H. unfold Users.deleteAll, bind. rewrite await_storage_eq.
  destruct (next_rejects w); simpl; rewrite ?db_tick; [exact H|].
  apply ids_users; [exact H | constructor | constructor].
Qed.

Lemma ids_event_insert (e : Event.t) : invariant ids_unique (Events.insert e).
Proof.
  intros w H. rewrite event_insert_eq.
  destruct (negb (Events.valid e)); [exact H|].
  destruct (next_rejects w); simpl; [rewrite db_tick; exact H|].
  destruct (Events.clashes e (events (db w))) eqn:E; simpl;
    rewrite ?db_tick; [exact H|].
  apply ids_events; [exact H|]. rewrite map_app. apply NoDup_snoc.
  - apply H.
  - apply existsb_false_map. exact E.
Qed.

Lemma ids_event_insertMany (l : list Event.t) :
  invariant ids_unique (Events.insertMany l).
Proof.
  intros w H. unfold Events.insertMany.
  destruct (negb (forallb Events.valid l)); [exact H|].
  unfold bind. rewrite await_storage_eq.
  destruct (next_rejects w); simpl; [rewrite db_tick; exact H|].
  rewrite db_tick.
  assert (ids_unique
            (set_events (fst (insert_ordered Events.clashes l
                                             (events (db w))))
                        (db w))) as Hins.
  { apply ids_events; [exact H|].
    apply NoDup_insert_ordered; [|apply H].
    intros x c Hc. apply existsb_false_map. exact Hc. }
  destruct (insert_ordered Events.clashes l (events (db w))) as [coll all].
  destruct all; exact Hins.
Qed.

Lemma ids_event_deleteAll : invariant ids_unique Events.deleteAll.
Proof.
  intros w H. unfold Events.deleteAll, bind. rewrite await_storage_eq.
  destruct (next_rejects w); simpl; rewrite ?db_tick; [exact H|].
  apply ids_events; [exact H | constructor].
Qed.

Lemma ids_findOneAndUpdate (id : string) (gen : list (string * string)) :
  invariant ids_unique (Events.findOneAndUpdate id gen).
Proof.
  intros w H. rewrite findOneAndUpdate_eq.
  destruct (next_rejects w); simpl; rewrite ?db_tick; [exact H|].
  apply ids_events; [exact H|]. rewrite update_first_ids. apply H.
Qed.

Lemma ids_deleteEvent (id : string) :
  invariant ids_unique (Routes.deleteEvent id).
Proof.
  intros w H. unfold Routes.deleteEvent, try_catch, bind.
  rewrite await_storage_eq.
  destruct (next_rejects w); simpl; [rewrite db_tick; exact H|].
  rewrite db_tick.
  destruct (find_first _ _) as [[i e]|]; simpl; rewrite ?db_tick;
    [|exact H].
  apply ids_events; [exact H|]. apply NoDup_map_take_drop. apply H.
Qed.

Lemma ids_notification_insert (n : Notification.t) :
  invariant ids_unique (Notifications.insert n).
Proof.
  intros w H. rewrite notification_insert_eq.
  destruct (negb (Notification.valid n)); [exact H|].
  destruct (next_rejects w); simpl; [rewrite db_tick; exact H|].
  destruct (Notifications.clashes n (notifications (db w))) eqn:E; simpl;
    rewrite ?db_tick; [exact H|].
  apply ids_notifications; [exact H|]. rewrite map_app. apply NoDup_snoc.
  - apply H.
  - apply existsb_false_map. exact E.
Qed.

Lemma ids_notification_insertMany (l : list Notification.t) :
  invariant ids_unique (Notifications.insertMany l).
Proof.
  intros w H. unfold Notifications.insertMany.
  destruct (negb (forallb Notification.valid l)); [exact H|].
  unfold bind. rewrite await_storage_eq.
  destruct (next_rejects w); simpl; [rewrite db_tick; exact H|].
  rewrite db_tick.
  assert (ids_unique
            (set_notifications
               (fst (insert_ordered Notifications.clashes l
                                    (notifications (db w))))
               (db w))) as Hins.
  { apply ids_notifications; [exact H|].
    apply NoDup_insert_ordered; [|apply H].
    intros x c Hc. apply existsb_false_map. exact Hc. }
  destruct (insert_ordered Notifications.clashes l (notifications (db w)))
    as [coll all].
  destruct all; exact Hins.
Qed.

Lemma ids_notification_save (i : nat) (n : Notification.t)
      (patch : Notification.t -> Notification.t) :
  (forall x, Notification.notificationId (patch x)
             = Notification.notificationId x) ->
  invariant ids_unique (Notifications.save i n patch).
Proof.
  intros Hpatch w H. rewrite notification_save_eq.
  destruct (negb (Notification.valid n)); [exact H|].
  destruct (next_rejects w); simpl; rewrite ?db_tick; [exact H|].
  apply ids_notifications; [exact H|].
  rewrite map_alter_at; [apply H | exact Hpatch].
Qed.

Lemma ids_deleteMany (p : Notification.t -> bool) :
  invariant ids_unique (Notifications.deleteMany p).
Proof.
  intros w H. rewrite deleteMany_eq.
  destruct (next_rejects w); simpl; rewrite ?db_tick; [exact H|].
  apply ids_notifications; [exact H|]. apply NoDup_map_filter. apply H.
Qed.

Lemma ids_updateMany (p : Notification.t -> bool)
      (f : Notification.t -> Notification.t) :
  (forall x, Notification.notificationId (f x)
             = Notification.notificationId x) ->
  invariant ids_unique (Notifications.updateMany p f).
Proof.
  intros Hf w H. rewrite updateMany_eq.
  destruct (next_rejects w); simpl; rewrite ?db_tick; [exact H|].
  apply ids_notifications; [exact H|].
  unfold update_all. rewrite map_map.
  erewrite map_ext; [apply H|].
  intros x. simpl. destruct (p x); [apply Hf | reflexivity].
Qed.

Lemma ids_findByUserId (id : string) :
  invariant ids_unique (Users.findByUserId id).
Proof.
  apply invariant_same_db. intros w.
  apply (reads_only_findByUserId id w).
Qed.

Lemma ids_getNotificationRecipients (event : Event.t) (src : User.t) :
  invariant ids_unique (Processor.getNotificationRecipients event src).
Proof.
  apply invariant_same_db. intros w.
  apply (reads_only_getNotificationRecipients event src w).
Qed.

Lemma ids_getUnprocessedEvents :
  invariant ids_unique Events.getUnprocessedEvents.
Proof.
  apply invariant_same_db. intros w. rewrite getUnprocessedEvents_eq.
  apply db_tick.
Qed.

Lemma ids_get_FRONTEND_URL : invariant ids_unique get_FRONTEND_URL.
Proof. apply invariant_same_db. reflexivity. Qed.

Lemma ids_default_Date_now : invariant ids_unique default_Date_now.
Proof. apply invariant_same_db. reflexivity. Qed.

Ltac ids_step :=
  lazymatch goal with
  | |- invariant _ (bind _ _) => apply invariant_bind; [|intros ?]
  | |- invariant _ (try_catch _ _) => apply invariant_try_catch; [|intros ?]
  | |- invariant _ (ret _) => apply invariant_ret
  | |- invariant _ (throw _) => apply invariant_throw
  | |- invariant _ (console_error _) => apply invariant_console_error
  | |- invariant _ uuidv4 => apply invariant_uuidv4
  | |- invariant _ Date_now => apply invariant_Date_now
  | |- invariant _ get_FRONTEND_URL => apply ids_get_FRONTEND_URL
  | |- invariant _ default_Date_now => apply ids_default_Date_now
  | |- invariant _ await_storage => apply invariant_await_storage
  | |- invariant _ (Users.findHandle _) => apply invariant_findHandle
  | |- invariant _ (Users.findByUserId _) => apply ids_findByUserId
  | |- invariant _ (Users.findExisting _ _ _) => apply invariant_findExisting
  | |- invariant _ Users.countDocuments => apply invariant_countDocuments
  | |- invariant _ (Users.insert _) => apply ids_user_insert
  | |- invariant _ (Users.insertMany _) => apply ids_user_insertMany
  | |- invariant _ Users.deleteAll => apply ids_user_deleteAll
  | |- invariant _ (Users.save _ _ (if ?b then _ else _)) => destruct b
  | |- invariant _ (Users.save _ _ _) =>
      apply ids_user_save; intros ?; split; reflexivity
  | |- invariant _ (Notifications.findOne _) => apply invariant_findOne
  | |- invariant _ (Notifications.insert _) => apply ids_notification_insert
  | |- invariant _ (Notifications.insertMany _) =>
      apply ids_notification_insertMany
  | |- invariant _ (Notifications.deleteMany _) => apply ids_deleteMany
  | |- invariant _ (Notifications.updateMany _ _) =>
      apply ids_updateMany; intros ?; reflexivity
  | |- invariant _ (Notifications.save _ _ _) =>
      apply ids_notification_save; intros ?; reflexivity
  | |- invariant _ (Events.insert _) => apply ids_event_insert
  | |- invariant _ (Events.insertMany _) => apply ids_event_insertMany
  | |- invariant _ Events.deleteAll => apply ids_event_deleteAll
  | |- invariant _ (Events.findOneAndUpdate _ _) => apply ids_findOneAndUpdate
  | |- invariant _ Events.getUnprocessedEvents =>
      apply ids_getUnprocessedEvents
  | |- invariant _ (Routes.deleteEvent _) => apply ids_deleteEvent
  | |- invariant _ (Processor.getNotificationRecipients _ _) =>
      apply ids_getNotificationRecipients
  | |- invariant _ (if ?b then _ else _) => destruct b
  | |- invariant _ (match ?x with _ => _ end) => destruct x
  | |- invariant _ (let _ := _ in _) => cbv zeta
  end.

Lemma ids_createNotification (event : Event.t) (src tgt : User.t) :
  invariant ids_unique (Processor.createNotification event src tgt).
Proof. unfold Processor.createNotification. repeat ids_step. Qed.

Lemma ids_notifyRecipients (event : Event.t) (src : User.t)
      (rs : list User.t) :
  forall acc,
    invariant ids_unique (Processor.notifyRecipients event src rs acc).
Proof.
  induction rs as [|r rs IH]; intros acc; simpl; [apply invariant_ret|].
  apply invariant_bind; [|intros a; apply IH].
  apply invariant_try_catch; [|intros e; repeat ids_step].
  apply invariant_bind; [apply ids_createNotification|].
  intros [n|]; apply invariant_ret.
Qed.

Lemma ids_processEvent (event : Event.t) :
  invariant ids_unique (Processor.processEvent event).
Proof.
  unfold Processor.processEvent.
  apply invariant_try_catch; [|intros e; repeat ids_step].
  apply invariant_bind; [apply ids_findByUserId|].
  intros [src|]; [|repeat ids_step].
  apply invariant_bind; [apply ids_getNotificationRecipients|]. intros rs.
  apply invariant_bind; [apply ids_notifyRecipients|]. intros ns.
  repeat ids_step.
Qed.

Lemma ids_processEach (l : list Event.t) :
  invariant ids_unique (Processor.processEach l).
Proof.
  induction l as [|x l IH]; simpl; [apply invariant_ret|].
  apply invariant_bind; [apply ids_processEvent | intros _; exact IH].
Qed.

Lemma ids_perform (c : Call) (w : World) :
  ids_unique (db w) -> ids_unique (db (perform c w)).
Proof.
  revert w. change (invariant ids_unique (fun w => (Ok tt, perform c w))).
  destruct c; simpl.
  all: match goal with
       | |- invariant _ (fun w => (Ok tt, exec ?m w)) =>
           assert (invariant ids_unique m) as Hm;
           [|intros w H; exact (Hm w H)]
       end.
  - unfold Routes.postUser. repeat ids_step.
  - unfold Routes.putPreferences. repeat ids_step.
  - unfold Routes.postFollow. repeat ids_step.
  - unfold Routes.deleteFollow. repeat ids_step.
  - unfold Routes.postEvent.
    repeat first [apply ids_processEvent | ids_step].
  - repeat ids_step.
  - unfold Routes.putRead, Notifications.markAsRead. repeat ids_step.
  - unfold Routes.putReadAll, Notifications.markAllAsRead. repeat ids_step.
  - unfold Routes.deleteNotification, Notifications.dismiss.
    repeat ids_step.
  - unfold Routes.postCleanup, Notifications.cleanupExpired.
    repeat ids_step.
  - unfold Processor.processUnprocessedEvents.
    repeat first [apply ids_processEach | ids_step].
  - unfold Processor.cleanupOldNotifications. repeat ids_step.
  - unfold Seed.seedDatabase. repeat ids_step.
  - unfold Seed.clearDatabase. repeat ids_step.
Qed.

(** X16.  In every database reachable from the empty one through the
    route handlers, the sweeps, and the seed and clear routines, the
    unique indexes hold: no two stored users share a [userId] or an
    [email], no two events an [eventId], no two notifications a
    [notificationId].  So a stored document is determined by its id. *)
Theorem reachable_ids_unique (d : DB) :
  reachable d ->
  ids_unique d
  /\ (forall u u', In u (users d) -> In u' (users d) ->
                   User.userId u = User.userId u' -> u = u')
  /\ (forall e e', In e (events d) -> In e' (events d) ->
                   Event.eventId e = Event.eventId e' -> e = e')
  /\ (forall n n', In n (notifications d) -> In n' (notifications d) ->
                   Notification.notificationId n
                   = Notification.notificationId n' -> n = n').
Proof.
  intros Hreach.
  assert (ids_unique d) as H.
  { induction Hreach as [|w c _ IH]; [|apply ids_perform; exact IH].
    repeat split; constructor. }
  split; [exact H|]. destruct H as (Hu & _ & He & Hn).
  split; [|split]; intros x y Hx Hy Heq.
  - exact (NoDup_map_eq User.userId _ _ _ Hu Hx Hy Heq).
  - exact (NoDup_map_eq Event.eventId _ _ _ He Hx Hy Heq).
  - exact (NoDup_map_eq Notification.notificationId _ _ _ Hn Hx Hy Heq).
Qed.

(** ** Updating preferences *)

Lemma valid_set_preferences (u : User.t) (p : User.Preferences) :
  User.valid u = true ->
  User.valid (User.set_preferences p u)
  = forallb (Js.includes User.notificationTypes_enum)
            (User.notificationTypes p).
Proof.
  unfold User.valid. cbn [User.set_preferences User.userId User.username
                          User.email User.preferences].
  rewrite !andb_true_iff. intros [[[[[-> ->] ->] ->] ->] _]. reflexivity.
Qed.

(** X17.  [PUT /api/users/:userId/preferences] answers 400 without a
    [preferences] object and 404, with the lookup resolving, when the
    user is not stored; the database is untouched in both cases.  For a
    stored user and the storage resolving, the new preferences are the
    stored ones overridden by the keys present in the request: when
    every resulting notification type is within the schema's enum the
    answer is 200 and exactly that user's preferences are replaced;
    otherwise validation fails, the answer is 500 and the database is
    unchanged. *)
Theorem preferences_merged_or_refused (w : World) (userId : string) :
  Routes.putPreferences userId None w = (Ok 400%nat, w)
  /\ (forall new,
         next_rejects w = false ->
         handle userId (db w) = None ->
         Routes.putPreferences userId (Some new) w = (Ok 404%nat, tick w))
  /\ (forall new i u,
         next_rejects w = false ->
         next_rejects (tick w) = false ->
         handle userId (db w) = Some (i, u) ->
         User.valid u = true ->
         let merged := Routes.mergePreferences (User.preferences u) new in
         let accepted :=
           forallb (Js.includes User.notificationTypes_enum)
                   (User.notificationTypes merged) in
         exists w',
           Routes.putPreferences userId (Some new) w
           = (Ok (if accepted then 200%nat else 500%nat), w')
           /\ (accepted = false -> db w' = db w)
           /\ (accepted = true ->
               handle userId (db w')
               = Some (i, User.set_preferences merged u)
               /\ (forall k, k <> i ->
                             nth_error (users (db w')) k
                             = nth_error (users (db w)) k)
               /\ notifications (db w') = notifications (db w)
               /\ events (db w') = events (db w))
           /\ User.emailNotifications merged
              = default (User.emailNotifications (User.preferences u))
                        (Routes.newEmailNotifications new)
           /\ User.pushNotifications merged
              = default (User.pushNotifications (User.preferences u))
                        (Routes.newPushNotifications new)
           /\ User.notificationTypes merged
              = default (User.notificationTypes (User.preferences u))
                        (Routes.newNotificationTypes new)).
Proof.
  split; [reflexivity|]. split.
  - intros new H0 Hnone. unfold Routes.putPreferences, try_catch, bind.
    rewrite findHandle_eq, H0, Hnone. reflexivity.
  - intros new i u H0 H1 Hu Hvalid merged accepted.
    unfold Routes.putPreferences, try_catch. unfold bind at 1.
    rewrite findHandle_eq, H0, Hu. cbv zeta. fold merged.
    unfold bind. rewrite user_save_eq, (valid_set_preferences _ _ Hvalid).
    fold accepted. rewrite H1.
    assert (forall (A : Type) (d : A) (o : option A),
               match o with Some b => b | None => d end = default d o)
      as Hdefault by (intros A d []; reflexivity).
    destruct accepted; cbn [negb].
    + eexists. split; [reflexivity|]. split; [discriminate|].
      split; [|unfold merged, Routes.mergePreferences; simpl;
               rewrite !Hdefault; auto].
      intros _. cbn [db set_db]. rewrite db_tick.
      split; [rewrite handle_alter_at, Hu, Nat.eqb_refl; reflexivity|].
      split; [|split; reflexivity].
      intros k Hk. apply nth_error_alter_at_other. exact Hk.
    + eexists. split; [reflexivity|].
      split; [intros _; simpl; apply db_tick|]. split; [discriminate|].
      unfold merged, Routes.mergePreferences; simpl.
      rewrite !Hdefault; auto.
Qed.

(** ** Deleting an event *)

Lemma find_first_split {A} (p : A -> bool) (l : list A) (i : nat) (x : A) :
  find_first p l = Some (i, x) ->
  l = take i l ++ x :: drop (S i) l
  /\ p x = true
  /\ forall y, In y (take i l) -> p y = false.
Proof.
  revert i. induction l as [|y l IH]; intros i; simpl; [discriminate|].
  destruct (p y) eqn:Hy.
  - intros [= <- <-]. simpl. rewrite drop_0. repeat split; auto.
    intros z [].
  - destruct (find_first p l) as [[k z]|]; [|discriminate].
    intros [= <- <-]. destruct (IH k eq_refl) as (Hl & Hx & Hbefore).
    simpl. split; [f_equal; exact Hl|]. split; [exact Hx|].
    intros a [<-|Ha]; auto.
Qed.

(** X18.  [DELETE /api/events/:eventId], with the storage call resolving,
    answers 404 and changes nothing when no stored event has that
    [eventId]; otherwise it answers 200 and removes the first stored
    event with that [eventId] and nothing else: the other events keep
    their order, and every notification stays, also those that refer to
    the deleted event.  When the storage call rejects the answer is 500
    and nothing changes. *)
Theorem delete_event_removes_one (w : World) (eventId : string) :
  (next_rejects w = true ->
   fst (Routes.deleteEvent eventId w) = Ok 500%nat
   /\ db (exec (Routes.deleteEvent eventId) w) = db w)
  /\ (next_rejects w = false ->
      (forall e, In e (events (db w)) -> Event.eventId e <> eventId) ->
      Routes.deleteEvent eventId w = (Ok 404%nat, tick w))
  /\ (forall e,
         next_rejects w = false ->
         In e (events (db w)) -> Event.eventId e = eventId ->
         exists before deleted after w',
           Routes.deleteEvent eventId w = (Ok 200%nat, w')
           /\ events (db w) = before ++ deleted :: after
           /\ Event.eventId deleted = eventId
           /\ (forall x, In x before -> Event.eventId x <> eventId)
           /\ events (db w') = before ++ after
           /\ notifications (db w') = notifications (db w)
           /\ users (db w') = users (db w)).
Proof.
  split; [|split].
  - intros H. unfold exec, Routes.deleteEvent, try_catch, bind.
    rewrite await_storage_eq, H. simpl. rewrite db_tick. auto.
  - intros H Hnone. unfold Routes.deleteEvent, try_catch, bind.
    rewrite await_storage_eq, H. unfold get_db. rewrite db_tick.
    assert (find_first (fun e => String.eqb (Event.eventId e) eventId)
                       (events (db w)) = None) as ->; [|reflexivity].
    apply find_first_None. intros x Hx. apply String.eqb_neq. auto.
  - intros e H Hin Hid. unfold Routes.deleteEvent, try_catch, bind.
    rewrite await_storage_eq, H. unfold get_db. rewrite db_tick.
    destruct (find_first (fun e => String.eqb (Event.eventId e) eventId)
                         (events (db w))) as [[i x]|] eqn:Hfind.
    + destruct (find_first_split _ _ _ _ Hfind) as (Hl & Hx & Hbefore).
      exists (take i (events (db w))), x, (drop (S i) (events (db w))).
      eexists. split; [reflexivity|]. split; [exact Hl|].
      split; [apply String.eqb_eq; exact Hx|].
      split; [intros y Hy; apply String.eqb_neq; auto|].
      cbn [db set_db snd put_db events notifications users set_events].
      rewrite ?db_tick. repeat split.
    + exfalso. rewrite find_first_None in Hfind.
      specialize (Hfind e Hin). apply String.eqb_neq in Hfind. auto.
Qed.

(** ** Seeding and clearing *)

Lemma countDocuments_eq (w : World) :
  Users.countDocuments w
  = (if next_rejects w then Throw StorageError
     else Ok (List.length (users (db w))),
     tick w).
Proof.
  unfold Users.countDocuments, bind. rewrite await_storage_eq.
  destruct (next_rejects w); [reflexivity|].
  unfold get_db, ret. rewrite db_tick. reflexivity.
Qed.

(** X19.  [seedDatabase] leaves a database that holds a user exactly as
    it is, whatever the storage does, and returns normally when its
    count query resolves.  [clearDatabase], when no storage call
    rejects, returns normally and leaves all three collections empty;
    when its first storage call rejects it raises and deletes nothing. *)
Theorem seed_skips_populated_database (w : World) :
  (users (db w) <> [] ->
   db (exec Seed.seedDatabase w) = db w
   /\ (next_rejects w = false -> fst (Seed.seedDatabase w) = Ok tt))
  /\ (healthy w = true ->
      fst (Seed.clearDatabase w) = Ok tt
      /\ db (exec Seed.clearDatabase w) = empty_db)
  /\ (next_rejects w = true ->
      fst (Seed.clearDatabase w) = Throw StorageError
      /\ db (exec Seed.clearDatabase w) = db w).
Proof.
  split; [|split].
  - intros Hne.
    assert (Seed.seedDatabase w
            = if next_rejects w
              then (Throw StorageError,
                    snd (console_error "Error seeding database:" (tick w)))
              else (Ok tt, tick w)) as Hrun.
    { unfold Seed.seedDatabase, try_catch. unfold bind at 1.
      rewrite countDocuments_eq.
      destruct (next_rejects w); [reflexivity|].
      destruct (users (db w)) as [|u us]; [contradiction|]. reflexivity. }
    unfold exec. rewrite Hrun.
    destruct (next_rejects w); simpl; rewrite db_tick;
      split; auto; discriminate.
  - intros Hh.
    destruct (healthy_steps w Hh) as (H0 & H1 & H2 & _).
    unfold exec, Seed.clearDatabase, try_catch, bind,
      Users.deleteAll, Events.deleteAll, bind.
    rewrite await_storage_eq, H0. cbn [get_db put_db].
    rewrite await_storage_eq, next_rejects_set_db, H1.
    cbn [get_db put_db].
    rewrite deleteMany_eq, !next_rejects_set_db.
    rewrite !tick_set_db, next_rejects_set_db, H2.
    split; [reflexivity|]. simpl.
    assert (forall l : list Notification.t,
               List.filter (fun _ => negb true) l = []) as Hnone
        by (induction l; auto).
    rewrite Hnone. reflexivity.
  - intros H. unfold exec, Seed.clearDatabase, try_catch, bind,
      Users.deleteAll, bind.
    rewrite await_storage_eq, H. simpl. rewrite db_tick. auto.
Qed.

(** ** Events of one type, newest first *)

#[local] Instance newer_total : Total Events.newer.
Proof. intros a b. unfold Events.newer. lia. Qed.

#[local] Instance newer_transitive : Transitive Events.newer.
Proof. intros a b c. unfold Events.newer. lia. Qed.

Lemma getEventsByType_eq (type : string) (limit : option nat) (w : World) :
  Events.getEventsByType type limit w
  = (if next_rejects w then Throw StorageError
     else Ok (Events.limited
                (default 100%nat limit)
                (merge_sort Events.newer
                   (List.filter (fun e => String.eqb (Event.type e) type)
                                (events (db w))))),
     tick w).
Proof.
  unfold Events.getEventsByType, bind. rewrite await_storage_eq.
  destruct (next_rejects w); [reflexivity|].
  unfold get_db, ret. rewrite db_tick. reflexivity.
Qed.

Lemma limited_split {A} (n : nat) (l : list A) :
  exists rest,
    l = Events.limited n l ++ rest
    /\ (n <> 0%nat ->
        List.length (Events.limited n l) = Nat.min n (List.length l))
    /\ (n = 0%nat -> rest = []).
Proof.
  destruct n as [|n].
  - exists []. simpl. rewrite app_nil_r.
    split; [reflexivity|]. split; [congruence | reflexivity].
  - exists (skipn (S n) l). unfold Events.limited.
    split; [symmetry; apply firstn_skipn|].
    split; [intros _; apply length_firstn | discriminate].
Qed.

Lemma StronglySorted_app_cross {A} (R : A -> A -> Prop) (l1 l2 : list A) :
  StronglySorted R (l1 ++ l2) ->
  StronglySorted R l1
  /\ forall x y, In x l1 -> In y l2 -> R x y.
Proof.
  induction l1 as [|a l1 IH]; simpl; intros H.
  - split; [constructor | intros x y []].
  - inversion H as [|? ? Hs Hall]; subst.
    destruct (IH Hs) as [Hs1 Hcross].
    rewrite List.Forall_forall in Hall.
    split.
    + constructor; [exact Hs1|]. apply List.Forall_forall.
      intros x Hx. apply Hall. apply in_or_app. left. exact Hx.
    + intros x y [<-|Hx] Hy; [|apply Hcross; assumption].
      apply Hall. apply in_or_app. right. exact Hy.
Qed.

(** X20.  With the storage call resolving, [getEventsByType(type, limit)]
    returns stored events of that type, newest first.  With a positive
    limit (100 when none is given) it returns the limit's number of
    them, or all when there are fewer, and no event of the type that it
    leaves out is newer than one it returns. *)
Theorem events_by_type_newest_first (w : World) (type : string)
        (limit : option nat) :
  next_rejects w = false ->
  exists l rest,
    Events.getEventsByType type limit w = (Ok l, tick w)
    /\ StronglySorted Events.newer l
    /\ Permutation (l ++ rest)
                   (List.filter (fun e => String.eqb (Event.type e) type)
                                (events (db w)))
    /\ (forall e, In e l -> In e (events (db w)) /\ Event.type e = type)
    /\ (default 100%nat limit <> 0%nat ->
        List.length l
        = Nat.min (default 100%nat limit)
                  (List.length
                     (List.filter (fun e => String.eqb (Event.type e) type)
                                  (events (db w)))))
    /\ (forall x y, In x l -> In y rest ->
                    Event.timestamp y <= Event.timestamp x).
Proof.
  intros H0. rewrite getEventsByType_eq, H0.
  set (selection := List.filter (fun e => String.eqb (Event.type e) type)
                                (events (db w))).
  set (sorted := merge_sort Events.newer selection).
  assert (Permutation sorted selection) as Hperm
      by apply merge_sort_Permutation.
  assert (StronglySorted Events.newer sorted) as Hsorted
      by apply (StronglySorted_merge_sort Events.newer).
  destruct (limited_split (default 100%nat limit) sorted)
    as (rest & Hsplit & Hlen & _).
  exists (Events.limited (default 100%nat limit) sorted), rest.
  split; [reflexivity|].
  rewrite Hsplit in Hsorted.
  apply StronglySorted_app_cross in Hsorted as [Hs Hcross].
  split; [exact Hs|].
  split; [rewrite <- Hsplit; exact Hperm|].
  split.
  { intros e He.
    assert (In e selection) as Hin.
    { apply (Permutation_in _ Hperm). rewrite Hsplit.
      apply in_or_app. left. exact He. }
    apply filter_In in Hin as [Hin Hty]. split; [exact Hin|].
    apply String.eqb_eq. exact Hty. }
  split.
  { intros Hn. rewrite (Hlen Hn).
    rewrite (Permutation_length Hperm). reflexivity. }
  intros x y Hx Hy. apply (Hcross x y Hx Hy).
Qed.

(** ** The age of a notification *)

Lemma div_bounds (a b : Z) : 0 < b -> b * (a / b) <= a < b * (a / b) + b.
Proof.
  intros Hb. pose proof (Z.div_mod a b ltac:(lia)).
  pose proof (Z.mod_pos_bound a b Hb). lia.
Qed.

(** X21.  The virtual [timeAgo] reads 'just now' for a notification
    younger than a minute, also one dated in the future; then the whole
    minutes from 1 to 59, which is the virtual [ageInMinutes]; then the
    whole hours from 1 to 23; then the whole days from 1 to 29; and from
    30 days on the date.  A notification that expires exactly 30 days
    after its timestamp shows the date whenever [isExpired()] holds. *)
Theorem time_ago_ranges (toLocaleDateString : Z -> string)
        (n : Notification.t) (w : World) :
  let age := clock w - Notification.timestamp n in
  let shown := Notifications.timeAgo toLocaleDateString n w in
  (age < 60000 -> shown = (Ok "just now", w))
  /\ (60000 <= age < 3600000 ->
      exists m, 1 <= m <= 59
                /\ shown = (Ok (pretty m +:+ "m ago"), w)
                /\ Notifications.ageInMinutes n w = (Ok m, w))
  /\ (3600000 <= age < 86400000 ->
      exists h, 1 <= h <= 23
                /\ shown = (Ok (pretty h +:+ "h ago"), w)
                /\ h = age / 3600000)
  /\ (86400000 <= age < 2592000000 ->
      exists d, 1 <= d <= 29
                /\ shown = (Ok (pretty d +:+ "d ago"), w)
                /\ d = age / 86400000)
  /\ (2592000000 <= age ->
      shown = (Ok (toLocaleDateString (Notification.timestamp n)), w))
  /\ (Notification.expiresAt n
      = Some (Notification.timestamp n + Notification.thirty_days) ->
      fst (Notifications.isExpired n w) = Ok true ->
      shown = (Ok (toLocaleDateString (Notification.timestamp n)), w)).
Proof.
  intros age shown. subst shown.
  unfold Notifications.timeAgo, Notifications.ageInMinutes,
    Notifications.isExpired, bind, Date_now, ret. cbv zeta. fold age.
  pose proof (div_bounds age 1000 ltac:(lia)) as Hs.
  set (s := age / 1000) in *.
  pose proof (div_bounds s 60 ltac:(lia)) as Hm.
  pose proof (div_bounds s 3600 ltac:(lia)) as Hh.
  pose proof (div_bounds s 86400 ltac:(lia)) as Hd.
  assert (age / (1000 * 60) = s / 60) as Emin
      by (unfold s; rewrite Z.div_div by lia; reflexivity).
  assert (age / 3600000 = s / 3600) as Ehour
      by (unfold s; rewrite Z.div_div by lia; reflexivity).
  assert (age / 86400000 = s / 86400) as Eday
      by (unfold s; rewrite Z.div_div by lia; reflexivity).
  split; [|split; [|split; [|split; [|split]]]].
  - intros Hage. destruct (Z.ltb_spec s 60); [reflexivity | lia].
  - intros Hage. exists (s / 60).
    destruct (Z.ltb_spec s 60); [lia|].
    destruct (Z.ltb_spec s 3600); [|lia].
    rewrite Emin. split; [lia|]. split; reflexivity.
  - intros Hage. exists (s / 3600).
    destruct (Z.ltb_spec s 60); [lia|].
    destruct (Z.ltb_spec s 3600); [lia|].
    destruct (Z.ltb_spec s 86400); [|lia].
    split; [lia|]. split; [reflexivity | symmetry; exact Ehour].
  - intros Hage. exists (s / 86400).
    destruct (Z.ltb_spec s 60); [lia|].
    destruct (Z.ltb_spec s 3600); [lia|].
    destruct (Z.ltb_spec s 86400); [lia|].
    destruct (Z.ltb_spec s 2592000); [|lia].
    split; [lia|]. split; [reflexivity | symmetry; exact Eday].
  - intros Hage.
    destruct (Z.ltb_spec s 60); [lia|].
    destruct (Z.ltb_spec s 3600); [lia|].
    destruct (Z.ltb_spec s 86400); [lia|].
    destruct (Z.ltb_spec s 2592000); [lia|]. reflexivity.
  - intros Hexp Hexpired. rewrite Hexp in Hexpired. simpl in Hexpired.
    injection Hexpired as Hlt. apply Z.ltb_lt in Hlt.
    unfold Notification.thirty_days in Hlt.
    assert (2592000000 <= age) as Hage by (unfold age; lia).
    destruct (Z.ltb_spec s 60); [lia|].
    destruct (Z.ltb_spec s 3600); [lia|].
    destruct (Z.ltb_spec s 86400); [lia|].
    destruct (Z.ltb_spec s 2592000); [lia|]. reflexivity.
Qed.

(** ** The two cleanups side by side *)

Lemma cleanupExpired_db (w : World) :
  db (exec Notifications.cleanupExpired w)
  = if next_rejects w then db w
    else set_notifications
           (List.filter (fun n => negb (Notifications.expired (clock w) n))
                        (notifications (db w)))
           (db w).
Proof.
  unfold exec, Notifications.cleanupExpired, bind, Date_now.
  rewrite deleteMany_eq. destruct (next_rejects w); simpl;
    rewrite ?db_tick; reflexivity.
Qed.

(** X22.  Let the storage call resolve and let every stored notification
    expire exactly 30 days after its timestamp, which is the case when
    the schema default of [expiresAt] is applied at the instant of the
    timestamp.  Then [cleanupExpired] keeps exactly the stored
    notifications on
    which [isExpired()] is false at that time; whatever it keeps
    [cleanupOldNotifications] keeps as well; and what only
    [cleanupOldNotifications] keeps is unread and older than 30 days. *)
Theorem retention_within_expiry (w : World) :
  next_rejects w = false ->
  (forall n, In n (notifications (db w)) ->
             Notification.expiresAt n
             = Some (Notification.timestamp n + Notification.thirty_days)) ->
  let by_expiry := notifications (db (exec Notifications.cleanupExpired w)) in
  let by_age := notifications (db (exec Processor.cleanupOldNotifications w))
  in
  (forall n, In n by_expiry
             <-> In n (notifications (db w))
                 /\ fst (Notifications.isExpired n w) = Ok false)
  /\ (forall n, In n by_expiry -> In n by_age)
  /\ (forall n, In n by_age -> ~ In n by_expiry ->
                Notification.status n = Notification.unread
                /\ Notification.timestamp n
                   < clock w - Notification.thirty_days).
Proof.
  intros H0 Hexp by_expiry by_age. subst by_expiry by_age.
  rewrite cleanupExpired_db, cleanupOldNotifications_db, H0.
  cbn [notifications set_notifications].
  assert (forall n, In n (notifications (db w)) ->
                    Notifications.expired (clock w) n
                    = (Notification.timestamp n
                       <? clock w - Notification.thirty_days)) as Hsame.
  { intros n Hn. unfold Notifications.expired. rewrite (Hexp n Hn).
    destruct (Z.ltb_spec (Notification.timestamp n
                          + Notification.thirty_days) (clock w));
      destruct (Z.ltb_spec (Notification.timestamp n)
                           (clock w - Notification.thirty_days));
      try reflexivity; lia. }
  split; [|split].
  - intros n. rewrite filter_In.
    assert (fst (Notifications.isExpired n w)
            = Ok (Notifications.expired (clock w) n)) as -> by reflexivity.
    split.
    + intros [Hn Hp]. split; [exact Hn|].
      apply negb_true_iff in Hp. rewrite Hp. reflexivity.
    + intros [Hn Hp]. split; [exact Hn|].
      injection Hp as ->. reflexivity.
  - intros n. rewrite !filter_In. intros [Hn Hp]. split; [exact Hn|].
    rewrite (Hsame n Hn) in Hp. unfold Processor.oldAndSettled.
    apply negb_true_iff in Hp. rewrite Hp. reflexivity.
  - intros n. rewrite !filter_In. intros [Hn Hp] Hnot.
    assert (Notifications.expired (clock w) n = true) as He.
    { destruct (Notifications.expired (clock w) n) eqn:E; [reflexivity|].
      exfalso. apply Hnot. split; [exact Hn | reflexivity]. }
    rewrite (Hsame n Hn) in He. unfold Processor.oldAndSettled in Hp.
    rewrite He in Hp. cbn [andb] in Hp. apply negb_true_iff in Hp.
    split; [|apply Z.ltb_lt; exact He].
    destruct (Notification.status n); [reflexivity | discriminate..].
Qed.

(** ** Processing an event a second time *)

Lemma latest_tick (w : World) : latest (tick w) = latest w.
Proof.
  unfold latest, tick. destruct (pending w) as [|o rest] eqn:E.
  - rewrite E. reflexivity.
  - simpl. lia.
Qed.

Lemma clock_le_latest (w : World) : clock w <= latest w.
Proof. unfold latest. lia. Qed.

Lemma steady_ret {A} (a : A) : steady (ret a).
Proof. intros w. reflexivity. Qed.

Lemma steady_bind {A B} (m : M A) (k : A -> M B) :
  steady m -> (forall a, steady (k a)) -> steady (bind m k).
Proof.
  intros Hm Hk w. unfold bind. specialize (Hm w).
  destruct (m w) as [[a|e] w1]; simpl in *; [|exact Hm].
  rewrite Hk. exact Hm.
Qed.

Lemma steady_console_warn (msg : string) : steady (console_warn msg).
Proof. intros w. reflexivity. Qed.

Lemma steady_findByUserId (id : string) : steady (Users.findByUserId id).
Proof. intros w. rewrite findByUserId_eq. apply latest_tick. Qed.

Lemma steady_findFollowing (id : string) : steady (Users.findFollowing id).
Proof. intros w. rewrite findFollowing_eq. apply latest_tick. Qed.

Lemma steady_targetRecipient (event : Event.t) :
  steady (Processor.targetRecipient event).
Proof.
  unfold Processor.targetRecipient.
  destruct (Event.targetUserId event) as [target|]; [|apply steady_ret].
  destruct (_ && _); [|apply steady_ret].
  apply steady_bind; [apply steady_findByUserId|].
  intros [u|]; [|apply steady_ret].
  destruct (Processor.shouldReceiveNotification u (Event.type event));
    apply steady_ret.
Qed.

Lemma steady_mentionRecipients (event : Event.t) (ids : list string) :
  forall acc, steady (Processor.mentionRecipients event ids acc).
Proof.
  induction ids as [|i ids IH]; intros acc; simpl; [apply steady_ret|].
  destruct (negb _); [|apply IH].
  apply steady_bind; [apply steady_findByUserId|].
  intros [u|]; [|apply IH].
  destruct (Processor.shouldReceiveNotification u (Event.type event));
    apply IH.
Qed.

Lemma steady_getNotificationRecipients (event : Event.t) (src : User.t) :
  steady (Processor.getNotificationRecipients event src).
Proof.
  unfold Processor.getNotificationRecipients.
  repeat match goal with
         | |- context [if ?b then _ else _] => destruct b
         end;
    try apply steady_targetRecipient.
  - apply steady_bind; [apply steady_findFollowing|].
    intros l. apply steady_ret.
  - destruct (Event.mentionedUsers (Event.data event));
      [apply steady_mentionRecipients | apply steady_ret].
  - apply steady_bind; [apply steady_console_warn|].
    intros _. apply steady_ret.
Qed.

Lemma createNotification_duplicate (event : Event.t) (src tgt : User.t)
      (w : World) (n : Notification.t) :
  next_rejects w = false ->
  In n (notifications (db w)) ->
  same_cause event src tgt n ->
  clock w - Processor.five_minutes <= Notification.timestamp n ->
  Processor.createNotification event src tgt w = (Ok None, tick w).
Proof.
  intros Hok Hin Hcause Hrecent.
  unfold Processor.createNotification, try_catch, bind, Date_now.
  rewrite findOne_eq, Hok. fold (dedup_query event src tgt w).
  destruct (find_first (dedup_query event src tgt w) (notifications (db w)))
    as [[i x]|] eqn:Hfind; [reflexivity|].
  exfalso.
  pose proof (proj1 (find_first_None _ _) Hfind n Hin) as Hq.
  assert (dedup_query event src tgt w n = true) as Hq'
      by (apply dedup_query_true; auto).
  congruence.
Qed.

Lemma notifyRecipients_all_duplicates (event : Event.t) (src : User.t)
      (rs : list User.t) :
  forall (acc : list Notification.t) (w : World),
    healthy w = true ->
    (forall r, In r rs ->
               exists n, In n (notifications (db w))
                         /\ same_cause event src r n
                         /\ latest w - Processor.five_minutes
                            <= Notification.timestamp n) ->
    exists w',
      Processor.notifyRecipients event src rs acc w = (Ok acc, w')
      /\ db w' = db w
      /\ healthy w' = true.
Proof.
  induction rs as [|r rs IH]; intros acc w Hh Hdup; simpl.
  - exists w. auto.
  - destruct (Hdup r (or_introl eq_refl)) as (n & Hin & Hcause & Hrecent).
    unfold bind at 1. unfold try_catch, bind.
    rewrite (createNotification_duplicate event src r w n);
      [|apply healthy_next; exact Hh | exact Hin | exact Hcause|].
    2:{ pose proof (clock_le_latest w). lia. }
    cbn [ret].
    destruct (IH acc (tick w) (healthy_tick w Hh)) as (w' & Hrun & Hdb & Hh').
    { intros r' Hr'. rewrite db_tick, latest_tick.
      apply Hdup. right. exact Hr'. }
    exists w'. split; [exact Hrun|]. rewrite Hdb, db_tick. auto.
Qed.

(** X23.  [processEvent] is not idempotent on the event record.  Let no
    storage call reject, the source user be stored, and every recipient
    of the event already hold a notification of the same cause inside
    the five-minute window.  Then [processEvent] writes no notification
    and returns the empty list, and the update that marks the event
    processed overwrites its [notificationsGenerated] with the empty
    list, whatever was recorded there before. *)
Theorem reprocessing_erases_generated (w : World) (event : Event.t)
        (src : User.t) (rs : list User.t) (w2 : World) :
  healthy w = true ->
  List.find (fun u => String.eqb (User.userId u) (Event.sourceUserId event))
            (users (db w)) = Some src ->
  Processor.getNotificationRecipients event src (tick w) = (Ok rs, w2) ->
  (forall r, In r rs ->
             exists n, In n (notifications (db w))
                       /\ same_cause event src r n
                       /\ latest w - Processor.five_minutes
                          <= Notification.timestamp n) ->
  exists w',
    Processor.processEvent event w = (Ok (Some []), w')
    /\ notifications (db w') = notifications (db w)
    /\ users (db w') = users (db w)
    /\ forall stored,
        List.find (fun e => String.eqb (Event.eventId e)
                                       (Event.eventId event))
                  (events (db w)) = Some stored ->
        exists stored',
          List.find (fun e => String.eqb (Event.eventId e)
                                         (Event.eventId event))
                    (events (db w')) = Some stored'
          /\ Event.processed stored' = true
          /\ Event.notificationsGenerated stored' = [].
Proof.
  intros Hh Hsrc Hrs Hdup.
  rewrite processEvent_run, (healthy_next w Hh), Hsrc, Hrs.
  destruct (reads_only_getNotificationRecipients event src (tick w))
    as [Hdb2 Hh2].
  destruct (Hh2 (healthy_tick w Hh)) as [Hh2' _].
  pose proof (steady_getNotificationRecipients event src (tick w)) as Hl2.
  rewrite Hrs in Hdb2, Hh2', Hl2. cbn [snd] in Hdb2, Hh2', Hl2.
  rewrite db_tick in Hdb2. rewrite latest_tick in Hl2.
  destruct (notifyRecipients_all_duplicates event src rs [] w2 Hh2')
    as (w3 & Hrun & Hdb3 & Hh3).
  { intros r Hr. rewrite Hdb2, Hl2. apply Hdup. exact Hr. }
  rewrite Hrun, (healthy_next w3 Hh3).
  eexists. split; [reflexivity|].
  cbn [db set_db set_events notifications users events].
  rewrite Hdb3, Hdb2. split; [reflexivity|]. split; [reflexivity|].
  intros stored Hfind. exists (Event.mark_processed [] stored).
  split; [|split; reflexivity].
  apply (find_update_first _ (Event.mark_processed (Processor.generated [])));
    [reflexivity | exact Hfind].
Qed.

(** ** Reading and dismissing one notification *)

Lemma count_alter_at {A} (p : A -> bool) (f : A -> A) (l : list A) :
  forall i x,
    nth_error l i = Some x -> p x = true -> p (f x) = false ->
    S (List.length (List.filter p (alter_at i f l)))
    = List.length (List.filter p l).
Proof.
  induction l as [|y l IH]; intros i x Hnth Hx Hfx;
    [destruct i; discriminate|].
  destruct i as [|i]; simpl in *.
  - injection Hnth as ->. rewrite Hx, Hfx. reflexivity.
  - destruct (p y); simpl; rewrite <- (IH i x Hnth Hx Hfx); reflexivity.
Qed.

(** X24.  Let no storage call reject and let the first stored
    notification with a given [notificationId] be unread.  Both
    [PUT /api/notifications/:notificationId/read] and
    [DELETE /api/notifications/:notificationId] answer 200 and keep the
    document stored: the first sets its status to read and [readAt], the
    second sets its status to dismissed and [dismissedAt], to the time
    of the save.  Either way the unread count of the notification's
    user drops by exactly one, the counts of the other users stay, and
    the number of stored notifications is unchanged. *)
Theorem settling_lowers_unread_count (w : World) (id : string) (i : nat)
        (n : Notification.t) :
  healthy w = true ->
  find_first (fun x => String.eqb (Notification.notificationId x) id)
             (notifications (db w)) = Some (i, n) ->
  Notification.status n = Notification.unread ->
  Notification.valid n = true ->
  let unread_of uid d :=
    List.length
      (List.filter
         (fun x => String.eqb (Notification.userId x) uid
                   && Notification.status_eqb (Notification.status x)
                                              Notification.unread)
         (notifications d)) in
  (exists w',
      Routes.putRead id w = (Ok 200%nat, w')
      /\ nth_error (notifications (db w')) i
         = Some (Notification.set_status_readAt
                   Notification.read (clock (tick w)) n)
      /\ S (unread_of (Notification.userId n) (db w'))
         = unread_of (Notification.userId n) (db w)
      /\ (forall uid, uid <> Notification.userId n ->
                      unread_of uid (db w') = unread_of uid (db w))
      /\ List.length (notifications (db w'))
         = List.length (notifications (db w)))
  /\ (exists w',
         Routes.deleteNotification id w = (Ok 200%nat, w')
         /\ nth_error (notifications (db w')) i
            = Some (Notification.set_status_dismissedAt
                      Notification.dismissed (clock (tick w)) n)
         /\ S (unread_of (Notification.userId n) (db w'))
            = unread_of (Notification.userId n) (db w)
         /\ (forall uid, uid <> Notification.userId n ->
                         unread_of uid (db w') = unread_of uid (db w))
         /\ List.length (notifications (db w'))
            = List.length (notifications (db w))).
Proof.
  intros Hh Hfind Hst Hvalid unread_of.
  pose proof (healthy_next w Hh) as H0.
  pose proof (healthy_next _ (healthy_tick w Hh)) as H1.
  destruct (find_first_Some _ _ _ _ Hfind) as [Hnth _].
  assert (forall (f : Notification.t -> Notification.t),
             Notification.userId (f n) = Notification.userId n ->
             (forall x, Notification.userId (f x) = Notification.userId x) ->
             Notification.status (f n) <> Notification.unread ->
             nth_error (alter_at i f (notifications (db w))) i = Some (f n)
             /\ S (List.length
                     (List.filter
                        (fun x => String.eqb (Notification.userId x)
                                             (Notification.userId n)
                                  && Notification.status_eqb
                                       (Notification.status x)
                                       Notification.unread)
                        (alter_at i f (notifications (db w)))))
                = unread_of (Notification.userId n) (db w)
             /\ (forall uid,
                    uid <> Notification.userId n ->
                    List.length
                      (List.filter
                         (fun x => String.eqb (Notification.userId x) uid
                                   && Notification.status_eqb
                                        (Notification.status x)
                                        Notification.unread)
                         (alter_at i f (notifications (db w))))
                    = unread_of uid (db w))
             /\ List.length (alter_at i f (notifications (db w)))
                = List.length (notifications (db w))) as Hstep.
  { intros f Hfu Hfall Hfs. split; [|split; [|split]].
    - clear -Hnth. revert i Hnth.
      induction (notifications (db w)) as [|y l IH]; intros [|i] Hnth;
        simpl in *; try discriminate.
      + injection Hnth as ->. reflexivity.
      + apply IH. exact Hnth.
    - unfold unread_of. apply (count_alter_at _ f _ i n Hnth).
      + rewrite String.eqb_refl, Hst. reflexivity.
      + rewrite Hfu, String.eqb_refl.
        destruct (Notification.status (f n)); [contradiction|reflexivity..].
    - intros uid Hne. unfold unread_of.
      clear -Hnth Hne Hfall. revert i Hnth.
      induction (notifications (db w)) as [|y l IH]; intros [|i] Hnth;
        simpl in *; try discriminate.
      + injection Hnth as ->. rewrite Hfall.
        apply String.eqb_neq in Hne. rewrite String.eqb_sym, Hne.
        reflexivity.
      + destruct (_ && _); simpl; rewrite (IH i Hnth); reflexivity.
    - apply alter_at_length. }
  split.
  - unfold Routes.putRead, try_catch. unfold bind at 1.
    rewrite findOne_eq, H0, Hfind. unfold Notifications.markAsRead.
    rewrite Hst. unfold bind, Date_now.
    rewrite notification_save_eq.
    replace (Notification.valid _) with true by (symmetry; exact Hvalid).
    cbn [negb]. rewrite H1.
    eexists. split; [reflexivity|].
    cbn [db set_db notifications set_notifications]. rewrite db_tick.
    apply Hstep; try reflexivity. discriminate.
  - unfold Routes.deleteNotification, try_catch. unfold bind at 1.
    rewrite findOne_eq, H0, Hfind. unfold Notifications.dismiss.
    unfold bind, Date_now.
    rewrite notification_save_eq.
    replace (Notification.valid _) with true by (symmetry; exact Hvalid).
    cbn [negb]. rewrite H1.
    eexists. split; [reflexivity|].
    cbn [db set_db notifications set_notifications]. rewrite db_tick.
    apply Hstep; try reflexivity. discriminate.
Qed.

(** ** Seeding an empty database *)

Lemma insert_ordered_fresh {A} (clash : A -> list A -> bool) (docs : list A) :
  forall coll,
    (forall before x after,
        docs = before ++ x :: after -> clash x (coll ++ before) = false) ->
    insert_ordered clash docs coll = (coll ++ docs, true).
Proof.
  induction docs as [|x docs IH]; intros coll Hfresh; simpl.
  - rewrite app_nil_r. reflexivity.
  - rewrite <- (app_nil_r coll) at 1.
    rewrite (Hfresh [] x docs eq_refl).
    rewrite IH.
    + rewrite <- app_assoc. reflexivity.
    + intros before y after Hsplit. rewrite <- app_assoc.
      apply (Hfresh (x :: before) y after). rewrite Hsplit. reflexivity.
Qed.

Lemma existsb_eqb_fresh {A} (f : A -> string) (x : string) (l : list A) :
  ~ In x (map f l) -> existsb (fun y => String.eqb (f y) x) l = false.
Proof.
  intros Hx. induction l as [|y l IH]; simpl; [reflexivity|].
  rewrite IH; [|intros H; apply Hx; right; exact H].
  rewrite orb_false_r. apply String.eqb_neq. intros Heq.
  apply Hx. left. exact Heq.
Qed.

Lemma insert_ordered_distinct {A} (f : A -> string) (docs : list A) :
  List.NoDup (map f docs) ->
  insert_ordered (fun x l => existsb (fun y => String.eqb (f y) (f x)) l)
                 docs []
  = (docs, true).
Proof.
  intros Hnd.
  rewrite (insert_ordered_fresh _ docs []); [reflexivity|].
  intros before x after Hsplit. simpl. apply existsb_eqb_fresh.
  rewrite Hsplit, map_app in Hnd. simpl in Hnd.
  apply NoDup_remove_2 in Hnd. intros Hin. apply Hnd.
  apply in_or_app. left. exact Hin.
Qed.

Lemma uuidv4_eq (w : World) : uuidv4 w = (Ok (rng w (drawn w)), drew w).
Proof. reflexivity. Qed.

Lemma next_rejects_drew (w : World) : next_rejects (drew w) = next_rejects w.
Proof. reflexivity. Qed.

Lemma tick_drew (w : World) : tick (drew w) = drew (tick w).
Proof.
  unfold tick, drew, uuidv4. cbn [pending snd].
  destruct (pending w) eqn:E; [rewrite ?E|]; reflexivity.
Qed.

Lemma drawn_tick (w : World) : drawn (tick w) = drawn w.
Proof. unfold tick. destruct (pending w); reflexivity. Qed.

Lemma user_insertMany_eq (l : list User.t) (w : World) :
  Users.insertMany l w
  = if negb (forallb User.valid l) then (Throw ValidationError, w)
    else if next_rejects w then (Throw StorageError, tick w)
    else (if snd (insert_ordered Users.clashes l (users (db w)))
          then Ok tt else Throw DuplicateKeyError,
          set_db (set_users
                    (fst (insert_ordered Users.clashes l (users (db w))))
                    (db w))
                 (tick w)).
Proof.
  unfold Users.insertMany. destruct (negb _); [reflexivity|].
  unfold bind. rewrite await_storage_eq.
  destruct (next_rejects w); [reflexivity|].
  unfold get_db, put_db. rewrite db_tick.
  destruct (insert_ordered _ _ _) as [coll []]; reflexivity.
Qed.

Lemma event_insertMany_eq (l : list Event.t) (w : World) :
  Events.insertMany l w
  = if negb (forallb Events.valid l) then (Throw ValidationError, w)
    else if next_rejects w then (Throw StorageError, tick w)
    else (if snd (insert_ordered Events.clashes l (events (db w)))
          then Ok tt else Throw DuplicateKeyError,
          set_db (set_events
                    (fst (insert_ordered Events.clashes l (events (db w))))
                    (db w))
                 (tick w)).
Proof.
  unfold Events.insertMany. destruct (negb _); [reflexivity|].
  unfold bind. rewrite await_storage_eq.
  destruct (next_rejects w); [reflexivity|].
  unfold get_db, put_db. rewrite db_tick.
  destruct (insert_ordered _ _ _) as [coll []]; reflexivity.
Qed.

Lemma notification_insertMany_eq (l : list Notification.t) (w : World) :
  Notifications.insertMany l w
  = if negb (forallb Notification.valid l) then (Throw ValidationError, w)
    else if next_rejects w then (Throw StorageError, tick w)
    else (if snd (insert_ordered Notifications.clashes l
                                 (notifications (db w)))
          then Ok tt else Throw DuplicateKeyError,
          set_db (set_notifications
                    (fst (insert_ordered Notifications.clashes l
                                         (notifications (db w))))
                    (db w))
                 (tick w)).
Proof.
  unfold Notifications.insertMany. destruct (negb _); [reflexivity|].
  unfold bind. rewrite await_storage_eq.
  destruct (next_rejects w); [reflexivity|].
  unfold get_db, put_db. rewrite db_tick.
  destruct (insert_ordered _ _ _) as [coll []]; reflexivity.
Qed.

Lemma sampleEvents_valid (e0 e1 e2 e3 e4 : string) (now : Z) :
  Forall (fun e => e <> EmptyString) [e0; e1; e2; e3; e4] ->
  forallb Events.valid (Seed.sampleEvents e0 e1 e2 e3 e4 now) = true.
Proof.
  intros H.
  repeat match goal with
         | H : Forall _ (_ :: _) |- _ => inversion H; clear H; subst
         end.
  repeat match goal with
         | H : _ <> EmptyString |- _ => apply truthy_true in H
         end.
  unfold Seed.sampleEvents, Seed.sampleEvent, Events.valid.
  cbn [forallb Event.eventId Event.type Event.sourceUserId].
  repeat match goal with
         | H : Js.truthy _ = true |- _ => rewrite H; clear H
         end.
  reflexivity.
Qed.

Lemma sampleNotifications_valid (n0 n1 n2 n3 n4 e0 e1 e2 e3 e4 : string)
      (now : Z) :
  Forall (fun n => n <> EmptyString) [n0; n1; n2; n3; n4] ->
  forallb Notification.valid
          (Seed.sampleNotifications n0 n1 n2 n3 n4 e0 e1 e2 e3 e4 now)
  = true.
Proof.
  intros H.
  repeat match goal with
         | H : Forall _ (_ :: _) |- _ => inversion H; clear H; subst
         end.
  repeat match goal with
         | H : _ <> EmptyString |- _ => apply truthy_true in H
         end.
  unfold Seed.sampleNotifications, Seed.sampleNotification,
    Notification.valid.
  cbn [forallb Notification.notificationId Notification.userId
               Notification.type Notification.content].
  repeat match goal with
         | H : Js.truthy _ = true |- _ => rewrite H; clear H
         end.
  reflexivity.
Qed.

(** X25.  Let no storage call reject, the three collections be empty,
    and the ten uuids to be drawn be non-empty, the first five distinct
    and the last five distinct.  Then [seedDatabase] returns normally
    and stores the five sample users, the five sample events under the
    first five uuids and the five sample notifications under the last
    five, each notification referring to the event it belongs to.  The
    unread counts are those the routine logs: three for user1, one for
    user2, none for user3. *)
Theorem seed_populates_empty_database (w : World) :
  healthy w = true ->
  db w = empty_db ->
  let id k := rng w (k + drawn w)%nat in
  Forall (fun k => id k <> EmptyString)
         [0; 1; 2; 3; 4; 5; 6; 7; 8; 9]%nat ->
  List.NoDup (map id [0; 1; 2; 3; 4]%nat) ->
  List.NoDup (map id [5; 6; 7; 8; 9]%nat) ->
  exists w',
    Seed.seedDatabase w = (Ok tt, w')
    /\ users (db w') = Seed.sampleUsers
    /\ events (db w')
       = Seed.sampleEvents (id 0%nat) (id 1%nat) (id 2%nat) (id 3%nat)
                           (id 4%nat) (clock (tick (tick w)))
    /\ notifications (db w')
       = Seed.sampleNotifications
           (id 5%nat) (id 6%nat) (id 7%nat) (id 8%nat) (id 9%nat)
           (id 0%nat) (id 1%nat) (id 2%nat) (id 3%nat) (id 4%nat)
           (clock (tick (tick (tick w))))
    /\ map Notification.relatedEventId (notifications (db w'))
       = map (fun e => Some (Event.eventId e)) (events (db w'))
    /\ fst (Notifications.getUnreadCount "user1" w') = Ok 3%nat
    /\ fst (Notifications.getUnreadCount "user2" w') = Ok 1%nat
    /\ fst (Notifications.getUnreadCount "user3" w') = Ok 0%nat.
Proof.
  intros Hh Hdb id Hids Hnd_e Hnd_n.
  destruct (healthy_steps w Hh) as (H0 & H1 & H2 & H3 & H4).
  assert (Forall (fun e => e <> EmptyString)
                 [id 0; id 1; id 2; id 3; id 4]%nat) as He.
  { repeat match goal with
           | H : Forall _ (_ :: _) |- _ => inversion H; clear H; subst
           end.
    repeat constructor; assumption. }
  assert (Forall (fun e => e <> EmptyString)
                 [id 5; id 6; id 7; id 8; id 9]%nat) as Hn.
  { repeat match goal with
           | H : Forall _ (_ :: _) |- _ => inversion H; clear H; subst
           end.
    repeat constructor; assumption. }
  unfold Seed.seedDatabase, try_catch. unfold bind at 1.
  rewrite countDocuments_eq, H0, Hdb.
  change ((0 <? List.length (users empty_db))%nat) with false. cbv iota.
  unfold bind at 1. rewrite user_insertMany_eq.
  change (negb (forallb User.valid Seed.sampleUsers)) with false. cbv iota.
  rewrite H1, db_tick, Hdb.
  change (insert_ordered Users.clashes Seed.sampleUsers (users empty_db))
    with (Seed.sampleUsers, true).
  cbn [fst snd].
  assert (forall x, Date_now x = (Ok (clock x), x)) as Date_now_eq
      by reflexivity.
  assert (forall x, rng (drew x) = rng x) as rng_drew by reflexivity.
  assert (forall x, drawn (drew x) = S (drawn x)) as drawn_drew
      by reflexivity.
  assert (forall x, clock (drew x) = clock x) as clock_drew by reflexivity.
  assert (forall x, db (drew x) = db x) as db_drew by reflexivity.
  assert (forall d x, rng (set_db d x) = rng x) as rng_set_db
      by reflexivity.
  assert (forall d x, drawn (set_db d x) = drawn x) as drawn_set_db
      by reflexivity.
  assert (forall d x, clock (set_db d x) = clock x) as clock_set_db
      by reflexivity.
  assert (forall d x, db (set_db d x) = d) as db_set_db by reflexivity.
  assert (forall x, rng (tick x) = rng x) as rng_tick'
      by (intros x; apply rng_tick).
  repeat (unfold bind at 1;
          first [rewrite uuidv4_eq | rewrite Date_now_eq]).
  unfold bind at 1. rewrite event_insertMany_eq.
  repeat rewrite ?tick_drew, ?tick_set_db, ?rng_drew, ?drawn_drew,
    ?clock_drew, ?db_drew, ?next_rejects_drew, ?rng_set_db, ?drawn_set_db,
    ?clock_set_db, ?db_set_db, ?next_rejects_set_db, ?rng_tick',
    ?drawn_tick.
  change (rng w (drawn w)) with (id 0%nat).
  change (rng w (S (drawn w))) with (id 1%nat).
  change (rng w (S (S (drawn w)))) with (id 2%nat).
  change (rng w (S (S (S (drawn w))))) with (id 3%nat).
  change (rng w (S (S (S (S (drawn w)))))) with (id 4%nat).
  rewrite (sampleEvents_valid _ _ _ _ _ _ He), H2.
  change (events (set_users Seed.sampleUsers empty_db)) with (@nil Event.t).
  assert (forall now,
             insert_ordered Events.clashes
               (Seed.sampleEvents (id 0%nat) (id 1%nat) (id 2%nat)
                                  (id 3%nat) (id 4%nat) now) []
             = (Seed.sampleEvents (id 0%nat) (id 1%nat) (id 2%nat)
                                  (id 3%nat) (id 4%nat) now, true))
    as Hevents.
  { intros now. apply (insert_ordered_distinct Event.eventId).
    exact Hnd_e. }
  rewrite Hevents. cbn [negb fst snd].
  repeat (unfold bind at 1;
          first [rewrite uuidv4_eq | rewrite Date_now_eq]).
  rewrite notification_insertMany_eq.
  repeat rewrite ?tick_drew, ?tick_set_db, ?rng_drew, ?drawn_drew,
    ?clock_drew, ?db_drew, ?next_rejects_drew, ?rng_set_db, ?drawn_set_db,
    ?clock_set_db, ?db_set_db, ?next_rejects_set_db, ?rng_tick',
    ?drawn_tick.
  change (rng w (S (S (S (S (S (drawn w))))))) with (id 5%nat).
  change (rng w (S (S (S (S (S (S (drawn w)))))))) with (id 6%nat).
  change (rng w (S (S (S (S (S (S (S (drawn w))))))))) with (id 7%nat).
  change (rng w (S (S (S (S (S (S (S (S (drawn w)))))))))) with (id 8%nat).
  change (rng w (S (S (S (S (S (S (S (S (S (drawn w)))))))))))
    with (id 9%nat).
  rewrite (sampleNotifications_valid _ _ _ _ _ _ _ _ _ _ _ Hn), H3.
  change (notifications (set_events _ (set_users Seed.sampleUsers empty_db)))
    with (@nil Notification.t).
  assert (forall now,
             insert_ordered Notifications.clashes
               (Seed.sampleNotifications
                  (id 5%nat) (id 6%nat) (id 7%nat) (id 8%nat) (id 9%nat)
                  (id 0%nat) (id 1%nat) (id 2%nat) (id 3%nat) (id 4%nat)
                  now) []
             = (Seed.sampleNotifications
                  (id 5%nat) (id 6%nat) (id 7%nat) (id 8%nat) (id 9%nat)
                  (id 0%nat) (id 1%nat) (id 2%nat) (id 3%nat) (id 4%nat)
                  now, true))
    as Hnotifications.
  { intros now.
    apply (insert_ordered_distinct Notification.notificationId).
    exact Hnd_n. }
  rewrite Hnotifications. cbn [negb fst snd].
  eexists. split; [reflexivity|].
  rewrite db_set_db. cbn [users events notifications set_notifications
                                set_events set_users].
  split; [reflexivity|]. split; [reflexivity|]. split; [reflexivity|].
  split; [reflexivity|].
  rewrite !getUnreadCount_eq.
  repeat rewrite ?next_rejects_set_db, ?next_rejects_drew.
  rewrite (healthy_next _ H4), db_set_db.
  cbn [fst notifications set_notifications].
  repeat split; vm_compute; reflexivity.
Qed.

(** ** The statements on the sample data *)


(** A comment of 61 characters is cut to its first 50 and marked. *)
Lemma comment_excerpt_bounded_witness :
  Event.type Samples.long_comment = "COMMENT"
  /\ Event.content (Event.data Samples.long_comment)
     = Some "0123456789012345678901234567890123456789012345678901234567890"
  /\ exists shown marker rest,
      Processor.generateNotificationContent Samples.long_comment Samples.u2
      = User.username Samples.u2 +:+ " commented: " +:+ Js.dquote
        +:+ (shown +:+ marker) +:+ Js.dquote
      /\ "0123456789012345678901234567890123456789012345678901234567890"
         = shown +:+ rest
      /\ (String.length shown <= 50)%nat
      /\ ((50 < String.length
                  "0123456789012345678901234567890123456789012345678901234567890")%nat ->
          marker = "..." /\ String.length shown = 50%nat)
      /\ ((String.length
             "0123456789012345678901234567890123456789012345678901234567890"
           <= 50)%nat -> marker = EmptyString /\ shown = "0123456789012345678901234567890123456789012345678901234567890").
Proof.
  split; [reflexivity|]. split; [reflexivity|].
  apply (comment_excerpt_bounded Samples.long_comment Samples.u2);
    [reflexivity | reflexivity | discriminate].
Defined.

(** Of two notifications forty days old, the sweep deletes the read one
    and keeps the unread one. *)
Lemma retention_sweep_spares_unread_witness :
  In Samples.stale_unread
     (notifications
        (db (exec Processor.cleanupOldNotifications
                  (Samples.world [Samples.stale_unread; Samples.stale_read]
                                 [] []))))
  /\ notifications
       (db (exec Processor.cleanupOldNotifications
                 (Samples.world [Samples.stale_unread; Samples.stale_read]
                                [] [])))
     = [Samples.stale_unread].
Proof.
  destruct (retention_sweep_spares_unread
              (Samples.world [Samples.stale_unread; Samples.stale_read] [] []))
    as (Heq & _ & Hkeep & _).
  split.
  - apply Hkeep; [left; reflexivity | reflexivity].
  - exact Heq.
Defined.

(** An unread notification that expired ten days ago is deleted by the
    expiry cleanup and kept by the retention sweep. *)
Lemma expiry_cleanup_ignores_status_witness :
  next_rejects (Samples.world [Samples.stale_unread; Samples.recent_like]
                              [] []) = false
  /\ Notification.status Samples.stale_unread = Notification.unread
  /\ ~ In Samples.stale_unread
         (notifications
            (db (exec Routes.postCleanup
                      (Samples.world [Samples.stale_unread; Samples.recent_like]
                                     [] []))))
  /\ In Samples.stale_unread
        (notifications
           (db (exec Processor.cleanupOldNotifications
                     (Samples.world [Samples.stale_unread; Samples.recent_like]
                                    [] [])))).
Proof.
  split; [reflexivity|]. split; [reflexivity|].
  destruct (expiry_cleanup_ignores_status
              (Samples.world [Samples.stale_unread; Samples.recent_like] [] [])
              eq_refl)
    as (_ & _ & Hgone & Hkept).
  split.
  - apply (Hgone Samples.stale_unread (Samples.noon - 10 * 24 * 60 * 60 * 1000));
      [left; reflexivity | reflexivity | reflexivity].
  - apply Hkept; [left; reflexivity | reflexivity].
Defined.


(** A like repeated one minute after the first is suppressed; repeated six
    minutes after, it is notified again. *)
Lemma dedup_within_five_minutes_witness :
  (Processor.createNotification
     Samples.like Samples.u2 Samples.u1
     (Samples.world [Samples.recent_like] [Samples.like] [])
   = (Ok None, tick (Samples.world [Samples.recent_like] [Samples.like] []))
   /\ db (tick (Samples.world [Samples.recent_like] [Samples.like] []))
      = db (Samples.world [Samples.recent_like] [Samples.like] []))
  /\ exists n' w',
      Processor.createNotification
        Samples.like Samples.u2 Samples.u1
        (Samples.world [Samples.earlier_like] [Samples.like] [])
      = (Ok (Some n'), w')
      /\ notifications (db w') = [Samples.earlier_like; n']
      /\ same_cause Samples.like Samples.u2 Samples.u1 n'
      /\ Notification.status n' = Notification.unread
      /\ Notification.relatedEventId n' = Some "e1"
      /\ Notification.timestamp n' = Samples.noon.
Proof.
  split.
  - apply (dedup_within_five_minutes
             (Samples.world [Samples.recent_like] [Samples.like] [])
             Samples.like Samples.u2 Samples.u1 eq_refl).
    exists Samples.recent_like.
    split; [left; reflexivity|].
    split; [repeat split | vm_compute; discriminate].
  - apply (dedup_within_five_minutes
             (Samples.world [Samples.earlier_like] [Samples.like] [])
             Samples.like Samples.u2 Samples.u1 eq_refl).
    + intros n [<-|[]] _. vm_compute. reflexivity.
    + reflexivity.
Defined.

(** Processing bobby's like of alice's post writes one notification and
    marks the stored event with it.  When the lookup of alice rejects,
    the run raises and nothing is changed. *)
Lemma processed_records_written_witness :
  (exists written w4,
      Processor.processEvent Samples.like (Samples.world [] [Samples.like] [])
      = (Ok (Some written), w4)
      /\ notifications (db w4) = written
      /\ List.length written = 1%nat
      /\ exists e',
          List.find (fun e => String.eqb (Event.eventId e) "e1")
                    (events (db w4)) = Some e'
          /\ Event.processed e' = true
          /\ Event.notificationsGenerated e'
             = map (fun n => (Notification.notificationId n,
                              Notification.userId n)) written)
  /\ fst (Processor.processEvent
            Samples.like
            (Samples.world [] [Samples.like]
                           ({| rejects := false; elapsed := 1 |}
                            :: Samples.outage)))
     = Throw StorageError
  /\ db (exec (Processor.processEvent Samples.like)
              (Samples.world [] [Samples.like]
                             ({| rejects := false; elapsed := 1 |}
                              :: Samples.outage)))
     = db (Samples.world [] [Samples.like] []).
Proof.
  split.
  - destruct (processed_records_written
                (Samples.world [] [Samples.like] []) Samples.like Samples.u2
                eq_refl eq_refl)
      as (_ & Hresolved).
    destruct (Hresolved [Samples.u1] (Samples.world [] [Samples.like] [])
                        eq_refl)
      as (written & w3 & Hrun & _ & _ & _ & _ & Hdone & _).
    vm_compute in Hrun. injection Hrun as <- <-.
    destruct (Hdone eq_refl) as (w4 & Hres & Hn & _ & Hev).
    eexists. exists w4. split; [exact Hres|]. split; [exact Hn|].
    split; [reflexivity|].
    apply (Hev Samples.like). reflexivity.
  - destruct (processed_records_written
                (Samples.world [] [Samples.like]
                               ({| rejects := false; elapsed := 1 |}
                                :: Samples.outage))
                Samples.like Samples.u2 eq_refl eq_refl)
      as (Hrejected & _).
    destruct (Hrejected StorageError
                        (tick (tick (Samples.world
                                       [] [Samples.like]
                                       ({| rejects := false; elapsed := 1 |}
                                        :: Samples.outage))))
                        eq_refl)
      as (Hraise & Hdb).
    split; [exact Hraise | exact Hdb].
Defined.


(** A like by an unknown user is logged and dropped without raising; a
    like whose source lookup rejects raises. *)
Lemma unresolved_source_returns_nothing_witness :
  List.find (fun u => String.eqb (User.userId u) "ghost")
            (users (db (Samples.world [] [Samples.ghost_like] []))) = None
  /\ db (exec (Processor.processEvent Samples.ghost_like)
              (Samples.world [] [Samples.ghost_like] []))
     = db (Samples.world [] [Samples.ghost_like] [])
  /\ fst (Processor.processEvent Samples.ghost_like
                                 (Samples.world [] [Samples.ghost_like] []))
     = Ok None
  /\ console (exec (Processor.processEvent Samples.ghost_like)
                   (Samples.world [] [Samples.ghost_like] []))
     = [(LError, "Source user not found: ghost")]
  /\ fst (Processor.processEvent
            Samples.like (Samples.world [] [Samples.like] Samples.outage))
     = Throw StorageError
  /\ next_rejects (Samples.world [] [Samples.like] Samples.outage) = true.
Proof.
  destruct (unresolved_source_returns_nothing
              (Samples.world [] [Samples.ghost_like] []) Samples.ghost_like)
    as (Hnone & _ & _).
  destruct (Hnone eq_refl) as (Hdb & Hquiet).
  destruct (Hquiet eq_refl) as (Hres & Hlog).
  split; [reflexivity|]. split; [exact Hdb|]. split; [exact Hres|].
  split; [exact Hlog|]. split; [reflexivity|].
  destruct (unresolved_source_returns_nothing
              (Samples.world [] [Samples.like] Samples.outage) Samples.like)
    as (_ & Hraise & _).
  destruct (Hraise StorageError eq_refl) as [Hnext|_];
    [exact Hnext | reflexivity].
Defined.


(** A like of one's own post notifies nobody; a mention of u1, u2 and u3
    by u2 has u1 and u3 as recipients. *)
Lemma source_user_never_notified_witness :
  notifications (db (exec (Processor.processEvent Samples.self_like)
                          (Samples.world [] [Samples.self_like] [])))
  = []
  /\ fst (Processor.getNotificationRecipients
            Samples.mention Samples.u2
            (Samples.world [] [Samples.mention] []))
     = Ok [Samples.u1; Samples.u3]
  /\ exists added,
      notifications (db (exec (Processor.processEvent Samples.mention)
                              (Samples.world [] [Samples.mention] [])))
      = added
      /\ Forall (fun n => Notification.userId n <> "u2") added.
Proof.
  split.
  - destruct (source_user_never_notified
                (Samples.world [] [Samples.self_like] []) Samples.self_like)
      as (Hself & _).
    exact (proj1 (Hself (or_introl eq_refl) eq_refl)).
  - destruct (source_user_never_notified
                (Samples.world [] [Samples.mention] []) Samples.mention)
      as (_ & Hmention).
    destruct (Hmention eq_refl) as (_ & Hlist & Hadded).
    split; [exact (Hlist Samples.u2 ["u1"; "u2"; "u3"] eq_refl eq_refl)|].
    exact Hadded.
Defined.

(** Dismissing an unread notification is an allowed move; marking a
    notification read twice changes nothing the second time. *)
Lemma status_moves_forward_witness :
  Forall2 evolves [Samples.recent_like]
          (notifications
             (db (exec (Routes.deleteNotification "n1")
                       (Samples.world [Samples.recent_like] [] []))))
  /\ db (exec (Routes.putRead "n1")
              (exec (Routes.putRead "n1")
                    (Samples.world [Samples.recent_like] [] [])))
     = db (exec (Routes.putRead "n1")
                (Samples.world [Samples.recent_like] [] [])).
Proof.
  split.
  - destruct (status_moves_forward
                (Samples.world [Samples.recent_like] [] []))
      as (_ & _ & Hdismiss & _).
    exact (Hdismiss "n1").
  - destruct (status_moves_forward
                (exec (Routes.putRead "n1")
                      (Samples.world [Samples.recent_like] [] [])))
      as (_ & _ & _ & _ & _ & _ & Hagain).
    eapply (Hagain "n1" 0%nat); [vm_compute; reflexivity | reflexivity].
Defined.

(** alice and bobby register, and alice asks to subscribe to SHARE, which
    the schema refuses.  bobby then shares alice's post: both users are
    found, alice is looked up as the recipient and filtered out by her
    preferences, so the run resolves to the empty list and writes
    nothing. *)
Lemma share_never_notifies_witness :
  let w :=
    perform (PutPreferences "u1" (Some Samples.want_share))
            (perform (PostUser "u2" "bobby" "u2@example.com")
                     (perform (PostUser "u1" "alice" "u1@example.com")
                              Samples.blank)) in
  reachable (db w)
  /\ users (db w) = [Samples.u1; Samples.u2]
  /\ List.find (fun u => String.eqb (User.userId u)
                                    (Event.sourceUserId Samples.share))
               (users (db w)) = Some Samples.u2
  /\ fst (Processor.getNotificationRecipients Samples.share Samples.u2 w)
     = Ok []
  /\ Processor.shouldReceiveNotification Samples.u1 "SHARE" = false
  /\ fst (Processor.processEvent Samples.share w) = Ok (Some [])
  /\ notifications (db (exec (Processor.processEvent Samples.share) w)) = []
  /\ console (exec (Processor.processEvent Samples.share) w) = console w.
Proof.
  intros w.
  assert (reachable (db w)) as Hreach.
  { apply reachable_step. apply reachable_step.
    apply (reachable_step Samples.blank). apply reachable_empty. }
  destruct (share_never_notifies _ Hreach)
    as (Hvalid & _ & _ & _ & Hshare).
  split; [exact Hreach|]. split; [reflexivity|]. split; [reflexivity|].
  split; [reflexivity|].
  split; [apply Hvalid; reflexivity|].
  split; [reflexivity|].
  split; [exact (proj1 (Hshare w Samples.share eq_refl eq_refl))|].
  reflexivity.
Defined.

(** The like of alice's post writes one notification, built from the
    event and bobby; building it took 3 ms, and it expires 30 days and
    3 ms after its timestamp. *)
Lemma written_notifications_well_formed_witness :
  exists n,
    notifications
      (db (exec (Processor.processEvent Samples.like)
                (Samples.sluggish [] [Samples.like] [])))
    = [n]
    /\ well_formed Samples.like Samples.u2 n
    /\ Notification.content n = "bobby liked your post"
    /\ Notification.expiresAt n
       = Some (Notification.timestamp n + Notification.thirty_days + 3).
Proof.
  destruct (written_notifications_well_formed
              (Samples.sluggish [] [Samples.like] []) Samples.like)
    as (added & Hn & Hall).
  vm_compute in Hn. subst added.
  eexists. split; [vm_compute; reflexivity|].
  destruct (Hall _ (or_introl eq_refl)) as (src & Hfind & Hwf & _).
  vm_compute in Hfind. injection Hfind as <-.
  split; [exact Hwf|]. split; reflexivity.
Defined.

(** With no front-end URL configured, the link of the like starts with
    the local default and leads to the post; the link of a like that
    names no post is the configured base alone. *)
Lemma notification_url_starts_with_base_witness :
  Processor.generateNotificationUrl None Samples.like
  = "http://localhost:3000" +:+ "/posts/p1"
  /\ Processor.generateNotificationUrl
       (Some "https://insyd.example")
       (Samples.event "e11" "LIKE" "u2" (Some "u1") None None None false
                      Samples.noon)
     = "https://insyd.example".
Proof.
  split.
  - destruct (notification_url_starts_with_base None Samples.like)
      as (base & path & Hurl & _ & _ & Hbase & _ & Hpost & _).
    rewrite Hurl, (Hbase (or_introl eq_refl)).
    destruct (Hpost "p1" eq_refl eq_refl) as [Hpath _].
    rewrite Hpath; [reflexivity | discriminate].
  - destruct (notification_url_starts_with_base
                (Some "https://insyd.example")
                (Samples.event "e11" "LIKE" "u2" (Some "u1") None None None
                               false Samples.noon))
      as (base & path & Hurl & _ & Hbase & _ & _ & _ & Hnone & _).
    rewrite Hurl, (Hbase _ eq_refl ltac:(discriminate)),
      (Hnone eq_refl eq_refl).
    reflexivity.
Defined.

(** The like of alice's post adds one notification, for alice. *)
Lemma single_target_at_most_one_witness :
  exists n,
    notifications
      (db (exec (Processor.processEvent Samples.like)
                (Samples.world [] [Samples.like] [])))
    = [n]
    /\ Event.targetUserId Samples.like = Some (Notification.userId n)
    /\ Notification.userId n = "u1".
Proof.
  destruct (single_target_at_most_one
              (Samples.world [] [Samples.like] []) Samples.like
              (or_introl eq_refl))
    as (added & Hn & _ & Hall).
  vm_compute in Hn. subst added.
  eexists. split; [vm_compute; reflexivity|].
  destruct (Hall _ (or_introl eq_refl)) as (Htarget & _).
  split; [exact Htarget | reflexivity].
Defined.

(** An event of type POKE is marked processed with nothing written. *)
Lemma unknown_type_still_processed_witness :
  exists w',
    Processor.processEvent Samples.poke
                           (Samples.world [] [Samples.poke] [])
    = (Ok (Some []), w')
    /\ console w' = [(LWarn, "Unknown event type: POKE")]
    /\ notifications (db w') = []
    /\ map Event.processed (events (db w')) = [true].
Proof.
  destruct (unknown_type_still_processed
              (Samples.world [] [Samples.poke] []) Samples.poke Samples.u2
              eq_refl eq_refl eq_refl eq_refl)
    as (w' & Hrun & Hc & Hn & _ & He).
  exists w'. split; [exact Hrun|]. split; [exact Hc|].
  split; [exact Hn|]. rewrite He. reflexivity.
Defined.

(** Of bobby's two followers only alice subscribes to new posts. *)
Lemma post_create_fans_out_to_followers_witness :
  fst (Processor.getNotificationRecipients
         Samples.post (User.set_followers ["u1"; "u3"] Samples.u2)
         Samples.crowd)
  = Ok [User.set_following ["u2"] Samples.u1]
  /\ map Notification.userId
         (notifications
            (db (exec (Processor.processEvent Samples.post) Samples.crowd)))
     = ["u1"].
Proof.
  destruct (post_create_fans_out_to_followers
              Samples.crowd Samples.post
              (User.set_followers ["u1"; "u3"] Samples.u2) eq_refl)
    as (Hrs & added & Hn & Hlen & _).
  split; [rewrite (Hrs eq_refl); reflexivity|].
  vm_compute in Hn. subst added. vm_compute. reflexivity.
Defined.

(** bobby follows alice: alice is told, with a link to bobby's
    profile. *)
Lemma follow_notifies_followed_user_witness :
  exists n w',
    Processor.processEvent Samples.follow
                           (Samples.world [] [Samples.follow] [])
    = (Ok (Some [n]), w')
    /\ Notification.userId n = "u1"
    /\ Notification.content n = "bobby started following you"
    /\ Notification.url (Notification.data n)
       = Some "http://localhost:3000/profile/u2".
Proof.
  destruct (follow_notifies_followed_user
              (Samples.world [] [Samples.follow] []) Samples.follow
              Samples.u2 Samples.u1 "u1")
    as (n & w' & Hrun & _ & _ & Hu & _ & _ & Hc & Hurl & _).
  all: try reflexivity; try discriminate.
  - intros n [].
  - intros n [].
  - exists n, w'. split; [exact Hrun|]. split; [exact Hu|].
    split; [exact Hc | exact Hurl].
Defined.

(** alice has two unread notifications: reading all reports two and
    leaves none unread. *)
Lemma read_all_clears_unread_count_witness :
  fst (Notifications.markAllAsRead
         "u1"
         (Samples.world [Samples.recent_like; Samples.earlier_like] [] []))
  = Ok 2%nat
  /\ fst (Notifications.getUnreadCount
            "u1"
            (exec (Notifications.markAllAsRead "u1")
                  (Samples.world [Samples.recent_like; Samples.earlier_like]
                                 [] [])))
     = Ok 0%nat.
Proof.
  destruct (read_all_clears_unread_count
              (Samples.world [Samples.recent_like; Samples.earlier_like]
                             [] [])
              "u1" eq_refl)
    as (k & w1 & Hrun & Hk & H0 & _).
  unfold exec. rewrite Hrun. simpl.
  split; [|exact H0].
  rewrite <- Hk. reflexivity.
Defined.

(** With the storage down for the first queued event, the ghost like
    waiting in the queue and the new like are both attempted; the like
    is written. *)
Lemma enqueue_never_raises_witness :
  exists w',
    EventQueue.enqueue
      Samples.like
      {| EventQueue.queue := [Samples.ghost_like];
         EventQueue.processing := false |}
      (Samples.world [] [Samples.like] Samples.outage)
    = (Ok EventQueue.constructor, w')
    /\ map Notification.userId (notifications (db w')) = ["u1"].
Proof.
  destruct (enqueue_never_raises
              {| EventQueue.queue := [Samples.ghost_like];
                 EventQueue.processing := false |}
              Samples.like
              (Samples.world [] [Samples.like] Samples.outage))
    as (q' & w' & Hrun & _ & Hidle & _).
  destruct (Hidle eq_refl) as (-> & Hfail & _).
  exists w'. split; [exact Hrun|].
  rewrite (Hfail Samples.ghost_like [Samples.like] StorageError
                 eq_refl eq_refl).
  vm_compute. reflexivity.
Defined.

(** bobby follows alice: both documents record it, and a repeated
    request changes nothing. *)
Lemma follow_links_both_users_witness :
  exists w',
    Routes.postFollow "u2" (Some "u1") (Samples.world [] [] [])
    = (Ok 200%nat, w')
    /\ map User.following (users (db w')) = [[]; ["u1"]; []]
    /\ map User.followers (users (db w')) = [["u2"]; []; []]
    /\ db (exec (Routes.postFollow "u2" (Some "u1")) w') = db w'.
Proof.
  destruct (follow_links_both_users
              (Samples.world [] [] []) "u2" "u1" 1 0 Samples.u2 Samples.u1
              eq_refl ltac:(discriminate) ltac:(discriminate)
              eq_refl eq_refl eq_refl eq_refl)
    as (w' & Hrun & _ & _ & _ & _ & _ & _ & Hagain).
  exists w'. split; [exact Hrun|].
  split; [|split; [|exact Hagain]].
  - vm_compute in Hrun. injection Hrun as <-. reflexivity.
  - vm_compute in Hrun. injection Hrun as <-. reflexivity.
Defined.

(** The storage fails at the fourth call: bobby follows alice, alice
    has no follower, and the request answers 500. *)
Lemma follow_can_stop_halfway_witness :
  exists w',
    Routes.postFollow
      "u2" (Some "u1")
      (Samples.world [] []
         ({| rejects := false; elapsed := 1 |}
          :: {| rejects := false; elapsed := 1 |}
          :: {| rejects := false; elapsed := 1 |} :: Samples.outage))
    = (Ok 500%nat, w')
    /\ map User.following (users (db w')) = [[]; ["u1"]; []]
    /\ map User.followers (users (db w')) = [[]; []; []].
Proof.
  destruct (follow_can_stop_halfway
              (Samples.world [] []
                 ({| rejects := false; elapsed := 1 |}
                  :: {| rejects := false; elapsed := 1 |}
                  :: {| rejects := false; elapsed := 1 |} :: Samples.outage))
              "u2" "u1" 1 0 Samples.u2 Samples.u1
              eq_refl eq_refl eq_refl eq_refl
              ltac:(discriminate) ltac:(discriminate)
              eq_refl eq_refl eq_refl eq_refl (fun H => H))
    as (w' & u' & Hrun & _).
  exists w'. split; [exact Hrun|].
  vm_compute in Hrun. injection Hrun as <-. split; reflexivity.
Defined.

(** alice stops following bobby: carol remains his only follower. *)
Lemma unfollow_removes_link_witness :
  exists w',
    Routes.deleteFollow "u1" (Some "u2") Samples.crowd = (Ok 200%nat, w')
    /\ map User.following (users (db w')) = [[]; []; ["u2"]]
    /\ map User.followers (users (db w')) = [[]; ["u3"]; []].
Proof.
  destruct (unfollow_removes_link
              Samples.crowd "u1" "u2" 0 1
              (User.set_following ["u2"] Samples.u1)
              (User.set_followers ["u1"; "u3"] Samples.u2)
              eq_refl ltac:(discriminate) eq_refl eq_refl eq_refl eq_refl)
    as (w' & u' & t' & Hrun & _).
  exists w'. split; [exact Hrun|].
  vm_compute in Hrun. injection Hrun as <-. split; reflexivity.
Defined.

(** bobby follows alice and unfollows her again. *)
Lemma unfollow_undoes_follow_witness :
  db (exec (Routes.deleteFollow "u2" (Some "u1"))
           (exec (Routes.postFollow "u2" (Some "u1"))
                 (Samples.world [] [] [])))
  = db (Samples.world [] [] []).
Proof.
  destruct (unfollow_undoes_follow
              (Samples.world [] [] []) "u2" "u1" 1 0 Samples.u2 Samples.u1
              eq_refl ltac:(discriminate) ltac:(discriminate)
              eq_refl eq_refl eq_refl eq_refl (fun H => H) (fun H => H))
    as (w1 & w2 & Hfollow & Hunfollow & _ & Hdb).
  unfold exec. rewrite Hfollow. cbn [snd]. rewrite Hunfollow. exact Hdb.
Defined.

(** A sweep over a processed like, a fresh like and a like by an unknown
    user: the fresh like becomes processed, the other two stay as they
    are. *)
Lemma sweep_processes_resolvable_events_witness :
  map Event.processed
      (events
         (db (exec Processor.processUnprocessedEvents
                   (Samples.world
                      []
                      [Samples.settled; Samples.like; Samples.ghost_like]
                      []))))
  = [true; true; false]
  /\ Forall2
       (fun e e' => Event.eventId e' = Event.eventId e)
       [Samples.settled; Samples.like; Samples.ghost_like]
       (events
          (db (exec Processor.processUnprocessedEvents
                    (Samples.world
                       []
                       [Samples.settled; Samples.like; Samples.ghost_like]
                       [])))).
Proof.
  destruct (sweep_processes_resolvable_events
              (Samples.world
                 [] [Samples.settled; Samples.like; Samples.ghost_like] [])
              eq_refl)
    as (_ & _ & Hevents).
  - simpl.
    repeat (apply List.NoDup_cons; [simpl; intuition discriminate|]).
    apply List.NoDup_nil.
  - split; [vm_compute; reflexivity|].
    eapply List.Forall2_impl; [|exact Hevents].
    intros e e' H. exact (proj1 H).
Defined.

(** A like posted by bobby is saved under the drawn uuid; a request of
    an unknown type is refused. *)
Lemma post_event_answers_witness :
  (exists w',
      Routes.postEvent (Some "LIKE") (Some "u2") (Some "u1")
                       {| Routes.bodyPostId := Some "p1";
                          Routes.bodyCommentId := None;
                          Routes.bodyContent := None;
                          Routes.bodyMetadata := None |}
                       (Samples.world [] [] [])
      = (Ok 201%nat, w')
      /\ map Event.eventId (events (db w')) = ["a-uuid"])
  /\ Routes.postEvent (Some "POKE") (Some "u2") (Some "u1")
                      {| Routes.bodyPostId := Some "p1";
                         Routes.bodyCommentId := None;
                         Routes.bodyContent := None;
                         Routes.bodyMetadata := None |}
                      (Samples.world [] [] [])
     = (Ok 400%nat, Samples.world [] [] []).
Proof.
  split.
  - destruct (post_event_answers
                (Some "LIKE") (Some "u2") (Some "u1")
                {| Routes.bodyPostId := Some "p1";
                   Routes.bodyCommentId := None;
                   Routes.bodyContent := None;
                   Routes.bodyMetadata := None |}
                (Samples.world [] [] []))
      as (_ & Hvalid).
    destruct (Hvalid eq_refl eq_refl eq_refl) as (w' & Hrun & _ & Hids & _).
    exists w'. split; [exact Hrun | exact Hids].
  - destruct (post_event_answers
                (Some "POKE") (Some "u2") (Some "u1")
                {| Routes.bodyPostId := Some "p1";
                   Routes.bodyCommentId := None;
                   Routes.bodyContent := None;
                   Routes.bodyMetadata := None |}
                (Samples.world [] [] []))
      as (Hinvalid & _).
    apply Hinvalid. right. right. reflexivity.
Defined.

(** bobby's like of alice's post is stored processed, with the one
    notification written for alice; the same like by an unknown user is
    stored unprocessed. *)
Lemma posted_event_processed_iff_source_known_witness :
  (exists w',
      Routes.postEvent (Some "LIKE") (Some "u2") (Some "u1")
                       {| Routes.bodyPostId := Some "p1";
                          Routes.bodyCommentId := None;
                          Routes.bodyContent := None;
                          Routes.bodyMetadata := None |}
                       (Samples.world [] [] [])
      = (Ok 201%nat, w')
      /\ map Event.processed (events (db w')) = [true]
      /\ map Event.notificationsGenerated (events (db w'))
         = [[("b-uuid", "u1")]])
  /\ (exists w',
         Routes.postEvent (Some "LIKE") (Some "ghost") (Some "u1")
                          {| Routes.bodyPostId := Some "p1";
                             Routes.bodyCommentId := None;
                             Routes.bodyContent := None;
                             Routes.bodyMetadata := None |}
                          (Samples.world [] [] [])
         = (Ok 201%nat, w')
         /\ map Event.processed (events (db w')) = [false]
         /\ notifications (db w') = []).
Proof.
  split.
  - destruct (posted_event_processed_iff_source_known
                "LIKE" "u2" (Some "u1")
                {| Routes.bodyPostId := Some "p1";
                   Routes.bodyCommentId := None;
                   Routes.bodyContent := None;
                   Routes.bodyMetadata := None |}
                (Samples.world [] [] [])
                eq_refl eq_refl ltac:(discriminate) ltac:(discriminate)
                (fun e (H : In e []) => match H with end))
      as (w' & added & Hrun & _).
    exists w'. split; [exact Hrun|].
    vm_compute in Hrun. injection Hrun as <-. split; reflexivity.
  - destruct (posted_event_processed_iff_source_known
                "LIKE" "ghost" (Some "u1")
                {| Routes.bodyPostId := Some "p1";
                   Routes.bodyCommentId := None;
                   Routes.bodyContent := None;
                   Routes.bodyMetadata := None |}
                (Samples.world [] [] [])
                eq_refl eq_refl ltac:(discriminate) ltac:(discriminate)
                (fun e (H : In e []) => match H with end))
      as (w' & added & Hrun & _ & Hn & _ & He & Hnone).
    exists w'. split; [exact Hrun|].
    rewrite He, Hn, (Hnone eq_refl). split; reflexivity.
Defined.

(** After alice registers twice and an event is posted, the indexes
    hold: the second registration was refused. *)
Lemma reachable_ids_unique_witness :
  ids_unique
    (db (perform (PostEvent (Some "LIKE") (Some "u1") None
                            {| Routes.bodyPostId := Some "p1";
                               Routes.bodyCommentId := None;
                               Routes.bodyContent := None;
                               Routes.bodyMetadata := None |})
                 (perform (PostUser "u1" "alice" "u1@example.com")
                          (perform (PostUser "u1" "alice" "u1@example.com")
                                   Samples.blank))))
  /\ List.length
       (users
          (db (perform (PostUser "u1" "alice" "u1@example.com")
                       (perform (PostUser "u1" "alice" "u1@example.com")
                                Samples.blank))))
     = 1%nat.
Proof.
  split; [|reflexivity].
  apply reachable_ids_unique.
  apply reachable_step. apply reachable_step.
  apply (reachable_step Samples.blank). apply reachable_empty.
Defined.

(** alice switches e-mail off and keeps only likes: accepted.  Asking
    for SHARE as well is refused and changes nothing. *)
Lemma preferences_merged_or_refused_witness :
  (exists w',
      Routes.putPreferences
        "u1"
        (Some {| Routes.newEmailNotifications := Some false;
                 Routes.newPushNotifications := None;
                 Routes.newNotificationTypes := Some ["LIKE"] |})
        (Samples.world [] [] [])
      = (Ok 200%nat, w')
      /\ map User.preferences (users (db w'))
         = [{| User.emailNotifications := false;
               User.pushNotifications := true;
               User.notificationTypes := ["LIKE"] |};
            User.default_preferences; User.default_preferences])
  /\ exists w',
      Routes.putPreferences "u1" (Some Samples.want_share)
                            (Samples.world [] [] [])
      = (Ok 500%nat, w')
      /\ db w' = db (Samples.world [] [] []).
Proof.
  destruct (preferences_merged_or_refused (Samples.world [] [] []) "u1")
    as (_ & _ & H).
  split.
  - destruct (H {| Routes.newEmailNotifications := Some false;
                   Routes.newPushNotifications := None;
                   Routes.newNotificationTypes := Some ["LIKE"] |}
                0%nat Samples.u1 eq_refl eq_refl eq_refl eq_refl)
      as (w' & Hrun & _).
    exists w'. split; [exact Hrun|].
    vm_compute in Hrun. injection Hrun as <-. reflexivity.
  - destruct (H Samples.want_share 0%nat Samples.u1
                eq_refl eq_refl eq_refl eq_refl)
      as (w' & Hrun & Hrefused & _).
    exists w'. split; [exact Hrun|]. apply Hrefused. reflexivity.
Defined.

(** Deleting the like leaves the other event and the notification that
    refers to an event; an unknown id answers 404. *)
Lemma delete_event_removes_one_witness :
  (exists w',
      Routes.deleteEvent
        "e1" (Samples.world [Samples.recent_like]
                            [Samples.settled; Samples.like] [])
      = (Ok 200%nat, w')
      /\ events (db w') = [Samples.settled]
      /\ notifications (db w') = [Samples.recent_like])
  /\ fst (Routes.deleteEvent
            "e0" (Samples.world [Samples.recent_like]
                                [Samples.settled; Samples.like] []))
     = Ok 404%nat.
Proof.
  destruct (delete_event_removes_one
              (Samples.world [Samples.recent_like]
                             [Samples.settled; Samples.like] []) "e1")
    as (_ & _ & Hfound).
  destruct (delete_event_removes_one
              (Samples.world [Samples.recent_like]
                             [Samples.settled; Samples.like] []) "e0")
    as (_ & Hmissing & _).
  split.
  - destruct (Hfound Samples.like eq_refl (or_intror (or_introl eq_refl))
                     eq_refl)
      as (before & deleted & after & w' & Hrun & _ & _ & _ & _ & Hn & _).
    exists w'. split; [exact Hrun|]. split; [|exact Hn].
    vm_compute in Hrun. injection Hrun as <-. reflexivity.
  - rewrite Hmissing; [reflexivity | reflexivity |].
    intros e [<-|[<-|[]]]; discriminate.
Defined.

(** Seeding a database that holds users changes nothing; clearing it
    empties it. *)
Lemma seed_skips_populated_database_witness :
  db (exec Seed.seedDatabase (Samples.world [] [Samples.like] []))
  = db (Samples.world [] [Samples.like] [])
  /\ db (exec Seed.clearDatabase (Samples.world [] [Samples.like] []))
     = empty_db.
Proof.
  destruct (seed_skips_populated_database
              (Samples.world [] [Samples.like] []))
    as (Hseed & Hclear & _).
  split.
  - apply Hseed. discriminate.
  - apply Hclear. reflexivity.
Defined.

(** Of the two stored likes the newer one is returned under limit 1. *)
Lemma events_by_type_newest_first_witness :
  fst (Events.getEventsByType
         "LIKE" (Some 1%nat)
         (Samples.world [] [Samples.settled; Samples.share; Samples.like]
                        []))
  = Ok [Samples.like]
  /\ Event.timestamp Samples.settled <= Event.timestamp Samples.like.
Proof.
  destruct (events_by_type_newest_first
              (Samples.world [] [Samples.settled; Samples.share; Samples.like]
                             [])
              "LIKE" (Some 1%nat) eq_refl)
    as (l & rest & Hrun & _ & Hperm & _ & _ & Hcross).
  vm_compute in Hrun. injection Hrun as <-.
  split; [vm_compute; reflexivity|].
  apply Hcross; [left; reflexivity|].
  assert (In Samples.settled ([Samples.like] ++ rest)) as Hin.
  { apply (Permutation_in _ (Permutation_sym Hperm)).
    vm_compute. left. reflexivity. }
  destruct Hin as [Heq|Hin]; [|exact Hin].
  apply (f_equal Event.eventId) in Heq. vm_compute in Heq.
  discriminate Heq.
Defined.

(** A notification of one minute ago reads '1m ago'; one of forty days
    ago that expired shows the date. *)
Lemma time_ago_ranges_witness :
  Notifications.timeAgo (fun _ => "1 Jan") Samples.recent_like
                        (Samples.world [] [] [])
  = (Ok "1m ago", Samples.world [] [] [])
  /\ Notifications.timeAgo (fun _ => "1 Jan") Samples.stale_unread
                           (Samples.world [] [] [])
     = (Ok "1 Jan", Samples.world [] [] []).
Proof.
  destruct (time_ago_ranges (fun _ => "1 Jan") Samples.recent_like
                            (Samples.world [] [] []))
    as (_ & Hminutes & _).
  destruct (time_ago_ranges (fun _ => "1 Jan") Samples.stale_unread
                            (Samples.world [] [] []))
    as (_ & _ & _ & _ & _ & Hexpired).
  split.
  - destruct Hminutes as (m & _ & Hshown & Hage);
      [vm_compute; split; [discriminate | reflexivity]|].
    rewrite Hshown. vm_compute in Hage. injection Hage as <-.
    reflexivity.
  - apply Hexpired; reflexivity.
Defined.

(** Of two notifications forty days old, the expiry cleanup keeps none
    and the retention sweep keeps the unread one. *)
Lemma retention_within_expiry_witness :
  notifications
    (db (exec Notifications.cleanupExpired
              (Samples.world [Samples.stale_unread; Samples.stale_read]
                             [] [])))
  = []
  /\ Notification.status Samples.stale_unread = Notification.unread
  /\ Notification.timestamp Samples.stale_unread
     < clock (Samples.world [Samples.stale_unread; Samples.stale_read] [] [])
       - Notification.thirty_days.
Proof.
  destruct (retention_within_expiry
              (Samples.world [Samples.stale_unread; Samples.stale_read]
                             [] [])
              eq_refl)
    as (_ & _ & Honly).
  - intros n [<-|[<-|[]]]; reflexivity.
  - split; [reflexivity|].
    apply Honly; [vm_compute; left; reflexivity|].
    vm_compute. intros [].
Defined.

(** The like was processed a minute ago and its event records the
    notification n1.  Processed again, it writes nothing and the record
    is empty. *)
Lemma reprocessing_erases_generated_witness :
  exists w',
    Processor.processEvent
      Samples.like
      (Samples.world [Samples.recent_like]
                     [Event.mark_processed [("n1", "u1")] Samples.like] [])
    = (Ok (Some []), w')
    /\ notifications (db w') = [Samples.recent_like]
    /\ map Event.notificationsGenerated (events (db w')) = [[]].
Proof.
  destruct (reprocessing_erases_generated
              (Samples.world [Samples.recent_like]
                             [Event.mark_processed [("n1", "u1")]
                                                   Samples.like] [])
              Samples.like Samples.u2 [Samples.u1]
              (Samples.world [Samples.recent_like]
                             [Event.mark_processed [("n1", "u1")]
                                                   Samples.like] [])
              eq_refl eq_refl eq_refl)
    as (w' & Hrun & Hn & _).
  - intros r [<-|[]]. exists Samples.recent_like.
    split; [left; reflexivity|].
    split; [repeat split|]. vm_compute. discriminate.
  - exists w'. split; [exact Hrun|]. split; [exact Hn|].
    vm_compute in Hrun. injection Hrun as <-. reflexivity.
Defined.

(** alice has two unread notifications; reading n1, or dismissing it,
    leaves her one. *)
Lemma settling_lowers_unread_count_witness :
  fst (Notifications.getUnreadCount
         "u1"
         (exec (Routes.putRead "n1")
               (Samples.world [Samples.recent_like; Samples.earlier_like]
                              [] [])))
  = Ok 1%nat
  /\ map Notification.status
         (notifications
            (db (exec (Routes.deleteNotification "n1")
                      (Samples.world
                         [Samples.recent_like; Samples.earlier_like]
                         [] []))))
     = [Notification.dismissed; Notification.unread].
Proof.
  destruct (settling_lowers_unread_count
              (Samples.world [Samples.recent_like; Samples.earlier_like]
                             [] [])
              "n1" 0%nat Samples.recent_like
              eq_refl eq_refl eq_refl eq_refl)
    as ((w1 & Hread & _ & Hcount & _) & (w2 & Hdismiss & _)).
  unfold exec. rewrite Hread, Hdismiss. cbn [snd]. split.
  - rewrite getUnreadCount_eq.
    replace (next_rejects w1) with false
      by (vm_compute in Hread; injection Hread as <-; reflexivity).
    cbn [fst]. f_equal.
    change (Notification.userId Samples.recent_like) with "u1" in Hcount.
    injection Hcount as Hcount. rewrite Hcount.
    vm_compute. reflexivity.
  - vm_compute in Hdismiss. injection Hdismiss as <-. reflexivity.
Defined.

(** Seeding the blank world stores the five users and the five events;
    user1 ends with three unread notifications. *)
Lemma seed_populates_empty_database_witness :
  exists w',
    Seed.seedDatabase Samples.blank = (Ok tt, w')
    /\ map User.userId (users (db w'))
       = ["user1"; "user2"; "user3"; "user4"; "user5"]
    /\ map Event.eventId (events (db w'))
       = ["a-uuid"; "b-uuid"; "c-uuid"; "d-uuid"; "e-uuid"]
    /\ fst (Notifications.getUnreadCount "user1" w') = Ok 3%nat.
Proof.
  destruct (seed_populates_empty_database Samples.blank eq_refl eq_refl)
    as (w' & Hrun & Hu & He & _ & _ & Hcount & _).
  - repeat constructor; discriminate.
  - simpl.
    repeat (apply List.NoDup_cons; [simpl; intuition discriminate|]).
    apply List.NoDup_nil.
  - simpl.
    repeat (apply List.NoDup_cons; [simpl; intuition discriminate|]).
    apply List.NoDup_nil.
  - exists w'. split; [exact Hrun|].
    rewrite Hu, He. split; [reflexivity|]. split; [reflexivity|].
    exact Hcount.
Defined.
